(** * MFA Manager: the one-time-password core, embedded and verified

    The repository is a Flask application (src/app.py, src/models.py) that
    stores accounts and derives their codes with the pyotp library.  This
    development embeds

    - the account model [MFAAccount] with [get_totp_code],
      [get_remaining_time] and [get_qr_code_url] (src/models.py); the fourth
      method, [generate_qr_code_image], hands the URI to the qrcode and
      Pillow libraries and is not embedded,
    - the add and edit request handlers with their validation and
      normalisation of the secret (src/app.py),
    - the library code those lines call: pyotp 2.9.0 ([OTP], [TOTP],
      [build_uri]), CPython's [base64.b32decode], [hmac], [urllib.parse.quote]
      and [urlencode], and SHA-1 as in FIPS 180-4.

    Python values are modelled as follows.  An [int] is a [Z]; a [bytes]
    object is a list of [Z] in [0, 256); a [str] is the list of its Unicode
    code points; a [float] is the rational it denotes ([Q]), the result of
    a float operation being rounded as a double rounds it ([Float]); an
    exception is a value of [exn] carried by [result].  The core has two
    effects, explicit in the type [Py]: reading the wall clock, and asking
    the C library for the instant of a local time ([time.mktime]). *)

From Stdlib Require Import ZArith QArith Qround Qabs List Lia Lqa Bool.
From Stdlib Require Import Strings.String Strings.Ascii.
From stdpp Require Import gmap strings.

Local Open Scope Z_scope.

(** ** Python values *)

Definition bytes := list Z.
Definition str := list Z.

(** A literal: the code points of an ASCII string. *)
Fixpoint py (s : string) : str :=
  match s with
  | EmptyString => []
  | String c r => Z.of_N (N_of_ascii c) :: py r
  end.

Inductive exn : Type :=
| ValueError (msg : string)
| binascii_Error (msg : string)
| UnicodeEncodeError
| OverflowError
| IndexError
| ZeroDivisionError.

Inductive result (A : Type) : Type :=
| Ok (a : A)
| Raise (e : exn).
Arguments Ok {A} a.
Arguments Raise {A} e.

Definition rbind {A B} (m : result A) (f : A -> result B) : result B :=
  match m with
  | Ok a => f a
  | Raise e => Raise e
  end.

Declare Scope result_scope.
Delimit Scope result_scope with result.
Notation "x <- m ;; k" := (rbind m (fun x => k))
  (at level 100, m at next level, right associativity) : result_scope.
Local Open Scope result_scope.

Definition is_ok {A} (r : result A) : bool :=
  match r with Ok _ => true | Raise _ => false end.

(** [len(s)] as an int. *)
Definition len {A} (s : list A) : Z := Z.of_nat (length s).

(** [s[i:j]] for in-range, non-negative [i <= j]. *)
Definition slice {A} (s : list A) (i j : nat) : list A :=
  firstn (j - i) (skipn i s).

(** [range(0, n, step)]. *)
Definition range_step (n step : nat) : list nat :=
  map (fun k => (k * step)%nat) (seq 0 ((n + step - 1) / step)).

(** [s[i]]: a negative index counts from the end; out of range raises
    [IndexError]. *)
Definition index (s : list Z) (i : Z) : result Z :=
  let j := if i <? 0 then i + len s else i in
  if j <? 0 then Raise IndexError
  else match nth_error s (Z.to_nat j) with
       | Some x => Ok x
       | None => Raise IndexError
       end.

(** [int(x)] for a float: truncation toward zero. *)
Definition int_of_float (x : Q) : Z :=
  if Qle_bool 0 x then Qfloor x else Qceiling x.

(** ** Floats

    A Python float is an IEEE 754 double: 53 significant bits, every
    operation rounded to the nearest double, ties to the even one.  The
    doubles met here are times in seconds, far from the subnormal and from
    the infinite ones, which are not modelled; below 2^53 the rounding is
    the one of the machine, and from 2^53 on, which the time of no
    [datetime] reaches (the year 9999 ends before 2^38 seconds), a value is
    rounded to a whole number. *)

Module Float.

(** The nearest integer, ties to even. *)
Definition round_half_even (x : Q) : Z :=
  let f := Qfloor x in
  match Qcompare (x - inject_Z f) (1 # 2) with
  | Lt => f
  | Gt => f + 1
  | Eq => if Z.even f then f else f + 1
  end.

(** The binary exponent of [x > 0]: the [e] with [2^e <= x < 2^(e+1)]. *)
Definition exponent (x : Q) : Z :=
  if Qle_bool 1 x then Z.log2 (Qfloor x)
  else - Z.log2_up (Qceiling (/ x)).

(** The number of binary places that 53 significant bits leave to [x]. *)
Definition places (x : Q) : Z := Z.max 0 (52 - exponent (Qabs x)).

(** The double nearest to [x]. *)
Definition round (x : Q) : Q :=
  let k := places x in
  (inject_Z (round_half_even (x * inject_Z (2 ^ k))) / inject_Z (2 ^ k))%Q.

Definition add (x y : Q) : Q := round (x + y).

Definition div (x y : Q) : Q := round (x / y).

End Float.

(** [x.to_bytes(n, 'big')] for [x >= 0]; a value that does not fit raises
    [OverflowError]. *)
Definition to_bytes (n : nat) (x : Z) : result bytes :=
  if (x <? 0) || (256 ^ Z.of_nat n <=? x) then Raise OverflowError
  else Ok (map (fun i => Z.land (Z.shiftr x (8 * Z.of_nat i)) 255)
               (rev (seq 0 n))).

(** [int.from_bytes(b, 'big')]. *)
Definition from_bytes (b : bytes) : Z :=
  fold_left (fun acc x => acc * 256 + x) b 0.

(** [s.rstrip(c)]: drop every trailing occurrence of the character [c]. *)
Fixpoint rstrip (c : Z) (s : list Z) : list Z :=
  match s with
  | [] => []
  | x :: r =>
      match rstrip c r with
      | [] => if x =? c then [] else [x]
      | r' => x :: r'
      end
  end.

(** [bytes.upper()]: the ASCII letters a-z are mapped to A-Z. *)
Definition ascii_upper (c : Z) : Z :=
  if (97 <=? c) && (c <=? 122) then c - 32 else c.

(** [str(n)] for an int: decimal digits, most significant first, with a
    minus sign for negative values. *)
Fixpoint digits_rev (fuel : nat) (n : Z) : list Z :=
  match fuel with
  | O => []
  | S f => if n <? 10 then [48 + n]
           else (48 + n mod 10) :: digits_rev f (n / 10)
  end.

Definition str_int (n : Z) : str :=
  if n <? 0 then 45 :: rev (digits_rev (S (Z.to_nat (Z.log2 (- n)))) (- n))
  else rev (digits_rev (S (Z.to_nat (Z.log2 n))) n).

(** [s[i:]] with Python's treatment of a negative start: it counts from the
    end and is clamped at the beginning of the string. *)
Definition slice_from {A} (s : list A) (i : Z) : list A :=
  if i <? 0 then skipn (Z.to_nat (Z.max (len s + i) 0)) s
  else skipn (Z.to_nat i) s.

(** ** SHA-1 (FIPS 180-4) and HMAC (RFC 2104, Lib/hmac.py) *)

Module Hashlib.

Definition mask32 : Z := 0xFFFFFFFF.

(** Addition of 32-bit words wraps around. *)
Definition add32 (a b : Z) : Z := Z.land (a + b) mask32.

Definition rotl32 (n x : Z) : Z :=
  Z.land (Z.lor (Z.shiftl x n) (Z.shiftr x (32 - n))) mask32.

Definition not32 (x : Z) : Z := Z.lxor x mask32.

(** Padding: a 1 bit, zeros up to 56 mod 64 bytes, the bit length on 8
    bytes. *)
Definition pad (msg : bytes) : bytes :=
  let l := len msg in
  msg ++ [0x80] ++ repeat 0 (Z.to_nat ((55 - l) mod 64))
      ++ map (fun i => Z.land (Z.shiftr (8 * l) (8 * Z.of_nat i)) 255)
             (rev (seq 0 8)).

(** The 32-bit big-endian words of a block. *)
Fixpoint words (n : nat) (b : bytes) : list Z :=
  match n with
  | O => []
  | S k => from_bytes (firstn 4 b) :: words k (skipn 4 b)
  end.

(** The message schedule, latest word first: 64 words are derived from
    the 16 of the block. *)
Fixpoint schedule (n : nat) (w_rev : list Z) : list Z :=
  match n with
  | O => w_rev
  | S k =>
      let x := Z.lxor (Z.lxor (nth 2 w_rev 0) (nth 7 w_rev 0))
                      (Z.lxor (nth 13 w_rev 0) (nth 15 w_rev 0)) in
      schedule k (rotl32 1 x :: w_rev)
  end.

Record state := State { h0 : Z; h1 : Z; h2 : Z; h3 : Z; h4 : Z }.

Definition init : state :=
  State 0x67452301 0xEFCDAB89 0x98BADCFE 0x10325476 0xC3D2E1F0.

Definition f_k (t : nat) (b c d : Z) : Z * Z :=
  if (t <? 20)%nat then (Z.lor (Z.land b c) (Z.land (not32 b) d), 0x5A827999)
  else if (t <? 40)%nat then (Z.lxor (Z.lxor b c) d, 0x6ED9EBA1)
  else if (t <? 60)%nat then
    (Z.lor (Z.lor (Z.land b c) (Z.land b d)) (Z.land c d), 0x8F1BBCDC)
  else (Z.lxor (Z.lxor b c) d, 0xCA62C1D6).

Fixpoint rounds (t : nat) (w : list Z) (s : state) : state :=
  match w with
  | [] => s
  | wt :: w' =>
      let '(f, k) := f_k t (h1 s) (h2 s) (h3 s) in
      let tmp := add32 (add32 (add32 (add32 (rotl32 5 (h0 s)) f) (h4 s)) k) wt in
      rounds (S t) w' (State tmp (h0 s) (rotl32 30 (h1 s)) (h2 s) (h3 s))
  end.

Definition compress (s : state) (block : bytes) : state :=
  let w := rev (schedule 64 (rev (words 16 block))) in
  let r := rounds 0 w s in
  State (add32 (h0 s) (h0 r)) (add32 (h1 s) (h1 r)) (add32 (h2 s) (h2 r))
        (add32 (h3 s) (h3 r)) (add32 (h4 s) (h4 r)).

Fixpoint blocks (n : nat) (m : bytes) (s : state) : state :=
  match n with
  | O => s
  | S k => blocks k (skipn 64 m) (compress s (firstn 64 m))
  end.

Definition word_bytes (x : Z) : bytes :=
  map (fun i => Z.land (Z.shiftr x (8 * Z.of_nat i)) 255) (rev (seq 0 4)).

(** [hashlib.sha1(msg).digest()] *)
Definition sha1 (msg : bytes) : bytes :=
  let m := pad msg in
  let s := blocks (length m / 64) m init in
  word_bytes (h0 s) ++ word_bytes (h1 s) ++ word_bytes (h2 s)
    ++ word_bytes (h3 s) ++ word_bytes (h4 s).

End Hashlib.

Module Hmac.

Definition block_size : nat := 64.

(** [hmac.new(key, msg, hashlib.sha1).digest()] *)
Definition digest (key msg : bytes) : bytes :=
  let key := if (block_size <? length key)%nat then Hashlib.sha1 key else key in
  let key := key ++ repeat 0 (block_size - length key) in
  let inner := Hashlib.sha1 (map (Z.lxor 0x36) key ++ msg) in
  Hashlib.sha1 (map (Z.lxor 0x5C) key ++ inner).

End Hmac.

(** ** base64.b32decode (CPython, Lib/base64.py) *)

Module Base64.

(** [_b32alphabet = b'ABCDEFGHIJKLMNOPQRSTUVWXYZ234567']; [b32rev] is the
    reverse table [_b32rev[alphabet]], a dict from byte to digit value. *)
Definition b32rev (c : Z) : option Z :=
  if (65 <=? c) && (c <=? 90) then Some (c - 65)
  else if (50 <=? c) && (c <=? 55) then Some (c - 24)
  else None.

(** [_bytes_from_decode_data(s)] for a [str] argument: [s.encode('ascii')]. *)
Definition bytes_from_decode_data (s : str) : result bytes :=
  if forallb (fun c => (0 <=? c) && (c <? 128)) s then Ok s
  else Raise (ValueError "string argument should contain only ASCII characters").

(** The inner loop: [for c in quanta: acc = (acc << 5) + b32rev[c]], where
    a missing key raises. *)
Fixpoint quanta_acc (quanta : bytes) (acc : Z) : result Z :=
  match quanta with
  | [] => Ok acc
  | c :: q =>
      match b32rev c with
      | Some v => quanta_acc q (Z.shiftl acc 5 + v)
      | None => Raise (binascii_Error "Non-base32 digit found")
      end
  end.

(** The outer loop [for i in range(0, len(s), 8)] over the state
    [(decoded, acc)]. *)
Fixpoint decode_loop (s : bytes) (idx : list nat) (st : bytes * Z)
  : result (bytes * Z) :=
  match idx with
  | [] => Ok st
  | i :: idx' =>
      let quanta := slice s i (i + 8) in
      acc <- quanta_acc quanta 0 ;;
      b <- to_bytes 5 acc ;;
      decode_loop s idx' (fst st ++ b, acc)
  end.

Definition valid_padchars (p : Z) : bool :=
  (p =? 0) || (p =? 1) || (p =? 3) || (p =? 4) || (p =? 6).

(** [b32decode(s, casefold)] with [map01=None]. *)
Definition b32decode (s : str) (casefold : bool) : result bytes :=
  s <- bytes_from_decode_data s ;;
  if negb (len s mod 8 =? 0) then Raise (binascii_Error "Incorrect padding")
  else
    let s := if casefold then map ascii_upper s else s in
    let l := len s in
    let s := rstrip 61 s in
    let padchars := l - len s in
    st <- decode_loop s (range_step (length s) 8) ([], 0) ;;
    let decoded := fst st in
    let acc := snd st in
    if negb (l mod 8 =? 0) || negb (valid_padchars padchars)
    then Raise (binascii_Error "Incorrect padding")
    else if negb (padchars =? 0) && negb (length decoded =? 0)%nat then
      let acc := Z.shiftl acc (5 * padchars) in
      last <- to_bytes 5 acc ;;
      let leftover := (43 - 5 * padchars) / 8 in
      Ok (firstn (length decoded - 5) decoded
            ++ firstn (Z.to_nat leftover) last)
    else Ok decoded.

End Base64.

(** ** The wall clock

    A [datetime] carries whole microseconds.  The value returned by
    [datetime.now()] is a naive local time with its [fold]; it is identified
    with the instant it stands for, the number of microseconds since the
    epoch shown by the host clock, which never reads before the epoch. *)

Definition datetime := N.

Module Datetime.

(** The epoch second of an instant and the microseconds past it. *)
Definition seconds (d : datetime) : Z := Z.of_N d / 1000000.

Definition microsecond (d : datetime) : Z := Z.of_N d mod 1000000.

(** [d.timestamp()] of a naive datetime.  The whole seconds are those of
    the instant ([fold] is taken into account); they are added to the
    fraction as doubles:
    [seconds - EPOCH_SECONDS + DATE_GET_MICROSECOND(self) / 1e6]. *)
Definition timestamp (d : datetime) : Q :=
  Float.add (inject_Z (seconds d))
            (Float.div (inject_Z (microsecond d)) (inject_Z 1000000)).

Definition of_seconds (s : N) : datetime := (s * 1000000)%N.



End Datetime.

(** A computation that may read the clock and ask the C library:
    [DatetimeNow k] calls [datetime.now()] and continues with its value,
    [TimeMktime d k] calls [time.mktime(d.timetuple())] and continues with
    the whole number of seconds it answers. *)
Inductive Py (A : Type) : Type :=
| Pure (r : result A)
| DatetimeNow (k : datetime -> Py A)
| TimeMktime (d : datetime) (k : Z -> Py A).
Arguments Pure {A} r.
Arguments DatetimeNow {A} k.
Arguments TimeMktime {A} d k.

Fixpoint pbind {A B} (m : Py A) (f : A -> Py B) : Py B :=
  match m with
  | Pure (Ok a) => f a
  | Pure (Raise e) => Pure (Raise e)
  | DatetimeNow k => DatetimeNow (fun d => pbind (k d) f)
  | TimeMktime d k => TimeMktime d (fun z => pbind (k z) f)
  end.

(** [try: m  except Exception as e: h e] *)
Fixpoint try_except {A} (m : Py A) (h : exn -> Py A) : Py A :=
  match m with
  | Pure (Ok a) => Pure (Ok a)
  | Pure (Raise e) => h e
  | DatetimeNow k => DatetimeNow (fun d => try_except (k d) h)
  | TimeMktime d k => TimeMktime d (fun z => try_except (k z) h)
  end.

(** The environment of a run: what the clock shows at its [i]-th reading,
    and what the C library answers to the [j]-th call of [time.mktime] for
    the time tuple of a datetime. *)
Record world := World {
  clock : nat -> datetime;
  mktime : nat -> datetime -> Z
}.

(** Running a computation in a world, from the [i]-th reading of the clock
    and the [j]-th call of [time.mktime] on. *)
Fixpoint run {A} (w : world) (i j : nat) (m : Py A) : result A :=
  match m with
  | Pure r => r
  | DatetimeNow k => run w (S i) j (k (clock w i))
  | TimeMktime d k => run w i (S j) (k (mktime w j d))
  end.

(** The readings and calls that such a run has made when it ends. *)
Fixpoint reads {A} (w : world) (i j : nat) (m : Py A) : nat * nat :=
  match m with
  | Pure _ => (i, j)
  | DatetimeNow k => reads w (S i) j (k (clock w i))
  | TimeMktime d k => reads w i (S j) (k (mktime w j d))
  end.

(** A world in which [time.mktime] answers the instant that was read, as
    it does for every local time that occurs once. *)
Definition faithful (clock : nat -> datetime) : world :=
  World clock (fun _ d => Datetime.seconds d).

(** At the reading [i] of the clock, the call [j] of [time.mktime]
    answers the instant that was read. *)
Definition answers_instant (w : world) (i j : nat) : Prop :=
  mktime w j (clock w i) = Datetime.seconds (clock w i).


(** A world in which [time.mktime] never answers an instant before the
    epoch. *)
Definition after_epoch (w : world) : Prop :=
  forall j d, 0 <= mktime w j d.

(** Running a computation while the clock shows [d] and [time.mktime]
    answers the instant read. *)
Fixpoint run_at {A} (d : datetime) (m : Py A) : result A :=
  match m with
  | Pure r => r
  | DatetimeNow k => run_at d (k d)
  | TimeMktime d' k => run_at d (k (Datetime.seconds d'))
  end.


(** ** pyotp 2.9.0 (pyotp/otp.py, pyotp/totp.py) *)

Module Pyotp.

(** The attributes of a [TOTP] object.  The digest is always
    [hashlib.sha1], the default: the application never passes another. *)
Record totp := Totp {
  secret : str;
  digits : Z;
  name : str;
  issuer : option str;
  interval : Z
}.

(** [TOTP.__init__] and [OTP.__init__]. *)
Definition init (s : str) (digits : Z) (name : option str)
           (issuer : option str) (interval : Z) : result totp :=
  if 10 <? digits then Raise (ValueError "digits must be no greater than 10")
  else Ok {| secret := s; digits := digits;
             name := match name with
                     | Some (c :: n) => c :: n
                     | _ => py "Secret"
                     end;
             issuer := issuer; interval := interval |}.

(** [pyotp.TOTP(s)]: every keyword argument at its default. *)
Definition TOTP (s : str) : result totp := init s 6 None None 30.

(** [OTP.byte_secret] *)
Definition byte_secret (t : totp) : result bytes :=
  let secret := secret t in
  let missing_padding := len secret mod 8 in
  let secret :=
    if negb (missing_padding =? 0)
    then secret ++ repeat 61 (Z.to_nat (8 - missing_padding))
    else secret in
  Base64.b32decode secret true.

(** The loop of [OTP.int_to_bytestring]:
    [while i != 0: result.append(i & 0xFF); i >>= 8].  It ends for every
    [i >= 0]; the fuel bounds the number of iterations. *)
Fixpoint int_to_bytestring_loop (fuel : nat) (i : Z) (result : bytes)
  : bytes :=
  match fuel with
  | O => result
  | S f => if i =? 0 then result
           else int_to_bytestring_loop f (Z.shiftr i 8)
                  (result ++ [Z.land i 0xFF])
  end.

(** [bytes(bytearray(reversed(result)).rjust(padding, b"\0"))] *)
Definition int_to_bytestring (i : Z) (padding : nat) : bytes :=
  let result := int_to_bytestring_loop (S (Z.to_nat (Z.log2 i))) i [] in
  repeat 0 (padding - length result) ++ rev result.

(** [OTP.generate_otp], in three parts.  The dynamic truncation of the
    digest:
    [offset = hmac_hash[-1] & 0xF] and
    [code = (hmac_hash[offset] & 0x7F) << 24 | ... | hmac_hash[offset + 3] & 0xFF] *)
Definition truncate (hmac_hash : bytes) : result Z :=
  last <- index hmac_hash (-1) ;;
  let offset := Z.land last 0xF in
  b0 <- index hmac_hash offset ;;
  b1 <- index hmac_hash (offset + 1) ;;
  b2 <- index hmac_hash (offset + 2) ;;
  b3 <- index hmac_hash (offset + 3) ;;
  Ok (Z.lor (Z.lor (Z.lor (Z.shiftl (Z.land b0 0x7F) 24)
                          (Z.shiftl (Z.land b1 0xFF) 16))
                   (Z.shiftl (Z.land b2 0xFF) 8))
            (Z.land b3 0xFF)).

(** The decimal string:
    [str_code = str(10_000_000_000 + (code % 10**self.digits))] and
    [return str_code[-self.digits:]] *)
Definition format_code (digits code : Z) : str :=
  let str_code := str_int (10000000000 + code mod 10 ^ digits) in
  slice_from str_code (- digits).

Definition generate_otp (t : totp) (input : Z) : result str :=
  if input <? 0 then Raise (ValueError "input must be positive integer")
  else
    key <- byte_secret t ;;
    let hmac_hash := Hmac.digest key (int_to_bytestring input 8) in
    code <- truncate hmac_hash ;;
    Ok (format_code (digits t) code).

(** [TOTP.timecode] for a naive datetime:
    [int(time.mktime(for_time.timetuple()) / self.interval)].  The answer of
    [time.mktime] is a whole number of seconds.  Its quotient by the
    interval is taken as the rational it is: a whole number below 2^53
    divided by 30 lies at least 1/30 from the next whole number, farther
    than a double rounds, so the integer part is the same. *)
Definition timecode (t : totp) (for_time : datetime) : Py Z :=
  TimeMktime for_time (fun seconds =>
    Pure (if interval t =? 0 then Raise ZeroDivisionError
          else Ok (int_of_float
                     (inject_Z seconds / inject_Z (interval t))))).

(** [TOTP.now]:
    [self.generate_otp(self.timecode(datetime.datetime.now()))] *)
Definition now (t : totp) : Py str :=
  DatetimeNow (fun d =>
    pbind (timecode t d) (fun tc => Pure (generate_otp t tc))).

End Pyotp.

(** ** urllib.parse (CPython, Lib/urllib/parse.py) *)

Module Urllib.

(** [str.encode('utf-8', 'strict')]: a surrogate cannot be encoded. *)
Definition utf8_char (c : Z) : result bytes :=
  if c <? 0 then Raise UnicodeEncodeError
  else if c <? 0x80 then Ok [c]
  else if c <? 0x800 then
    Ok [Z.lor 0xC0 (Z.shiftr c 6); Z.lor 0x80 (Z.land c 0x3F)]
  else if (0xD800 <=? c) && (c <=? 0xDFFF) then Raise UnicodeEncodeError
  else if c <? 0x10000 then
    Ok [Z.lor 0xE0 (Z.shiftr c 12);
        Z.lor 0x80 (Z.land (Z.shiftr c 6) 0x3F);
        Z.lor 0x80 (Z.land c 0x3F)]
  else if c <? 0x110000 then
    Ok [Z.lor 0xF0 (Z.shiftr c 18);
        Z.lor 0x80 (Z.land (Z.shiftr c 12) 0x3F);
        Z.lor 0x80 (Z.land (Z.shiftr c 6) 0x3F);
        Z.lor 0x80 (Z.land c 0x3F)]
  else Raise UnicodeEncodeError.

Fixpoint encode_utf8 (s : str) : result bytes :=
  match s with
  | [] => Ok []
  | c :: r => b <- utf8_char c ;; br <- encode_utf8 r ;; Ok (b ++ br)
  end.

(** [_ALWAYS_SAFE]: letters, digits and [_.-~]. *)
Definition always_safe (b : Z) : bool :=
  ((65 <=? b) && (b <=? 90)) || ((97 <=? b) && (b <=? 122))
  || ((48 <=? b) && (b <=? 57))
  || (b =? 95) || (b =? 46) || (b =? 45) || (b =? 126).

(** One digit of the format ['%{:02X}']. *)
Definition hex_digit (n : Z) : Z := if n <? 10 then 48 + n else 55 + n.

(** [_Quoter(safe).__getitem__]:
    [chr(b) if b in self.safe else '%{:02X}'.format(b)] *)
Definition quoter (safe : bytes) (b : Z) : str :=
  if always_safe b || existsb (Z.eqb b) safe then [b]
  else [37; hex_digit (b / 16); hex_digit (b mod 16)].

(** [quote_from_bytes(bs, safe)] with [safe] a [str]. *)
Definition quote_from_bytes (bs : bytes) (safe : str) : str :=
  match bs with
  | [] => []
  | _ =>
      let safe := filter (fun c => bool_decide (c < 128)) safe in
      if forallb (fun b => always_safe b || existsb (Z.eqb b) safe) bs
      then bs
      else flat_map (quoter safe) bs
  end.

(** [quote(string, safe)] for a [str], with the default encoding and
    error handling. *)
Definition quote (string : str) (safe : str) : result str :=
  match string with
  | [] => Ok string
  | _ => bs <- encode_utf8 string ;; Ok (quote_from_bytes bs safe)
  end.

(** [s.replace(old, new)] for a pattern [old] of one character. *)
Definition replace (old : Z) (new : str) (s : str) : str :=
  flat_map (fun c => if c =? old then new else [c]) s.

(** [quote_plus(string, safe)] *)
Definition quote_plus (string : str) (safe : str) : result str :=
  if negb (existsb (Z.eqb 32) string) then quote string safe
  else
    string <- quote string (safe ++ py " ") ;;
    Ok (replace 32 (py "+") string).

(** A value of the query dict: the application passes [str] and [int]. *)
Inductive value := VStr (s : str) | VInt (n : Z).

(** [str(v)] *)
Definition str_of (v : value) : str :=
  match v with VStr s => s | VInt n => str_int n end.

(** [sep.join(l)] *)
Fixpoint join (sep : str) (l : list str) : str :=
  match l with
  | [] => []
  | [x] => x
  | x :: r => x ++ sep ++ join sep r
  end.

(** The loop of [urlencode(query)] with [doseq=False] and
    [quote_via=quote_plus], over the items of the dict in insertion order. *)
Fixpoint urlencode_items (query : list (str * value)) : result (list str) :=
  match query with
  | [] => Ok []
  | (k, v) :: r =>
      k <- quote_plus k [] ;;
      v <- quote_plus (str_of v) [] ;;
      l <- urlencode_items r ;;
      Ok ((k ++ py "=" ++ v) :: l)
  end.

Definition urlencode (query : list (str * value)) : result str :=
  l <- urlencode_items query ;; Ok (join (py "&") l).

End Urllib.

Module PyotpUtils.

Import Urllib.

(** [pyotp.utils.build_uri] without extra keyword arguments.  The dict
    [url_args] keeps insertion order and its keys are distinct, it is the
    list of its items. *)
Definition build_uri (secret name : str) (initial_count : option Z)
           (issuer : option str) (algorithm : option str)
           (digits period : option Z) : result str :=
  let is_initial_count_present := bool_decide (initial_count <> None) in
  let is_algorithm_set :=
    bool_decide (algorithm <> None /\ algorithm <> Some (py "sha1")) in
  let is_digits_set := bool_decide (digits <> None /\ digits <> Some 6) in
  let is_period_set := bool_decide (period <> None /\ period <> Some 30) in
  let otp_type := if is_initial_count_present then py "hotp" else py "totp" in
  let url_args := [(py "secret", VStr secret)] in
  label <- quote name (py "/") ;;
  lu <- match issuer with
        | Some i =>
            qi <- quote i (py "/") ;;
            Ok (qi ++ py ":" ++ label, url_args ++ [(py "issuer", VStr i)])
        | None => Ok (label, url_args)
        end ;;
  let label := fst lu in
  let url_args := snd lu in
  let url_args :=
    match initial_count with
    | Some c => url_args ++ [(py "counter", VInt c)]
    | None => url_args
    end in
  let url_args :=
    match algorithm with
    | Some a => if is_algorithm_set
                then url_args ++ [(py "algorithm", VStr (map ascii_upper a))]
                else url_args
    | None => url_args
    end in
  let url_args :=
    match digits with
    | Some d => if is_digits_set then url_args ++ [(py "digits", VInt d)]
                else url_args
    | None => url_args
    end in
  let url_args :=
    match period with
    | Some p => if is_period_set then url_args ++ [(py "period", VInt p)]
                else url_args
    | None => url_args
    end in
  q <- urlencode url_args ;;
  Ok (py "otpauth://" ++ otp_type ++ py "/" ++ label ++ py "?"
        ++ replace 43 (py "%20") q).

(** Python's truth value of an optional string: [None] and [''] are
    false. *)
Definition truthy (s : option str) : bool :=
  match s with Some (_ :: _) => true | _ => false end.

(** [TOTP.provisioning_uri(name, issuer_name)] *)
Definition provisioning_uri (t : Pyotp.totp) (name issuer_name : option str)
  : result str :=
  build_uri (Pyotp.secret t)
    (if truthy name then default [] name else Pyotp.name t)
    None
    (if truthy issuer_name then issuer_name else Pyotp.issuer t)
    (Some (py "sha1"))
    (Some (Pyotp.digits t))
    (Some (Pyotp.interval t)).

End PyotpUtils.

(** ** src/models.py *)

Module Models.

(** A row of the table [mfa_accounts]: the four columns that the
    functions of src/ read and write.  The primary key [id] is the key under
    which the row is stored.  The columns [created_at] and [updated_at] are
    not part of the record: no function of src/ reads them, the database
    fills them in, and every UPDATE of a row rewrites its [updated_at]. *)
Record MFAAccount := {
  account_name : str;
  secret : str;
  issuer : option str;
  hidden : bool
}.

(** [MFAAccount.__init__], followed by the column defaults that
    SQLAlchemy fills in for the attributes left unset
    ([issuer]: ['MFA Manager'], [hidden]: [False]). *)
Definition new (account_name secret : str) (issuer : option str)
  : MFAAccount :=
  {| account_name := account_name;
     secret := secret;
     issuer := if PyotpUtils.truthy issuer then issuer
               else Some (py "MFA Manager");
     hidden := false |}.

(** [get_totp_code]: [pyotp.TOTP(self.secret).now()] *)
Definition get_totp_code (self : MFAAccount) : Py str :=
  pbind (Pure (Pyotp.TOTP (secret self))) Pyotp.now.

(** [get_remaining_time]:
    [30 - (int(datetime.now().timestamp()) % 30)]; the [TOTP] object it
    builds first is not used. *)
Definition get_remaining_time (self : MFAAccount) : Py Z :=
  pbind (Pure (Pyotp.TOTP (secret self))) (fun totp =>
  DatetimeNow (fun d =>
    Pure (Ok (30 - int_of_float (Datetime.timestamp d) mod 30)))).

(** [get_qr_code_url] *)
Definition get_qr_code_url (self : MFAAccount) : result str :=
  t <- Pyotp.TOTP (secret self) ;;
  PyotpUtils.provisioning_uri t (Some (account_name self)) (issuer self).

End Models.

(** ** src/app.py *)

Module App.

Import Models.

Section Handlers.

(** [str.upper()] follows the Unicode case mapping.  On ASCII it is the
    map a-z to A-Z; the mapping of the other code points (a table of the
    interpreter, one code point may give several) is a parameter. *)
Variable unicode_upper : Z -> list Z.

Definition str_upper (s : str) : str :=
  flat_map (fun c => if (0 <=? c) && (c <? 128) then [ascii_upper c]
                     else unicode_upper c) s.

(** [secret.upper().replace(' ', '')] *)
Definition normalize (secret : str) : str :=
  Urllib.replace 32 [] (str_upper secret).

Inductive http_method := GET | POST.

Inductive flash :=
| required
| invalid_secret (e : exn)
| name_exists
| added
| updated
| toggled
| deleted
| db_error.

Inductive response :=
| render_template (template : string) (flashed : list flash)
| redirect (endpoint : string) (flashed : list flash)
| not_found.

(** [request.form]: a dict from field name to text. *)
Definition form := gmap string str.

(** The table [mfa_accounts], by primary key. *)
Definition table := gmap Z MFAAccount.

(** [MFAAccount.query.filter_by(account_name=n).first()] is not [None]. *)
Definition existing (db : table) (n : str) : bool :=
  bool_decide (map_Exists (fun _ a => account_name a = n) db).

(** The key SQLite gives to a new row: one more than the largest. *)
Definition next_id (db : table) : Z :=
  1 + map_fold (fun k _ m => Z.max k m) 0 db.

(** [try: pyotp.TOTP(secret).now()  except Exception as e: ...]: the
    exception caught, if any. *)
Definition validate (secret : str) : Py (option exn) :=
  try_except
    (pbind (pbind (Pure (Pyotp.TOTP secret)) Pyotp.now)
           (fun _ => Pure (Ok None)))
    (fun e => Pure (Ok (Some e))).

(** [add_account]; [commit_ok] tells whether [db.session.commit()]
    succeeds, a failed commit is rolled back. *)
Definition add_account (method : http_method) (f : form)
           (commit_ok : bool) (db : table) : Py (response * table) :=
  match method with
  | GET => Pure (Ok (render_template "add_account.html" [], db))
  | POST =>
      let account_name := f !! "account_name"%string in
      let secret := f !! "secret"%string in
      let issuer := Some (default (py "MFA Manager") (f !! "issuer"%string)) in
      if negb (PyotpUtils.truthy account_name)
         || negb (PyotpUtils.truthy secret)
      then Pure (Ok (render_template "add_account.html" [required], db))
      else
        let account_name := default [] account_name in
        let secret := default [] secret in
        pbind (validate secret) (fun v =>
        match v with
        | Some e =>
            Pure (Ok (render_template "add_account.html"
                        [invalid_secret e], db))
        | None =>
            if existing db account_name
            then Pure (Ok (render_template "add_account.html"
                             [name_exists], db))
            else
              let new_account :=
                Models.new account_name (normalize secret) issuer in
              if commit_ok
              then Pure (Ok (redirect "index" [added],
                             <[next_id db := new_account]> db))
              else Pure (Ok (render_template "add_account.html"
                               [db_error], db))
        end)
  end.

(** [edit_account] *)
Definition edit_account (account_id : Z) (method : http_method) (f : form)
           (commit_ok : bool) (db : table) : Py (response * table) :=
  match db !! account_id with
  | None => Pure (Ok (not_found, db))
  | Some account =>
      match method with
      | GET => Pure (Ok (render_template "edit_account.html" [], db))
      | POST =>
          let new_account_name := f !! "account_name"%string in
          let new_secret := f !! "secret"%string in
          let new_issuer :=
            Some (default (py "MFA Manager") (f !! "issuer"%string)) in
          if negb (PyotpUtils.truthy new_account_name)
             || negb (PyotpUtils.truthy new_secret)
          then Pure (Ok (render_template "edit_account.html" [required], db))
          else
            let new_account_name := default [] new_account_name in
            let new_secret := default [] new_secret in
            pbind (validate new_secret) (fun v =>
            match v with
            | Some e =>
                Pure (Ok (render_template "edit_account.html"
                            [invalid_secret e], db))
            | None =>
                if bool_decide (new_account_name <> account_name account)
                   && existing db new_account_name
                then Pure (Ok (render_template "edit_account.html"
                                 [name_exists], db))
                else
                  let hidden :=
                    bool_decide (f !! "hidden"%string = Some (py "on")) in
                  let account :=
                    {| account_name := new_account_name;
                       secret := normalize new_secret;
                       issuer := new_issuer;
                       hidden := hidden |} in
                  if commit_ok
                  then Pure (Ok (redirect "view_account" [updated],
                                 <[account_id := account]> db))
                  else Pure (Ok (render_template "edit_account.html"
                                   [db_error], db))
            end)
      end
  end.

(** [toggle_hidden] and [delete_account]: the other two handlers that
    write to the table. *)
Definition toggle_hidden (account_id : Z) (commit_ok : bool) (db : table)
  : response * table :=
  match db !! account_id with
  | None => (not_found, db)
  | Some account =>
      let account :=
        {| account_name := account_name account;
           secret := secret account;
           issuer := issuer account;
           hidden := negb (hidden account) |} in
      if commit_ok
      then (redirect "index" [toggled], <[account_id := account]> db)
      else (redirect "index" [db_error], db)
  end.

Definition delete_account (account_id : Z) (commit_ok : bool) (db : table)
  : response * table :=
  match db !! account_id with
  | None => (not_found, db)
  | Some account =>
      if commit_ok
      then (redirect "index" [deleted], delete account_id db)
      else (redirect "index" [db_error], db)
  end.

(** One request served while the clock shows [d]. *)
Inductive step (db : table) : table -> Prop :=
| step_add m f c d r db' :
    run_at d (add_account m f c db) = Ok (r, db') -> step db db'
| step_edit i m f c d r db' :
    run_at d (edit_account i m f c db) = Ok (r, db') -> step db db'
| step_toggle i c : step db (snd (toggle_hidden i c db))
| step_delete i c : step db (snd (delete_account i c db)).

(** The tables the application can build from an empty database. *)
Inductive reachable : table -> Prop :=
| reachable_empty : reachable ∅
| reachable_step db db' : reachable db -> step db db' -> reachable db'.

(** The invariant of the table: every stored secret is its own normal
    form. *)
Definition normalized (db : table) : Prop :=
  map_Forall (fun _ a => secret a = normalize (secret a)) db.

End Handlers.

End App.

(** ** Accounts used in the examples *)

(** The key of RFC 4226, Appendix D: the ASCII bytes of
    [12345678901234567890], in Base32. *)
Definition rfc4226_secret : str := py "GEZDGNBVGY3TQOJQGEZDGNBVGY3TQOJQ".

Definition rfc4226_account : Models.MFAAccount :=
  {| Models.account_name := py "rfc4226";
     Models.secret := rfc4226_secret;
     Models.issuer := Some (py "MFA Manager");
     Models.hidden := false |}.

Definition alice_account : Models.MFAAccount :=
  {| Models.account_name := py "alice";
     Models.secret := py "JBSWY3DPEHPK3PXP";
     Models.issuer := Some (py "MFA Manager");
     Models.hidden := false |}.



(** ** Notions used in the statements *)

(** A secret is valid when pyotp decodes it to a key. *)
Definition valid_secret (s : str) : bool :=
  is_ok (t <- Pyotp.TOTP s ;; Pyotp.byte_secret t).

(** The decimal digits of [v] on exactly [k] characters, zeros on the
    left. *)
Definition zero_padded (k : nat) (v : Z) : str :=
  rev (map (fun j => 48 + (v / 10 ^ Z.of_nat j) mod 10) (seq 0 k)).

Definition is_decimal_digit (c : Z) : Prop := 48 <= c <= 57.

(** A Base32 digit in either case: A-Z, a-z, 2-7. *)
Definition base32_digit (c : Z) : bool :=
  ((65 <=? c) && (c <=? 90)) || ((97 <=? c) && (c <=? 122))
  || ((50 <=? c) && (c <=? 55)).

(** The number of [=] that pyotp appends to reach a multiple of eight. *)
Definition missing_padding (raw : str) : Z := (8 - len raw mod 8) mod 8.

(** The number of [=] at the end of the text that is decoded: those of the
    input and those appended. *)
Definition padding_count (raw : str) : Z :=
  len raw - len (rstrip 61 raw) + missing_padding raw.

(** The secret check of section 4.1 of the specification, in its words:
    whitespace is stripped, the text is upper-cased, padding is removed, and
    the secret is invalid when nothing is left, when a character is outside
    A-Z2-7, or when the digits decode to zero bytes. *)
Module Spec.

Definition whitespace (c : Z) : bool :=
  (c =? 32) || ((9 <=? c) && (c <=? 13)).

Definition normalize (raw : str) : str :=
  map ascii_upper (filter (fun c => negb (whitespace c)) raw).

Definition in_alphabet (c : Z) : bool :=
  ((65 <=? c) && (c <=? 90)) || ((50 <=? c) && (c <=? 55)).

Definition decoded_length (digits : str) : Z := 5 * len digits / 8.

Definition invalid_secret (raw : str) : bool :=
  let digits := rstrip 61 (normalize raw) in
  (len digits =? 0) || negb (forallb in_alphabet digits)
  || (decoded_length digits =? 0).

(** The provisioning URI of section 4.4, from the encoded issuer and
    account name. *)
Definition canonical_uri (issuer_enc account_enc secret : str)
           (digits step : Z) : str :=
  py "otpauth://totp/" ++ issuer_enc ++ py ":" ++ account_enc
    ++ py "?secret=" ++ secret ++ py "&issuer=" ++ issuer_enc
    ++ py "&algorithm=SHA1&digits=" ++ str_int digits
    ++ py "&period=" ++ str_int step.

End Spec.

(** A form and the table it gives when posted to an empty database. *)
Definition alice_form : App.form :=
  <["account_name"%string := py "alice"]>
    (<["secret"%string := py "jbswy3dpehpk3pxp"]> ∅).

Definition alice_table : App.table := <[1 := alice_account]> ∅.

Definition two_accounts : App.table :=
  <[2 := rfc4226_account]> (<[1 := alice_account]> ∅).

(** A clock that advances by one second from one reading to the next. *)
Definition ticking (n : nat) : datetime := Datetime.of_seconds (N.of_nat n).

(** ** The views and the theme preference (src/app.py) *)

(** A value that [jsonify] or a template receives, and a dict literal as
    the list of its items in the order they are written. *)
Inductive jvalue : Type :=
| JNull
| JBool (b : bool)
| JInt (n : Z)
| JStr (s : str)
| JOther.

Definition dict := list (string * jvalue).

(** [d[key]] of such a dict, [None] when the key is missing. *)
Fixpoint dict_get (key : string) (d : dict) : option jvalue :=
  match d with
  | [] => None
  | (k, v) :: r => if String.eqb k key then Some v else dict_get key r
  end.

(** The loop [for x in xs: out.append(f(x))]. *)
Fixpoint for_each {A B} (f : A -> Py B) (xs : list A) : Py (list B) :=
  match xs with
  | [] => Pure (Ok [])
  | x :: r =>
      pbind (f x) (fun y => pbind (for_each f r) (fun ys => Pure (Ok (y :: ys))))
  end.

(** Running a computation while successive calls of [datetime.now()] return
    [clock n], [clock (n + 1)], ... and [time.mktime] answers the instant
    read. *)
Fixpoint run_from {A} (clock : nat -> datetime) (n : nat) (m : Py A)
  : result A :=
  match m with
  | Pure r => r
  | DatetimeNow k => run_from clock (S n) (k (clock n))
  | TimeMktime d k => run_from clock n (k (Datetime.seconds d))
  end.

Module Theme.

(** [v == s] for a string [s]. *)
Definition is_str (v : jvalue) (s : str) : bool :=
  match v with JStr t => bool_decide (t = s) | _ => false end.

(** [session]: a dict from key to text. *)
Definition session := gmap string str.

(** [session.get('theme', 'light')] *)
Definition current (s : session) : str :=
  default (py "light") (s !! "theme"%string).

(** [set_theme] on a JSON object [data]: the answer, its status and the
    session afterwards. *)
Definition set_theme (data : gmap string jvalue) (s : session)
  : dict * Z * session :=
  let theme := default (JStr (py "light")) (data !! "theme"%string) in
  if is_str theme (py "light") || is_str theme (py "dark")
  then ([("status"%string, JStr (py "success")); ("theme"%string, theme)],
        200,
        match theme with
        | JStr t => <["theme"%string := t]> s
        | _ => s
        end)
  else ([("status"%string, JStr (py "error"));
         ("message"%string, JStr (py "Invalid theme"))],
        400, s).

(** [get_theme] *)
Definition get_theme (s : session) : dict :=
  [("theme"%string, JStr (current s))].

End Theme.

Module Views.

Import Models.

Section Requests.

(** [str.lower()] on ASCII is the map A-Z to a-z; the lower-case forms of
    the other code points are a table of the interpreter, a parameter. *)
Variable unicode_lower : Z -> list Z.

(** [str.isspace] of one character, which [str.strip()] relies on. *)
Variable isspace : Z -> bool.

(** [column.ilike(pattern)] as the database evaluates it on a value. *)
Variable ilike : str -> str -> bool.

Definition ascii_lower (c : Z) : Z :=
  if (65 <=? c) && (c <=? 90) then c + 32 else c.

Definition str_lower (s : str) : str :=
  flat_map (fun c => if (0 <=? c) && (c <? 128) then [ascii_lower c]
                     else unicode_lower c) s.

(** [s.lstrip()] and [s.strip()] *)
Fixpoint lstrip (s : str) : str :=
  match s with
  | [] => []
  | c :: r => if isspace c then lstrip r else c :: r
  end.

Definition strip (s : str) : str := rev (lstrip (rev (lstrip s))).

(** [request.args] *)
Definition args := gmap string str.

(** [request.args.get('show_all', 'false').lower() == 'true'] *)
Definition show_all (a : args) : bool :=
  bool_decide (str_lower (default (py "false") (a !! "show_all"%string))
               = py "true").

(** The rows of the table with their keys, as a scan of the table returns
    them: SQLite walks the table in the order of the primary key. *)
Fixpoint insert_by_id (r : Z * MFAAccount) (l : list (Z * MFAAccount))
  : list (Z * MFAAccount) :=
  match l with
  | [] => [r]
  | x :: l' => if fst r <=? fst x then r :: l else x :: insert_by_id r l'
  end.

Definition scan (db : App.table) : list (Z * MFAAccount) :=
  fold_right insert_by_id [] (map_to_list db).

(** [MFAAccount.query.all()] *)
Definition query_all (db : App.table) : list (Z * MFAAccount) :=
  scan db.

(** [MFAAccount.query.filter_by(hidden=False).all()] *)
Definition query_visible (db : App.table) : list (Z * MFAAccount) :=
  List.filter (fun r => negb (hidden (snd r))) (scan db).

Definition jissuer (a : MFAAccount) : jvalue :=
  match issuer a with Some i => JStr i | None => JNull end.

(** The dict that [index] appends for an account. *)
Definition index_row (r : Z * MFAAccount) : Py dict :=
  pbind (get_totp_code (snd r)) (fun code =>
  pbind (get_remaining_time (snd r)) (fun remaining =>
  Pure (Ok [("id"%string, JInt (fst r));
            ("account_name"%string, JStr (account_name (snd r)));
            ("issuer"%string, jissuer (snd r));
            ("hidden"%string, JBool (hidden (snd r)));
            ("totp_code"%string, JStr code);
            ("remaining_time"%string, JInt remaining)]))).

(** [index]: the arguments given to the template [index.html]. *)
Definition index (a : args) (s : Theme.session) (db : App.table)
  : Py (list dict * bool * str) :=
  let show := show_all a in
  let accounts := if show then query_all db else query_visible db in
  pbind (for_each index_row accounts) (fun account_data =>
  Pure (Ok (account_data, show, Theme.current s))).

(** The dict of [get_all_codes] and [get_single_code]. *)
Definition code_row (r : Z * MFAAccount) : Py dict :=
  pbind (get_totp_code (snd r)) (fun code =>
  pbind (get_remaining_time (snd r)) (fun remaining =>
  Pure (Ok [("id"%string, JInt (fst r));
            ("account_name"%string, JStr (account_name (snd r)));
            ("totp_code"%string, JStr code);
            ("remaining_time"%string, JInt remaining)]))).

(** [get_all_codes] *)
Definition get_all_codes (a : args) (db : App.table) : Py (list dict) :=
  let accounts := if show_all a then query_all db else query_visible db in
  for_each code_row accounts.

(** [get_single_code]: [None] stands for the 404 answer of
    [get_or_404]. *)
Definition get_single_code (account_id : Z) (db : App.table)
  : Py (option dict) :=
  match db !! account_id with
  | None => Pure (Ok None)
  | Some account =>
      pbind (code_row (account_id, account)) (fun d => Pure (Ok (Some d)))
  end.

(** The dict of [search_accounts]. *)
Definition search_row (r : Z * MFAAccount) : Py dict :=
  pbind (get_totp_code (snd r)) (fun code =>
  pbind (get_remaining_time (snd r)) (fun remaining =>
  Pure (Ok [("id"%string, JInt (fst r));
            ("account_name"%string, JStr (account_name (snd r)));
            ("issuer"%string, jissuer (snd r));
            ("totp_code"%string, JStr code);
            ("remaining_time"%string, JInt remaining)]))).

(** The filter of [search_accounts]: the name or the issuer is like
    [%query%]; a NULL issuer is like nothing. *)
Definition matches (query : str) (a : MFAAccount) : bool :=
  let pattern := py "%" ++ query ++ py "%" in
  ilike pattern (account_name a)
  || match issuer a with Some i => ilike pattern i | None => false end.

(** [search_accounts] *)
Definition search_accounts (a : args) (db : App.table) : Py (list dict) :=
  let query := strip (default [] (a !! "q"%string)) in
  let accounts :=
    match query with
    | [] => query_all db
    | _ => List.filter (fun r => matches query (snd r)) (scan db)
    end in
  for_each search_row accounts.

End Requests.

End Views.

(** ** Invariants of the table *)

(** No two rows share an account name. *)
Definition unique_names (db : App.table) : Prop :=
  forall i j a b,
    db !! i = Some a -> db !! j = Some b ->
    Models.account_name a = Models.account_name b -> i = j.

(** Every row has a name, an issuer that is not NULL, a secret that pyotp
    decodes, and a key from 1 on. *)
Definition well_formed (db : App.table) : Prop :=
  map_Forall (fun i a => 1 <= i
                         /\ Models.account_name a <> []
                         /\ Models.issuer a <> None
                         /\ valid_secret (Models.secret a) = true) db.

(** A Unicode scalar value: a code point that is not a surrogate. *)
Definition scalar (c : Z) : Prop :=
  0 <= c < 0xD800 \/ 0xE000 <= c < 0x110000.

(** * Properties *)

(** ** Known answers of the embedded library code *)

Example sha1_abc :
  Hashlib.sha1 (py "abc") =
  [0xA9; 0x99; 0x3E; 0x36; 0x47; 0x06; 0x81; 0x6A; 0xBA; 0x3E;
   0x25; 0x71; 0x78; 0x50; 0xC2; 0x6C; 0x9C; 0xD0; 0xD8; 0x9D].
Proof. vm_compute. reflexivity. Qed.

Example b32decode_rfc :
  Base64.b32decode (py "GEZDGNBVGY3TQOJQGEZDGNBVGY3TQOJQ") true
  = Ok (py "12345678901234567890").
Proof. vm_compute. reflexivity. Qed.

Example b32decode_padded :
  Base64.b32decode (py "mfrgg===") true = Ok (py "abc").
Proof. vm_compute. reflexivity. Qed.

Example hotp_rfc_1 :
  (t <- Pyotp.TOTP (py "GEZDGNBVGY3TQOJQGEZDGNBVGY3TQOJQ") ;;
   Pyotp.generate_otp t 1) = Ok (py "287082").
Proof. vm_compute. reflexivity. Qed.

Example uri_readme :
  Models.get_qr_code_url
    {| Models.account_name := py "alice@google.com";
       Models.secret := py "JBSWY3DPEHPK3PXP";
       Models.issuer := Some (py "Secure App");
       Models.hidden := false |}
  = Ok (py "otpauth://totp/Secure%20App:alice%40google.com?secret=JBSWY3DPEHPK3PXP&issuer=Secure%20App").
Proof. vm_compute. reflexivity. Qed.

Example totp_rfc_59 :
  run_at (Datetime.of_seconds 59)
    (Models.get_totp_code
       {| Models.account_name := py "a";
          Models.secret := py "GEZDGNBVGY3TQOJQGEZDGNBVGY3TQOJQ";
          Models.issuer := None; Models.hidden := false |})
  = Ok (py "287082").
Proof. vm_compute. reflexivity. Qed.

(** ** Floats and the clock *)

Lemma int_of_float_nonneg (x : Q) : (0 <= x)%Q -> int_of_float x = Qfloor x.
Proof.
  intros Hx. unfold int_of_float.
  destruct (Qle_bool 0 x) eqn:E; [reflexivity|].
  apply Qle_bool_iff in Hx. congruence.
Qed.

Lemma Qfloor_unique (x : Q) (n : Z) :
  (inject_Z n <= x)%Q -> (x < inject_Z (n + 1))%Q -> Qfloor x = n.
Proof.
  intros Hl Hu.
  pose proof (Qfloor_resp_le _ _ Hl) as H1. rewrite Qfloor_Z in H1.
  pose proof (Qfloor_le x) as H2.
  assert (H3 : (inject_Z (Qfloor x) < inject_Z (n + 1))%Q)
    by (eapply Qle_lt_trans; eassumption).
  rewrite <- Zlt_Qlt in H3. lia.
Qed.

Lemma round_half_even_lower (x : Q) : Qfloor x <= Float.round_half_even x.
Proof.
  unfold Float.round_half_even. cbv zeta.
  destruct (Qcompare _ _); [destruct (Z.even _)| |]; lia.
Qed.

Lemma round_half_even_upper (x : Q) :
  (inject_Z (Float.round_half_even x) <= x + (1 # 2))%Q.
Proof.
  unfold Float.round_half_even. cbv zeta.
  pose proof (Qfloor_le x) as Hf.
  destruct (Qcompare_spec (x - inject_Z (Qfloor x)) (1 # 2)) as [E|E|E].
  - destruct (Z.even _); [lra|]. rewrite inject_Z_plus.
    change (inject_Z 1) with 1%Q. lra.
  - lra.
  - rewrite inject_Z_plus. change (inject_Z 1) with 1%Q. lra.
Qed.



Lemma pow2_pos (k : Z) : 0 <= k -> (0 < inject_Z (2 ^ k))%Q.
Proof.
  intros H. change 0%Q with (inject_Z 0). rewrite <- Zlt_Qlt.
  apply Z.pow_pos_nonneg; lia.
Qed.

Lemma places_nonneg (x : Q) : 0 <= Float.places x.
Proof. unfold Float.places. lia. Qed.

(** Rounding does not cross a whole number. *)
Lemma round_lower (x : Q) (n : Z) :
  (inject_Z n <= x)%Q -> (inject_Z n <= Float.round x)%Q.
Proof.
  intros H. unfold Float.round. cbv zeta.
  pose proof (pow2_pos _ (places_nonneg x)) as Hp.
  set (k := Float.places x) in *.
  apply Qle_shift_div_l; [exact Hp|].
  rewrite <- inject_Z_mult, <- Zle_Qle.
  etransitivity; [|apply round_half_even_lower].
  rewrite <- (Qfloor_Z (n * 2 ^ k)). apply Qfloor_resp_le.
  rewrite inject_Z_mult. apply Qmult_le_compat_r; [exact H|].
  apply Qlt_le_weak, Hp.
Qed.

Lemma exponent_lt (y : Q) (j : Z) :
  1 <= j -> (y < inject_Z (2 ^ j))%Q -> Float.exponent y < j.
Proof.
  intros Hj Hy. unfold Float.exponent.
  destruct (Qle_bool 1 y) eqn:E.
  - apply Qle_bool_iff in E.
    assert (H1 : 1 <= Qfloor y)
      by (change 1 with (Qfloor 1); apply Qfloor_resp_le, E).
    apply Z.log2_lt_pow2; [lia|].
    rewrite Zlt_Qlt. eapply Qle_lt_trans; [apply Qfloor_le|exact Hy].
  - pose proof (Z.log2_up_nonneg (Qceiling (/ y))). lia.
Qed.

(** The error of a rounding below [2^j] is at most half a unit in the last
    of the 53 places. *)
Lemma round_upper (x : Q) (j : Z) :
  1 <= j <= 53 -> (0 <= x)%Q -> (x < inject_Z (2 ^ j))%Q ->
  (Float.round x <= x + / inject_Z (2 ^ (54 - j)))%Q.
Proof.
  intros Hj H0 Hx. unfold Float.round. cbv zeta.
  pose proof (pow2_pos _ (places_nonneg x)) as Hp.
  assert (Hk : 53 - j <= Float.places x).
  { unfold Float.places.
    assert (Float.exponent (Qabs x) < j).
    { apply exponent_lt; [lia|]. rewrite Qabs_pos by exact H0. exact Hx. }
    lia. }
  set (k := Float.places x) in *.
  pose proof (pow2_pos (54 - j) ltac:(lia)) as Hb.
  assert (Hbk : (inject_Z (2 ^ (54 - j)) <= 2 * inject_Z (2 ^ k))%Q).
  { change 2%Q with (inject_Z 2). rewrite <- inject_Z_mult, <- Zle_Qle.
    rewrite <- Z.pow_succ_r by lia. apply Z.pow_le_mono_r; lia. }
  pose proof (round_half_even_upper (x * inject_Z (2 ^ k))) as Hm.
  apply Qle_shift_div_r; [exact Hp|].
  eapply Qle_trans; [exact Hm|].
  rewrite Qmult_plus_distr_l. apply Qplus_le_r.
  setoid_replace (/ inject_Z (2 ^ (54 - j)) * inject_Z (2 ^ k))%Q
    with (inject_Z (2 ^ k) / inject_Z (2 ^ (54 - j)))%Q using relation Qeq
    by (unfold Qdiv; apply Qmult_comm).
  apply Qle_shift_div_l; [exact Hb|]. lra.
Qed.

Lemma seconds_nonneg (d : datetime) : 0 <= Datetime.seconds d.
Proof. unfold Datetime.seconds. apply Z.div_pos; lia. Qed.

Lemma microsecond_range (d : datetime) : 0 <= Datetime.microsecond d <= 999999.
Proof.
  unfold Datetime.microsecond. pose proof (Z.mod_pos_bound (Z.of_N d) 1000000). lia.
Qed.

(** The fraction of a second, as a double. *)
Lemma fraction_range (u : Z) :
  0 <= u <= 999999 ->
  (0 <= Float.div (inject_Z u) (inject_Z 1000000)
   <= (999999 # 1000000) + / inject_Z (2 ^ 53))%Q.
Proof.
  intros Hu. unfold Float.div.
  assert (H0 : (0 <= inject_Z u / inject_Z 1000000)%Q).
  { apply Qle_shift_div_l; [reflexivity|]. rewrite Qmult_0_l.
    change 0%Q with (inject_Z 0). rewrite <- Zle_Qle. lia. }
  assert (H1 : (inject_Z u / inject_Z 1000000 <= 999999 # 1000000)%Q).
  { apply Qle_shift_div_r; [reflexivity|].
    unfold Qle, Qmult, inject_Z. cbn [Qnum Qden]. lia. }
  split.
  - apply (round_lower _ 0), H0.
  - eapply Qle_trans; [apply (round_upper _ 1); [lia|exact H0|]|].
    + eapply Qle_lt_trans; [exact H1|]. reflexivity.
    + change (54 - 1) with 53. lra.
Qed.

Lemma timestamp_nonneg (d : datetime) : (0 <= Datetime.timestamp d)%Q.
Proof.
  unfold Datetime.timestamp, Float.add. apply (round_lower _ 0).
  pose proof (seconds_nonneg d) as Hs. rewrite Zle_Qle in Hs.
  pose proof (fraction_range _ (microsecond_range d)) as [Hf _].
  change (inject_Z 0) with 0%Q in *. lra.
Qed.

(** The whole seconds of a timestamp are those of the instant, up to
    2^34 seconds after the epoch (the year 2514). *)
Lemma Qfloor_timestamp (d : datetime) :
  Datetime.seconds d < 2 ^ 34 ->
  Qfloor (Datetime.timestamp d) = Datetime.seconds d.
Proof.
  intros Hb.
  pose proof (seconds_nonneg d) as Hs.
  pose proof (fraction_range _ (microsecond_range d)) as [Hf0 Hf1].
  assert (Hs' : (0 <= inject_Z (Datetime.seconds d))%Q)
    by (change 0%Q with (inject_Z 0); rewrite <- Zle_Qle; exact Hs).
  assert (Hb' : (inject_Z (Datetime.seconds d) <= inject_Z (2 ^ 34) - 1)%Q).
  { change 1%Q with (inject_Z 1). unfold Qminus.
    rewrite <- inject_Z_opp, <- inject_Z_plus, <- Zle_Qle. lia. }
  assert (E53 : (/ inject_Z (2 ^ 53) <= 1 # 100000000)%Q)
    by (vm_compute; discriminate).
  assert (E20 : (/ inject_Z (2 ^ 20) <= 96 # 100000000)%Q)
    by (vm_compute; discriminate).
  unfold Datetime.timestamp, Float.add. apply Qfloor_unique.
  - apply round_lower. lra.
  - eapply Qle_lt_trans; [apply (round_upper _ 34); [lia|lra|lra]|].
    change (54 - 34) with 20. rewrite inject_Z_plus.
    change (inject_Z 1) with 1%Q. lra.
Qed.

Lemma round_half_even_Z (x : Q) (n : Z) :
  x == inject_Z n -> Float.round_half_even x = n.
Proof.
  intros E. unfold Float.round_half_even. cbv zeta.
  rewrite (Qfloor_comp _ _ E), Qfloor_Z.
  destruct (Qcompare_spec (x - inject_Z n) (1 # 2)) as [H|H|H];
    [lra|reflexivity|lra].
Qed.


(** A whole number is a double. *)
Lemma round_whole (x : Q) (n : Z) :
  x == inject_Z n -> Float.round x == inject_Z n.
Proof.
  intros E. unfold Float.round. cbv zeta.
  pose proof (pow2_pos _ (places_nonneg x)) as Hp.
  set (k := Float.places x) in *.
  rewrite (round_half_even_Z _ (n * 2 ^ k)).
  - rewrite inject_Z_mult. field. lra.
  - rewrite E, inject_Z_mult. reflexivity.
Qed.

(** At a whole second the timestamp is the whole number. *)
Lemma Qfloor_timestamp_whole (d : datetime) :
  Datetime.microsecond d = 0 ->
  Qfloor (Datetime.timestamp d) = Datetime.seconds d.
Proof.
  intros Hu. unfold Datetime.timestamp, Float.add, Float.div. rewrite Hu.
  rewrite (Qfloor_comp _ (inject_Z (Datetime.seconds d))); [apply Qfloor_Z|].
  apply round_whole.
  rewrite (round_whole (inject_Z 0 / inject_Z 1000000) 0) by reflexivity.
  change (inject_Z 0) with 0%Q. ring.
Qed.

(** The window number of an answer of [time.mktime] that is not before the
    epoch, for a step of 30 seconds. *)
Lemma int_of_quotient (z : Z) :
  0 <= z -> int_of_float (inject_Z z / inject_Z 30) = z / 30.
Proof.
  intros Hz. rewrite int_of_float_nonneg.
  - symmetry. apply Zdiv_Qdiv.
  - apply Qle_shift_div_l; [reflexivity|]. rewrite Qmult_0_l.
    change 0%Q with (inject_Z 0). rewrite <- Zle_Qle. exact Hz.
Qed.

Lemma timecode_30 (t : Pyotp.totp) (d d' : datetime) :
  Pyotp.interval t = 30 ->
  run_at d' (Pyotp.timecode t d) = Ok (Z.of_N d / 1000000 / 30).
Proof.
  intros Hi. unfold Pyotp.timecode. cbn [run_at]. rewrite Hi. cbn [Z.eqb].
  f_equal. apply int_of_quotient, seconds_nonneg.
Qed.

(** [pyotp.TOTP(s)] never raises and sets the defaults. *)
Lemma TOTP_defaults (s : str) :
  Pyotp.TOTP s = Ok (Pyotp.Totp s 6 (py "Secret") None 30).
Proof. reflexivity. Qed.

(** ** Runs *)

Lemma run_at_pbind {A B} (d : datetime) (m : Py A) (k : A -> Py B) :
  run_at d (pbind m k)
  = match run_at d m with
    | Ok a => run_at d (k a)
    | Raise e => Raise e
    end.
Proof.
  induction m as [[a|e]|k' IH|d' k' IH]; cbn [pbind run_at];
    [reflexivity..|apply IH|apply IH].
Qed.

Lemma run_at_try_except {A} (d : datetime) (m : Py A) (h : exn -> Py A) :
  run_at d (try_except m h)
  = match run_at d m with
    | Ok a => Ok a
    | Raise e => run_at d (h e)
    end.
Proof.
  induction m as [[a|e]|k' IH|d' k' IH]; cbn [try_except run_at];
    [reflexivity..|apply IH|apply IH].
Qed.

Lemma run_pbind {A B} (w : world) (m : Py A) (k : A -> Py B) (i j : nat) :
  run w i j (pbind m k)
  = match run w i j m with
    | Ok a => run w (fst (reads w i j m)) (snd (reads w i j m)) (k a)
    | Raise e => Raise e
    end.
Proof.
  revert i j.
  induction m as [[a|e]|k' IH|d' k' IH]; intros i j; cbn [pbind run reads];
    [reflexivity..|apply IH|apply IH].
Qed.

Lemma reads_pbind {A B} (w : world) (m : Py A) (k : A -> Py B) (i j : nat) :
  reads w i j (pbind m k)
  = match run w i j m with
    | Ok a => reads w (fst (reads w i j m)) (snd (reads w i j m)) (k a)
    | Raise e => reads w i j m
    end.
Proof.
  revert i j.
  induction m as [[a|e]|k' IH|d' k' IH]; intros i j; cbn [pbind run reads];
    [reflexivity..|apply IH|apply IH].
Qed.

Lemma faithful_clock (c : nat -> datetime) (i : nat) :
  clock (faithful c) i = c i.
Proof. reflexivity. Qed.

Lemma faithful_mktime (c : nat -> datetime) (j : nat) (d : datetime) :
  mktime (faithful c) j d = Datetime.seconds d.
Proof. reflexivity. Qed.

(** The two special runs are runs in a faithful world. *)
Lemma run_from_faithful {A} (clock : nat -> datetime) (m : Py A)
      (n j : nat) :
  run (faithful clock) n j m = run_from clock n m.
Proof.
  revert n j.
  induction m as [r|k IH|d k IH]; intros n j; cbn [run run_from];
    [reflexivity|apply IH|apply IH].
Qed.

Lemma run_from_still {A} (d : datetime) (m : Py A) (n : nat) :
  run_from (fun _ => d) n m = run_at d m.
Proof.
  revert n.
  induction m as [r|k IH|d' k IH]; intros n; cbn [run_from run_at];
    [reflexivity|apply IH|apply IH].
Qed.

(** ** The RFC 4226 vector *)

(** C1. For the key of RFC 4226 Appendix D, given in Base32, the decoded key
    is the ASCII text 12345678901234567890 and the code for counter 0 with
    six digits is 755224; [get_totp_code] returns it in the first window. *)
Theorem C1_rfc4226_counter_0 :
  (t <- Pyotp.TOTP rfc4226_secret ;; Pyotp.byte_secret t)
    = Ok (py "12345678901234567890")
  /\ (t <- Pyotp.TOTP rfc4226_secret ;; Ok (Pyotp.digits t)) = Ok 6
  /\ (t <- Pyotp.TOTP rfc4226_secret ;; Pyotp.generate_otp t 0)
    = Ok (py "755224")
  /\ run_at (Datetime.of_seconds 0) (Models.get_totp_code rfc4226_account)
    = Ok (py "755224").
Proof. repeat split; vm_compute; reflexivity. Qed.

(** ** Remaining time *)

Lemma get_remaining_time_run (self : Models.MFAAccount) (d : datetime) :
  run_at d (Models.get_remaining_time self)
  = Ok (30 - Qfloor (Datetime.timestamp d) mod 30).
Proof.
  unfold Models.get_remaining_time. rewrite TOTP_defaults.
  cbn [pbind run_at].
  rewrite int_of_float_nonneg by apply timestamp_nonneg. reflexivity.
Qed.

(** Up to 2^34 seconds after the epoch the remaining time is counted from
    the whole seconds of the instant. *)
Lemma get_remaining_time_early (self : Models.MFAAccount) (d : datetime) :
  Datetime.seconds d < 2 ^ 34 ->
  run_at d (Models.get_remaining_time self)
  = Ok (30 - (Z.of_N d / 1000000) mod 30).
Proof.
  intros Hd. rewrite get_remaining_time_run, Qfloor_timestamp by exact Hd.
  reflexivity.
Qed.

Lemma remaining_time_range (d : datetime) :
  1 <= 30 - Qfloor (Datetime.timestamp d) mod 30 <= 30.
Proof.
  pose proof (Z.mod_pos_bound (Qfloor (Datetime.timestamp d)) 30). lia.
Qed.

(** Later the double that holds the timestamp has fewer than twenty binary
    places, and a fraction of 0.999999 s is rounded up to the next second:
    at 2^34 s + 0.999999 s the remaining time is the one of 2^34 + 1 s. *)
Example get_remaining_time_rounded :
  run_at 17179869183999999%N (Models.get_remaining_time rfc4226_account)
    = Ok 27
  /\ run_at 17179869184999999%N (Models.get_remaining_time rfc4226_account)
    = Ok 25.
Proof. split; vm_compute; reflexivity. Qed.

(** C3, the claim as written fails: the code has no step parameter, so for a
    step of 60 seconds at time 0 it does not return 60 - (0 mod 60). *)
Lemma C3_counterexample_step_60 :
  ~ (forall (step_seconds : Z) (self : Models.MFAAccount) (d : datetime),
        0 < step_seconds ->
        run_at d (Models.get_remaining_time self)
        = Ok (step_seconds
              - Qfloor (Datetime.timestamp d) mod step_seconds)).
Proof.
  intros H. specialize (H 60 rfc4226_account (Datetime.of_seconds 0) eq_refl).
  vm_compute in H. discriminate H.
Qed.

(** C3, amended. The step is the constant 30: at every time the remaining
    time is 30 - (floor(t) mod 30), it lies in [1, 30], and at a window
    boundary (t a multiple of 30 seconds) it is the full 30. *)
Theorem C3_remaining_time_step_30 (self : Models.MFAAccount) (d : datetime) :
  run_at d (Models.get_remaining_time self)
    = Ok (30 - Qfloor (Datetime.timestamp d) mod 30)
  /\ 1 <= 30 - Qfloor (Datetime.timestamp d) mod 30 <= 30
  /\ forall k : N,
      run_at (Datetime.of_seconds (30 * k)) (Models.get_remaining_time self)
      = Ok 30.
Proof.
  split; [apply get_remaining_time_run|].
  split; [apply remaining_time_range|].
  intros k. rewrite get_remaining_time_run, Qfloor_timestamp_whole.
  - unfold Datetime.seconds, Datetime.of_seconds.
    rewrite N2Z.inj_mul, Z.div_mul by lia.
    rewrite N2Z.inj_mul, Z.mul_comm, Z.mod_mul by lia. reflexivity.
  - unfold Datetime.microsecond, Datetime.of_seconds.
    rewrite N2Z.inj_mul. apply Z.mod_mul. lia.
Qed.

(** C10. At one instant every account gets the same remaining time: the
    value is computed from the clock and the constant 30 alone, whatever the
    secret, name, issuer or visibility of the account. *)
Theorem C10_remaining_time_same_for_all (a1 a2 : Models.MFAAccount)
        (d : datetime) :
  run_at d (Models.get_remaining_time a1)
    = run_at d (Models.get_remaining_time a2)
  /\ run_at d (Models.get_remaining_time a1)
    = Ok (30 - int_of_float (Datetime.timestamp d) mod 30).
Proof. split; reflexivity. Qed.

(** ** The clock is read, not passed *)

(** The code of an account as a function of its secret and of the value
    read from the clock. *)
Lemma get_totp_code_run (self : Models.MFAAccount) (d : datetime) :
  run_at d (Models.get_totp_code self)
  = (t <- Pyotp.TOTP (Models.secret self) ;;
     Pyotp.generate_otp t (Z.of_N d / 1000000 / 30)).
Proof.
  unfold Models.get_totp_code. rewrite TOTP_defaults.
  cbn [pbind run_at Pyotp.now rbind].
  rewrite run_at_pbind, timecode_30 by reflexivity. reflexivity.
Qed.


(** In any world the code is derived from the answer of [time.mktime] for
    the value read from the clock, the remaining time from the value read. *)
Lemma get_totp_code_in (self : Models.MFAAccount) (w : world) (i j : nat) :
  run w i j (Models.get_totp_code self)
  = (t <- Pyotp.TOTP (Models.secret self) ;;
     Pyotp.generate_otp t
       (int_of_float (inject_Z (mktime w j (clock w i)) / inject_Z 30))).
Proof. reflexivity. Qed.

Lemma get_remaining_time_in (self : Models.MFAAccount) (w : world)
      (i j : nat) :
  run w i j (Models.get_remaining_time self)
  = Ok (30 - Qfloor (Datetime.timestamp (clock w i)) mod 30).
Proof.
  unfold Models.get_remaining_time. rewrite TOTP_defaults.
  cbn [pbind run].
  rewrite int_of_float_nonneg by apply timestamp_nonneg. reflexivity.
Qed.





(** ** Same window, same code *)




(** ** The shape of a code *)

Lemma digits_rev_S (f : nat) (n : Z) :
  digits_rev (S f) n
  = if n <? 10 then [48 + n] else (48 + n mod 10) :: digits_rev f (n / 10).
Proof. reflexivity. Qed.

Lemma digits_rev_spec (k fuel : nat) (n : Z) :
  (k <= fuel)%nat -> 0 <= n < 10 ^ Z.of_nat (S k) ->
  (k = 0%nat \/ 10 ^ Z.of_nat k <= n) ->
  digits_rev (S fuel) n
  = map (fun j => 48 + (n / 10 ^ Z.of_nat j) mod 10) (seq 0 (S k)).
Proof.
  revert fuel n. induction k as [|k IH]; intros fuel n Hf Hn Hlow.
  - cbn [digits_rev]. change (10 ^ Z.of_nat 1) with 10 in Hn.
    destruct (Z.ltb_spec n 10); [|lia].
    cbn [seq map]. change (10 ^ Z.of_nat 0) with 1.
    rewrite Z.div_1_r, Z.mod_small by lia. reflexivity.
  - destruct Hlow as [Hk|Hlow]; [discriminate|].
    destruct fuel as [|fuel]; [lia|].
    assert (Hp : 10 ^ Z.of_nat (S k) = 10 * 10 ^ Z.of_nat k)
      by (rewrite Nat2Z.inj_succ, Z.pow_succ_r by lia; reflexivity).
    assert (Hp' : 10 ^ Z.of_nat (S (S k)) = 10 * 10 ^ Z.of_nat (S k))
      by (rewrite (Nat2Z.inj_succ (S k)), Z.pow_succ_r by lia; reflexivity).
    assert (0 < 10 ^ Z.of_nat k) by (apply Z.pow_pos_nonneg; lia).
    rewrite digits_rev_S. destruct (Z.ltb_spec n 10); [lia|].
    rewrite (IH fuel (n / 10)).
    + change (seq 0 (S (S k))) with (0%nat :: seq 1 (S k)).
      rewrite <- (seq_shift (S k) 0).
      rewrite (map_cons _ 0%nat), List.map_map.
      change (10 ^ Z.of_nat 0) with 1. rewrite Z.div_1_r.
      f_equal. apply map_ext. intros j.
      rewrite Nat2Z.inj_succ, Z.pow_succ_r, Z.div_div by lia. reflexivity.
    + lia.
    + split; [apply Z.div_pos; lia|].
      apply Z.div_lt_upper_bound; lia.
    + right. apply Z.div_le_lower_bound; lia.
Qed.

(** [str(10_000_000_000 + v)] has eleven digits. *)
Lemma str_int_offset (v : Z) :
  0 <= v < 10000000000 ->
  str_int (10000000000 + v)
  = rev (map (fun j => 48 + ((10000000000 + v) / 10 ^ Z.of_nat j) mod 10)
             (seq 0 11)).
Proof.
  intros Hv. unfold str_int.
  destruct (Z.ltb_spec (10000000000 + v) 0); [lia|].
  f_equal. apply (digits_rev_spec 10).
  - assert (33 <= Z.log2 (10000000000 + v))
      by (change 33 with (Z.log2 10000000000); apply Z.log2_le_mono; lia).
    lia.
  - change (10 ^ Z.of_nat 11) with 100000000000. lia.
  - right. change (10 ^ Z.of_nat 10) with 10000000000. lia.
Qed.

Lemma offset_digit (v : Z) (j : nat) :
  (j < 10)%nat ->
  ((10000000000 + v) / 10 ^ Z.of_nat j) mod 10 = (v / 10 ^ Z.of_nat j) mod 10.
Proof.
  intros Hj.
  assert (Hpos : 0 < 10 ^ Z.of_nat j) by (apply Z.pow_pos_nonneg; lia).
  replace 10000000000 with (10 * 10 ^ Z.of_nat (9 - j) * 10 ^ Z.of_nat j).
  - rewrite Z.div_add_l by lia.
    rewrite Z.add_comm, (Z.mul_comm 10). apply Z_mod_plus_full.
  - rewrite <- Z.mul_assoc, <- Z.pow_add_r by lia.
    replace (Z.of_nat (9 - j) + Z.of_nat j) with 9 by lia. reflexivity.
Qed.

(** The last [digits] characters of that string are the zero-padded
    decimal form of the value. *)
Lemma format_code_zero_padded (digits code : Z) :
  1 <= digits <= 10 ->
  Pyotp.format_code digits code
  = zero_padded (Z.to_nat digits) (code mod 10 ^ digits).
Proof.
  intros Hd. unfold Pyotp.format_code, zero_padded.
  set (v := code mod 10 ^ digits).
  assert (Hv : 0 <= v < 10 ^ digits)
    by (apply Z.mod_pos_bound, Z.pow_pos_nonneg; lia).
  assert (10 ^ digits <= 10 ^ 10) by (apply Z.pow_le_mono_r; lia).
  change (10 ^ 10) with 10000000000 in *.
  rewrite str_int_offset by lia.
  unfold slice_from. destruct (Z.ltb_spec (- digits) 0); [|lia].
  unfold len. rewrite length_rev, length_map, length_seq.
  replace (Z.to_nat (Z.max (Z.of_nat 11 + - digits) 0))
    with (11 - Z.to_nat digits)%nat by lia.
  rewrite skipn_rev, length_map, length_seq.
  replace (11 - (11 - Z.to_nat digits))%nat with (Z.to_nat digits) by lia.
  f_equal. rewrite firstn_map, take_seq.
  replace (Init.Nat.min (Z.to_nat digits) 11) with (Z.to_nat digits) by lia.
  apply map_ext_in. intros j Hj. apply in_seq in Hj.
  rewrite offset_digit by lia. reflexivity.
Qed.

Lemma zero_padded_length (k : nat) (v : Z) : length (zero_padded k v) = k.
Proof. unfold zero_padded. rewrite length_rev, length_map, length_seq. reflexivity. Qed.

Lemma zero_padded_decimal (k : nat) (v : Z) :
  Forall is_decimal_digit (zero_padded k v).
Proof.
  unfold zero_padded. apply Forall_rev, Forall_map, Forall_forall.
  intros j _. unfold is_decimal_digit.
  pose proof (Z.mod_pos_bound (v / 10 ^ Z.of_nat j) 10). lia.
Qed.

Lemma sha1_length (msg : bytes) : length (Hashlib.sha1 msg) = 20%nat.
Proof.
  unfold Hashlib.sha1, Hashlib.word_bytes. cbv zeta.
  rewrite !length_app, !length_map, !length_rev, !length_seq. reflexivity.
Qed.

Lemma hmac_digest_length (key msg : bytes) :
  length (Hmac.digest key msg) = 20%nat.
Proof. unfold Hmac.digest. cbv zeta. apply sha1_length. Qed.

Lemma index_in_range (s : list Z) (i : Z) :
  0 <= i < len s -> exists x, index s i = Ok x.
Proof.
  intros Hi. unfold index. destruct (Z.ltb_spec i 0); [lia|].
  destruct (Z.ltb_spec i 0); [lia|].
  destruct (nth_error s (Z.to_nat i)) eqn:E; [eauto|].
  apply nth_error_None in E. unfold len in Hi. lia.
Qed.

Lemma index_last (s : list Z) :
  0 < len s -> exists x, index s (-1) = Ok x.
Proof.
  intros Hs. unfold index. cbn [Z.ltb Z.compare].
  destruct (Z.ltb_spec (-1 + len s) 0); [lia|].
  destruct (nth_error s (Z.to_nat (-1 + len s))) eqn:E; [eauto|].
  apply nth_error_None in E. unfold len in *. lia.
Qed.

(** The dynamic truncation of a 20-byte digest reads inside the digest. *)
Lemma truncate_ok (h : bytes) :
  length h = 20%nat -> exists code, Pyotp.truncate h = Ok code.
Proof.
  intros Hh. unfold Pyotp.truncate.
  assert (Hl : len h = 20) by (unfold len; lia).
  destruct (index_last h) as [last ->]; [lia|]. cbn [rbind].
  change 0xF with (Z.ones 4). rewrite Z.land_ones by lia.
  pose proof (Z.mod_pos_bound last (2 ^ 4) eq_refl) as Ho.
  change (2 ^ 4) with 16 in *.
  destruct (index_in_range h (last mod 16)) as [b0 ->]; [lia|].
  destruct (index_in_range h (last mod 16 + 1)) as [b1 ->]; [lia|].
  destruct (index_in_range h (last mod 16 + 2)) as [b2 ->]; [lia|].
  destruct (index_in_range h (last mod 16 + 3)) as [b3 ->]; [lia|].
  cbn [rbind]. eauto.
Qed.

(** [generate_otp] returns for every key and every counter from 0 on, and
    its result is the truncated value modulo 10^digits on [digits]
    characters. *)
Lemma generate_otp_zero_padded (t : Pyotp.totp) (key : bytes) (input : Z) :
  Pyotp.byte_secret t = Ok key -> 0 <= input -> 1 <= Pyotp.digits t <= 10 ->
  exists code,
    Pyotp.truncate (Hmac.digest key (Pyotp.int_to_bytestring input 8))
      = Ok code
    /\ Pyotp.generate_otp t input
       = Ok (zero_padded (Z.to_nat (Pyotp.digits t))
               (code mod 10 ^ Pyotp.digits t)).
Proof.
  intros Hk Hi Hd. unfold Pyotp.generate_otp.
  destruct (Z.ltb_spec input 0); [lia|].
  rewrite Hk. cbn [rbind].
  destruct (truncate_ok (Hmac.digest key (Pyotp.int_to_bytestring input 8)))
    as [code Hc]; [apply hmac_digest_length|].
  exists code. rewrite Hc. cbn [rbind].
  rewrite format_code_zero_padded by lia. auto.
Qed.



(** ** Base32 decoding *)

Lemma rstrip_repeat (c : Z) (m : nat) : rstrip c (repeat c m) = [].
Proof.
  induction m as [|m IH]; [reflexivity|].
  cbn [repeat rstrip]. rewrite IH, Z.eqb_refl. reflexivity.
Qed.

Lemma rstrip_app_repeat (c : Z) (s : list Z) (m : nat) :
  rstrip c (s ++ repeat c m) = rstrip c s.
Proof.
  induction s as [|x s IH]; [apply rstrip_repeat|].
  cbn [app rstrip]. rewrite IH. reflexivity.
Qed.

Lemma rstrip_decomp (c : Z) (s : list Z) :
  s = rstrip c s ++ repeat c (length s - length (rstrip c s)).
Proof.
  induction s as [|x s IH]; [reflexivity|].
  cbn [rstrip]. destruct (rstrip c s) as [|y r] eqn:E.
  - destruct (Z.eqb_spec x c) as [->|Hx].
    + cbn [app length] in *. rewrite Nat.sub_0_r in *.
      cbn [repeat]. f_equal. exact IH.
    + cbn [app length] in *. rewrite Nat.sub_0_r in IH.
      f_equal. replace (S (length s) - 1)%nat with (length s) by lia. exact IH.
  - cbn [app length] in *. f_equal. exact IH.
Qed.

Lemma rstrip_length (c : Z) (s : list Z) :
  (length (rstrip c s) <= length s)%nat.
Proof.
  rewrite (rstrip_decomp c s) at 2. rewrite length_app. lia.
Qed.

Lemma ascii_upper_pad (x : Z) : (ascii_upper x =? 61) = (x =? 61).
Proof.
  unfold ascii_upper.
  destruct (Z.leb_spec 97 x), (Z.leb_spec x 122); cbn [andb];
    destruct (Z.eqb_spec x 61); try lia; try reflexivity;
    apply Z.eqb_neq; lia.
Qed.

Lemma rstrip_map_upper (s : list Z) :
  rstrip 61 (map ascii_upper s) = map ascii_upper (rstrip 61 s).
Proof.
  induction s as [|x s IH]; [reflexivity|].
  cbn [map rstrip]. rewrite IH, ascii_upper_pad.
  destruct (rstrip 61 s) as [|y r]; cbn [map]; [|reflexivity].
  destruct (x =? 61); reflexivity.
Qed.

(** The value accumulated over a quantum: five bits per digit. *)
Lemma quanta_acc_ok (q : bytes) (acc : Z) :
  Forall (fun c => Base64.b32rev c <> None) q -> 0 <= acc ->
  exists v, Base64.quanta_acc q acc = Ok v
            /\ 0 <= v
            /\ (forall k, acc < 32 ^ k -> 0 <= k -> v < 32 ^ (k + len q)).
Proof.
  revert acc. induction q as [|c q IH]; intros acc Hq Hacc.
  - exists acc. cbn [Base64.quanta_acc]. repeat split; [lia|].
    intros k Hk _. unfold len. cbn [length]. rewrite Z.add_0_r. exact Hk.
  - inversion Hq as [|? ? Hc Hq']; subst.
    cbn [Base64.quanta_acc].
    destruct (Base64.b32rev c) as [v|] eqn:Ev; [|congruence].
    assert (Hv : 0 <= v < 32).
    { unfold Base64.b32rev in Ev.
      destruct (Z.leb_spec 65 c), (Z.leb_spec c 90); cbn [andb] in Ev;
        try (injection Ev as <-; lia);
        destruct (Z.leb_spec 50 c), (Z.leb_spec c 55); cbn [andb] in Ev;
        try discriminate; injection Ev as <-; lia. }
    rewrite Z.shiftl_mul_pow2 by lia. change (2 ^ 5) with 32.
    destruct (IH (acc * 32 + v) Hq') as (r & Hr & Hr0 & Hrk); [lia|].
    exists r. repeat split; [exact Hr|exact Hr0|].
    intros k Hk Hk0. unfold len. cbn [length].
    replace (k + Z.of_nat (S (length q))) with ((k + 1) + len q)
      by (unfold len; lia).
    apply Hrk; [|lia].
    rewrite Z.pow_add_r by lia. change (32 ^ 1) with 32. lia.
Qed.

Lemma quanta_acc_ok_inv (q : bytes) (acc v : Z) :
  Base64.quanta_acc q acc = Ok v ->
  Forall (fun c => Base64.b32rev c <> None) q.
Proof.
  revert acc. induction q as [|c q IH]; intros acc H; [constructor|].
  cbn [Base64.quanta_acc] in H.
  destruct (Base64.b32rev c) as [w|] eqn:Ew; [|discriminate].
  constructor; [congruence|]. eapply IH, H.
Qed.

Lemma to_bytes_ok (n : nat) (x : Z) :
  0 <= x < 256 ^ Z.of_nat n ->
  exists b, to_bytes n x = Ok b /\ length b = n.
Proof.
  intros Hx. unfold to_bytes.
  destruct (Z.ltb_spec x 0); [lia|].
  destruct (Z.leb_spec (256 ^ Z.of_nat n) x); [lia|]. cbn [orb].
  eexists. split; [reflexivity|].
  rewrite length_map, length_rev, length_seq. reflexivity.
Qed.

Lemma slice_length_8 {A} (s : list A) (i : nat) :
  (length (slice s i (i + 8)) <= 8)%nat.
Proof.
  unfold slice. rewrite length_firstn. lia.
Qed.

(** The outer loop succeeds when every quantum holds Base32 digits only;
    it leaves five bytes per quantum and the value of the last quantum. *)
Lemma decode_loop_ok (s : bytes) (idx : list nat) (st : bytes * Z) :
  Forall (fun i => Forall (fun c => Base64.b32rev c <> None)
                     (slice s i (i + 8))) idx ->
  exists dec acc,
    Base64.decode_loop s idx st = Ok (dec, acc)
    /\ length dec = (length (fst st) + 5 * length idx)%nat
    /\ (idx = [] -> (dec, acc) = st)
    /\ (idx <> [] ->
        0 <= acc < 32 ^ len (slice s (List.last idx 0%nat)
                               (List.last idx 0%nat + 8))).
Proof.
  revert st. induction idx as [|i idx IH]; intros [dec0 acc0] H.
  - exists dec0, acc0. cbn [Base64.decode_loop fst length].
    split; [reflexivity|]. split; [lia|].
    split; [reflexivity|congruence].
  - inversion H as [|? ? Hi H']; subst.
    cbn [Base64.decode_loop].
    destruct (quanta_acc_ok _ 0 Hi) as (v & Hv & Hv0 & Hvk); [lia|].
    rewrite Hv. cbn [rbind].
    specialize (Hvk 0 eq_refl (Z.le_refl 0)). rewrite Z.add_0_l in Hvk.
    pose proof (slice_length_8 s i) as Hlen.
    assert (v < 256 ^ Z.of_nat 5).
    { change (256 ^ Z.of_nat 5) with (32 ^ 8).
      eapply Z.lt_le_trans; [exact Hvk|].
      apply Z.pow_le_mono_r; unfold len; lia. }
    destruct (to_bytes_ok 5 v) as (b & Hb & Hbl); [lia|].
    rewrite Hb. cbn [rbind fst].
    destruct (IH (dec0 ++ b, v) H') as (dec & acc & Hl & Hdl & He & Hne).
    exists dec, acc. split; [exact Hl|].
    cbn [fst length] in *. rewrite length_app in Hdl.
    split; [lia|]. split; [discriminate|]. intros _.
    destruct idx as [|j idx'].
    + specialize (He eq_refl). injection He as _ ->.
      cbn [List.last]. lia.
    + change (List.last (i :: j :: idx') 0%nat)
        with (List.last (j :: idx') 0%nat).
      apply Hne. discriminate.
Qed.

Lemma decode_loop_ok_inv (s : bytes) (idx : list nat) (st r : bytes * Z) :
  Base64.decode_loop s idx st = Ok r ->
  Forall (fun i => Forall (fun c => Base64.b32rev c <> None)
                     (slice s i (i + 8))) idx.
Proof.
  revert st. induction idx as [|i idx IH]; intros st H; [constructor|].
  cbn [Base64.decode_loop] in H.
  destruct (Base64.quanta_acc _ 0) as [v|e] eqn:Ev; [|discriminate].
  cbn [rbind] in H.
  destruct (to_bytes 5 v) as [b|e]; [|discriminate].
  cbn [rbind] in H.
  constructor; [eapply quanta_acc_ok_inv, Ev|eapply IH, H].
Qed.

(** The quanta cover the string. *)
Lemma slices_forall {A} (P : A -> Prop) (m : nat) (s : list A) :
  Forall (fun k => Forall P (slice s (k * 8) (k * 8 + 8))) (seq 0 m)
  <-> Forall P (firstn (8 * m) s).
Proof.
  revert s. induction m as [|m IH]; intros s.
  - rewrite Nat.mul_0_r. cbn [seq firstn]. split; constructor.
  - change (seq 0 (S m)) with (0%nat :: seq 1 m).
    rewrite <- seq_shift, Forall_cons, List.Forall_map.
    replace (8 * S m)%nat with (8 + 8 * m)%nat by lia.
    rewrite <- take_take_drop, Forall_app, <- IH.
    assert (Hs : forall k,
               slice s (S k * 8) (S k * 8 + 8)
               = slice (skipn 8 s) (k * 8) (k * 8 + 8)).
    { intros k. unfold slice. rewrite skipn_skipn.
      replace (S k * 8 + 8 - S k * 8)%nat with 8%nat by lia.
      replace (k * 8 + 8 - k * 8)%nat with 8%nat by lia.
      replace (S k * 8)%nat with (k * 8 + 8)%nat by lia. reflexivity. }
    assert (H0 : slice s (0 * 8) (0 * 8 + 8) = firstn 8 s) by reflexivity.
    rewrite H0.
    split; intros [Ha Hb]; (split; [exact Ha|]);
      (eapply List.Forall_impl; [|exact Hb]); intros k Hk; cbv beta in *.
    + rewrite <- Hs. exact Hk.
    + rewrite Hs. exact Hk.
Qed.

Lemma slices_cover {A} (P : A -> Prop) (s : list A) :
  Forall (fun i => Forall P (slice s i (i + 8))) (range_step (length s) 8)
  <-> Forall P s.
Proof.
  unfold range_step. rewrite List.Forall_map, slices_forall.
  rewrite firstn_all2; [reflexivity|].
  pose proof (Nat.div_mod_eq (length s + 8 - 1) 8).
  pose proof (Nat.mod_upper_bound (length s + 8 - 1) 8). lia.
Qed.

Lemma last_range_step (n : nat) :
  (0 < n)%nat ->
  List.last (range_step n 8) 0%nat = (((n + 8 - 1) / 8 - 1) * 8)%nat.
Proof.
  intros Hn. unfold range_step.
  pose proof (Nat.div_mod_eq (n + 8 - 1) 8).
  pose proof (Nat.mod_upper_bound (n + 8 - 1) 8).
  destruct ((n + 8 - 1) / 8)%nat as [|m] eqn:E; [lia|].
  rewrite seq_S, map_app. cbn [map]. rewrite last_last.
  f_equal. lia.
Qed.

Lemma forallb_ascii (s : str) :
  forallb (fun c => (0 <=? c) && (c <? 128)) s = true
  <-> Forall (fun c => 0 <= c < 128) s.
Proof.
  rewrite forallb_forall, List.Forall_forall.
  split; intros H c Hc; specialize (H c Hc).
  - apply andb_true_iff in H. lia.
  - apply andb_true_iff. lia.
Qed.

Lemma valid_padchars_cases (p : Z) :
  Base64.valid_padchars p = true <-> p = 0 \/ p = 1 \/ p = 3 \/ p = 4 \/ p = 6.
Proof.
  unfold Base64.valid_padchars. rewrite !orb_true_iff, !Z.eqb_eq. tauto.
Qed.

(** When [b32decode] returns: the text is ASCII, its length a multiple of
    eight, the part before the trailing padding holds Base32 digits only and
    the number of padding characters is one that a whole number of bytes
    leaves. *)
Lemma b32decode_ok_iff (s : str) :
  is_ok (Base64.b32decode s true) = true
  <-> Forall (fun c => 0 <= c < 128) s
      /\ len s mod 8 = 0
      /\ Forall (fun c => Base64.b32rev c <> None)
                (rstrip 61 (map ascii_upper s))
      /\ Base64.valid_padchars
           (len s - len (rstrip 61 (map ascii_upper s))) = true.
Proof.
  unfold Base64.b32decode, Base64.bytes_from_decode_data.
  destruct (forallb _ s) eqn:Ea.
  2:{ cbn [rbind is_ok]. split; [discriminate|].
      intros [Ha _]. apply forallb_ascii in Ha. congruence. }
  apply forallb_ascii in Ea. cbn [rbind].
  destruct (Z.eqb_spec (len s mod 8) 0) as [E8|E8]; cbn [negb].
  2:{ cbn [is_ok]. split; [discriminate|]. tauto. }
  assert (Hl1 : len (map ascii_upper s) = len s)
    by (unfold len; rewrite length_map; reflexivity).
  rewrite Hl1. set (s2 := rstrip 61 (map ascii_upper s)).
  pose proof (rstrip_length 61 (map ascii_upper s)) as Hle.
  fold s2 in Hle. rewrite length_map in Hle.
  destruct (Base64.decode_loop s2 (range_step (length s2) 8) ([], 0))
    as [[dec acc]|e] eqn:El; cbn [rbind fst snd].
  2:{ cbn [is_ok]. split; [discriminate|]. intros (_ & _ & Hg & _).
      apply (proj2 (slices_cover _ s2)) in Hg.
      destruct (decode_loop_ok s2 _ ([], 0) Hg) as (? & ? & Hok & _).
      congruence. }
  rewrite (proj2 (Z.eqb_eq _ _) E8). cbn [negb orb].
  pose proof (decode_loop_ok_inv _ _ _ _ El) as Hg.
  destruct (decode_loop_ok s2 _ ([], 0) Hg) as (dec' & acc' & Hok & Hdl & _ & Hacc).
  rewrite El in Hok. injection Hok as <- <-. cbn [fst length] in Hdl.
  apply (proj1 (slices_cover _ s2)) in Hg.
  destruct (Base64.valid_padchars (len s - len s2)) eqn:Ev; cbn [negb].
  2:{ cbn [is_ok]. split; [discriminate|]. intros (_ & _ & _ & ?). discriminate. }
  split; [intros _; repeat split; assumption|]. intros _.
  destruct (Z.eqb_spec (len s - len s2) 0) as [Ep|Ep]; cbn [negb andb];
    [reflexivity|].
  destruct (Nat.eqb_spec (length dec) 0) as [Ed|Ed]; cbn [negb];
    [reflexivity|].
  apply valid_padchars_cases in Ev.
  assert (Hidx : range_step (length s2) 8 <> [])
    by (intros Hnil; rewrite Hnil in Hdl; cbn [length] in Hdl; lia).
  specialize (Hacc Hidx).
  assert (Hs2 : (0 < length s2)%nat).
  { destruct (length s2) eqn:E0; [|lia]. exfalso. apply Hidx. reflexivity. }
  rewrite last_range_step in Hacc by exact Hs2.
  unfold len, slice in Hacc. rewrite length_firstn, length_skipn in Hacc.
  unfold len in *.
  pose proof (Nat.div_mod_eq (length s2 + 8 - 1) 8).
  pose proof (Nat.mod_upper_bound (length s2 + 8 - 1) 8).
  assert (Hq : exists q, Z.of_nat (length s) = 8 * q).
  { exists (Z.of_nat (length s) / 8).
    pose proof (Z.div_mod (Z.of_nat (length s)) 8). lia. }
  destruct Hq as [q Hq].
  set (p := Z.of_nat (length s) - Z.of_nat (length s2)) in *.
  assert (Hlast : Z.of_nat
            (Init.Nat.min
               (((length s2 + 8 - 1) / 8 - 1) * 8 + 8
                - ((length s2 + 8 - 1) / 8 - 1) * 8)
               (length s2 - ((length s2 + 8 - 1) / 8 - 1) * 8))
          <= 8 - p) by lia.
  assert (Hb : 0 <= Z.shiftl acc (5 * p) < 256 ^ Z.of_nat 5).
  { rewrite Z.shiftl_mul_pow2 by lia.
    change (256 ^ Z.of_nat 5) with (32 ^ 8).
    replace (2 ^ (5 * p)) with (32 ^ p)
      by (change 32 with (2 ^ 5); rewrite <- Z.pow_mul_r by lia; reflexivity).
    assert (0 < 32 ^ p) by (apply Z.pow_pos_nonneg; lia).
    assert (32 ^ (8 - p) * 32 ^ p = 32 ^ 8)
      by (rewrite <- Z.pow_add_r by lia; f_equal; lia).
    assert (acc < 32 ^ (8 - p)).
    { eapply Z.lt_le_trans; [apply Hacc|].
      apply Z.pow_le_mono_r; lia. }
    nia. }
  destruct (to_bytes_ok 5 _ Hb) as (b & -> & _). reflexivity.
Qed.

Lemma b32rev_upper (c : Z) :
  Base64.b32rev (ascii_upper c) <> None <-> base32_digit c = true.
Proof.
  unfold Base64.b32rev, ascii_upper, base32_digit.
  destruct (Z.leb_spec 97 c), (Z.leb_spec c 122); cbn [andb orb];
    repeat match goal with
      | |- context [Z.leb ?a ?b] => destruct (Z.leb_spec a b); cbn [andb orb]
      end;
    split; intros; try congruence; try discriminate; try lia.
Qed.

Lemma base32_digit_ascii (c : Z) : base32_digit c = true -> 0 <= c < 128.
Proof.
  unfold base32_digit. rewrite !orb_true_iff, !andb_true_iff. lia.
Qed.

Lemma missing_padding_bound (raw : str) :
  0 <= missing_padding raw < 8
  /\ (len raw + missing_padding raw) mod 8 = 0.
Proof.
  unfold missing_padding. generalize (len raw). intros n.
  split; Z.to_euclidean_division_equations; lia.
Qed.

(** The text pyotp hands to [b32decode]. *)
Lemma byte_secret_padded (t : Pyotp.totp) :
  Pyotp.byte_secret t
  = Base64.b32decode
      (Pyotp.secret t
         ++ repeat 61 (Z.to_nat (missing_padding (Pyotp.secret t)))) true.
Proof.
  unfold Pyotp.byte_secret, missing_padding. cbv zeta.
  pose proof (Z.mod_pos_bound (len (Pyotp.secret t)) 8 eq_refl).
  destruct (Z.eqb_spec (len (Pyotp.secret t) mod 8) 0) as [E|E]; cbn [negb].
  - rewrite E. cbn [Z.sub Z.opp Z.add]. change (Z.to_nat (8 mod 8)) with 0%nat.
    cbn [repeat]. rewrite app_nil_r. reflexivity.
  - rewrite (Z.mod_small (8 - _)) by lia. reflexivity.
Qed.

(** When pyotp decodes a secret: Base32 digits in either case, then
    padding, with a padding count that a whole number of bytes leaves. *)
Lemma byte_secret_ok_iff (t : Pyotp.totp) :
  is_ok (Pyotp.byte_secret t) = true
  <-> Forall (fun c => base32_digit c = true) (rstrip 61 (Pyotp.secret t))
      /\ Base64.valid_padchars (padding_count (Pyotp.secret t)) = true.
Proof.
  rewrite byte_secret_padded, b32decode_ok_iff.
  set (raw := Pyotp.secret t).
  destruct (missing_padding_bound raw) as [Hm Hm8].
  set (m := Z.to_nat (missing_padding raw)).
  assert (Hlen : len (raw ++ repeat 61 m) = len raw + missing_padding raw).
  { unfold len, m. rewrite length_app, repeat_length. lia. }
  assert (Hstrip : rstrip 61 (map ascii_upper (raw ++ repeat 61 m))
                   = map ascii_upper (rstrip 61 raw)).
  { rewrite map_app, map_repeat. change (ascii_upper 61) with 61.
    rewrite rstrip_app_repeat. apply rstrip_map_upper. }
  rewrite Hstrip, Hlen, List.Forall_map.
  assert (Hpc : len raw + missing_padding raw
                - len (map ascii_upper (rstrip 61 raw)) = padding_count raw).
  { unfold padding_count, len. rewrite length_map. lia. }
  rewrite Hpc.
  assert (Hd : Forall (fun c => Base64.b32rev (ascii_upper c) <> None)
                 (rstrip 61 raw)
               <-> Forall (fun c => base32_digit c = true) (rstrip 61 raw)).
  { apply Forall_iff. intros c. apply b32rev_upper. }
  rewrite Hd. split; [tauto|]. intros [Hg Hp].
  repeat split; try assumption.
  rewrite (rstrip_decomp 61 raw). rewrite <- app_assoc.
  apply Forall_app. split.
  - eapply List.Forall_impl; [|exact Hg]. apply base32_digit_ascii.
  - apply Forall_app. split; apply Forall_forall; intros c Hc;
      apply list_elem_of_In, repeat_spec in Hc; subst; lia.
Qed.

(** ** Validation of a secret *)

(** What the [try] block of the handlers finds. *)
Lemma validate_run (d : datetime) (raw : str) :
  run_at d (App.validate raw)
  = Ok match (t <- Pyotp.TOTP raw ;;
              Pyotp.generate_otp t (Z.of_N d / 1000000 / 30)) with
       | Ok _ => None
       | Raise e => Some e
       end.
Proof.
  unfold App.validate. rewrite TOTP_defaults.
  rewrite run_at_try_except, run_at_pbind.
  cbn [pbind run_at Pyotp.now rbind].
  rewrite run_at_pbind, timecode_30 by reflexivity. cbn [run_at].
  destruct (Pyotp.generate_otp _ _); reflexivity.
Qed.

(** The check passes exactly for the secrets that pyotp decodes. *)
Lemma validate_accepts_iff (d : datetime) (raw : str) :
  run_at d (App.validate raw) = Ok None <-> valid_secret raw = true.
Proof.
  rewrite validate_run. unfold valid_secret. rewrite TOTP_defaults.
  cbn [rbind].
  set (t := Pyotp.Totp raw 6 (py "Secret") None 30).
  assert (Hc : 0 <= Z.of_N d / 1000000 / 30)
    by (apply Z.div_pos; [apply Z.div_pos|]; lia).
  destruct (Pyotp.byte_secret t) as [key|e] eqn:Hk; cbn [is_ok].
  - destruct (generate_otp_zero_padded t key _ Hk Hc) as (c & _ & ->).
    + cbn [Pyotp.digits t]. lia.
    + split; reflexivity.
  - unfold Pyotp.generate_otp. destruct (Z.ltb_spec (Z.of_N d / 1000000 / 30) 0);
      [lia|]. rewrite Hk. cbn [rbind]. split; discriminate.
Qed.

Lemma valid_secret_iff (raw : str) :
  valid_secret raw = true
  <-> Forall (fun c => base32_digit c = true) (rstrip 61 raw)
      /\ Base64.valid_padchars (padding_count raw) = true.
Proof.
  unfold valid_secret. rewrite TOTP_defaults. cbn [rbind].
  rewrite byte_secret_ok_iff. reflexivity.
Qed.

Lemma valid_secret_ascii (raw : str) :
  valid_secret raw = true -> Forall (fun c => 0 <= c < 128) raw.
Proof.
  intros [Hg _]%valid_secret_iff.
  rewrite (rstrip_decomp 61 raw). apply Forall_app. split.
  - eapply List.Forall_impl; [|exact Hg]. apply base32_digit_ascii.
  - apply Forall_forall. intros c Hc.
    apply list_elem_of_In, repeat_spec in Hc. subst. lia.
Qed.

(** C6, the claim as written fails: a secret of fourteen Base32 digits is
    not empty, has no character outside A-Z2-7 and holds eight whole bytes,
    yet the check rejects it, since pyotp completes it with two [=] and
    [b32decode] refuses that padding. *)
Lemma C6_counterexample_fourteen_digits :
  PyotpUtils.truthy (Some (py "JBSWY3DPEHPK3P")) = true
  /\ run_at (Datetime.of_seconds 0) (App.validate (py "JBSWY3DPEHPK3P"))
     = Ok (Some (binascii_Error "Incorrect padding"))
  /\ Spec.invalid_secret (py "JBSWY3DPEHPK3P") = false.
Proof. repeat split; vm_compute; reflexivity. Qed.

(** C6, amended. For an input without space characters, the secret check of
    the add and edit handlers (the secret must not be empty and
    [pyotp.TOTP(secret).now()] must not raise) passes exactly when the input
    is not empty, holds only Base32 digits A-Z, a-z, 2-7 before its trailing
    [=] padding, and the number of [=], counting those pyotp appends to reach
    a multiple of eight, is 0, 1, 3, 4 or 6; so padded and unpadded forms of
    the same digits are both accepted.  The input not-base32! is rejected. *)
Theorem C6_secret_check (d : datetime) (raw : str) :
  ~ In 32 raw ->
  ((PyotpUtils.truthy (Some raw) = true
    /\ run_at d (App.validate raw) = Ok None)
   <-> (raw <> []
        /\ Forall (fun c => base32_digit c = true) (rstrip 61 raw)
        /\ Base64.valid_padchars (padding_count raw) = true))
  /\ (t <- Pyotp.TOTP
              (raw ++ repeat 61 (Z.to_nat (missing_padding raw))) ;;
      Pyotp.byte_secret t)
     = (t <- Pyotp.TOTP raw ;; Pyotp.byte_secret t)
  /\ (exists e, run_at d (App.validate (py "not-base32!")) = Ok (Some e)).
Proof.
  intros _. split; [|split].
  - rewrite validate_accepts_iff, valid_secret_iff.
    destruct raw as [|c raw]; cbn [PyotpUtils.truthy].
    + split; [intros [? _]; discriminate|intros [? _]; congruence].
    + split; [intros [_ ?]; split; [discriminate|assumption]
             |intros [_ ?]; split; [reflexivity|assumption]].
  - rewrite !TOTP_defaults. cbn [rbind].
    rewrite !byte_secret_padded. cbn [Pyotp.secret].
    destruct (missing_padding_bound raw) as [Hm Hm8].
    assert (Hz : missing_padding
                   (raw ++ repeat 61 (Z.to_nat (missing_padding raw))) = 0).
    { unfold missing_padding at 1.
      replace (len (raw ++ repeat 61 (Z.to_nat (missing_padding raw))))
        with (len raw + missing_padding raw)
        by (unfold len; rewrite length_app, repeat_length; lia).
      rewrite Hm8. reflexivity. }
    rewrite Hz. cbn [Z.to_nat repeat]. rewrite app_nil_r. reflexivity.
  - rewrite validate_run.
    destruct (rbind _ _) as [code|e] eqn:E; [exfalso|eexists; reflexivity].
    assert (H : run_at d (App.validate (py "not-base32!")) = Ok None)
      by (rewrite validate_run, E; reflexivity).
    apply validate_accepts_iff in H. vm_compute in H. discriminate H.
Qed.

Lemma C6_secret_check_witness :
  ~ In 32 (py "JBSWY3DPEHPK3PXP")
  /\ (((PyotpUtils.truthy (Some (py "JBSWY3DPEHPK3PXP")) = true
        /\ run_at (Datetime.of_seconds 0)
             (App.validate (py "JBSWY3DPEHPK3PXP")) = Ok None)
       <-> (py "JBSWY3DPEHPK3PXP" <> []
            /\ Forall (fun c => base32_digit c = true)
                 (rstrip 61 (py "JBSWY3DPEHPK3PXP"))
            /\ Base64.valid_padchars
                 (padding_count (py "JBSWY3DPEHPK3PXP")) = true))
      /\ (t <- Pyotp.TOTP
                  (py "JBSWY3DPEHPK3PXP"
                     ++ repeat 61
                          (Z.to_nat
                             (missing_padding (py "JBSWY3DPEHPK3PXP")))) ;;
          Pyotp.byte_secret t)
         = (t <- Pyotp.TOTP (py "JBSWY3DPEHPK3PXP") ;; Pyotp.byte_secret t)
      /\ (exists e,
            run_at (Datetime.of_seconds 0) (App.validate (py "not-base32!"))
            = Ok (Some e))).
Proof.
  assert (H : ~ In 32 (py "JBSWY3DPEHPK3PXP"))
    by (cbn; intuition discriminate).
  split; [exact H|].
  exact (C6_secret_check (Datetime.of_seconds 0) (py "JBSWY3DPEHPK3PXP") H).
Defined.

(** ** The stored secret *)

Section StoredSecret.

Variable unicode_upper : Z -> list Z.

Abbreviation normalize := (App.normalize unicode_upper).
Abbreviation normalized := (App.normalized unicode_upper).

Lemma ascii_upper_idem (c : Z) : ascii_upper (ascii_upper c) = ascii_upper c.
Proof.
  unfold ascii_upper.
  destruct (Z.leb_spec 97 c), (Z.leb_spec c 122); cbn [andb];
    repeat match goal with
      | |- context [Z.leb ?a ?b] => destruct (Z.leb_spec a b); cbn [andb]
      end; try reflexivity; lia.
Qed.

Lemma ascii_upper_range (c : Z) : 0 <= c < 128 -> 0 <= ascii_upper c < 128.
Proof.
  unfold ascii_upper.
  destruct (Z.leb_spec 97 c), (Z.leb_spec c 122); cbn [andb]; lia.
Qed.

Lemma normalize_app (a b : str) :
  normalize (a ++ b) = normalize a ++ normalize b.
Proof.
  unfold App.normalize, App.str_upper, Urllib.replace.
  rewrite !flat_map_app. reflexivity.
Qed.

Lemma normalize_ascii_char (c : Z) :
  0 <= c < 128 ->
  normalize [c] = if ascii_upper c =? 32 then [] else [ascii_upper c].
Proof.
  intros Hc. unfold App.normalize, App.str_upper, Urllib.replace.
  cbn [flat_map].
  destruct (Z.leb_spec 0 c), (Z.ltb_spec c 128); try lia. cbn [andb app flat_map].
  destruct (ascii_upper c =? 32); reflexivity.
Qed.

(** On ASCII text the normalisation is idempotent. *)
Lemma normalize_idem (raw : str) :
  Forall (fun c => 0 <= c < 128) raw ->
  normalize (normalize raw) = normalize raw.
Proof.
  induction 1 as [|c raw Hc _ IH]; [reflexivity|].
  change (c :: raw) with ([c] ++ raw).
  rewrite !normalize_app, IH. f_equal.
  rewrite normalize_ascii_char by exact Hc.
  destruct (Z.eqb_spec (ascii_upper c) 32) as [E|E]; [reflexivity|].
  rewrite normalize_ascii_char by (apply ascii_upper_range; exact Hc).
  rewrite ascii_upper_idem.
  destruct (Z.eqb_spec (ascii_upper c) 32); [contradiction|reflexivity].
Qed.

Lemma validated_normal (d : datetime) (raw : str) :
  run_at d (App.validate raw) = Ok None ->
  normalize raw = normalize (normalize raw).
Proof.
  intros H%validate_accepts_iff%valid_secret_ascii.
  symmetry. apply normalize_idem, H.
Qed.

Lemma add_account_normalized m f c d r (db db' : App.table) :
  run_at d (App.add_account unicode_upper m f c db) = Ok (r, db') ->
  normalized db -> normalized db'.
Proof.
  unfold App.add_account. intros H Hdb.
  destruct m; [injection H as _ <-; exact Hdb|].
  destruct (negb _ || negb _); [injection H as _ <-; exact Hdb|].
  rewrite run_at_pbind in H.
  destruct (run_at d (App.validate _)) as [[e|]|e] eqn:Hv;
    [injection H as _ <-; exact Hdb| |discriminate H].
  destruct (App.existing _ _); [injection H as _ <-; exact Hdb|].
  destruct c; injection H as _ <-; [|exact Hdb].
  apply map_Forall_insert_2; [|exact Hdb].
  cbn [Models.new Models.secret]. eapply validated_normal, Hv.
Qed.

Lemma edit_account_normalized i m f c d r (db db' : App.table) :
  run_at d (App.edit_account unicode_upper i m f c db) = Ok (r, db') ->
  normalized db -> normalized db'.
Proof.
  unfold App.edit_account. intros H Hdb.
  destruct (db !! i) as [account|]; [|injection H as _ <-; exact Hdb].
  destruct m; [injection H as _ <-; exact Hdb|].
  destruct (negb _ || negb _); [injection H as _ <-; exact Hdb|].
  rewrite run_at_pbind in H.
  destruct (run_at d (App.validate _)) as [[e|]|e] eqn:Hv;
    [injection H as _ <-; exact Hdb| |discriminate H].
  destruct (bool_decide _ && App.existing _ _);
    [injection H as _ <-; exact Hdb|].
  destruct c; injection H as _ <-; [|exact Hdb].
  apply map_Forall_insert_2; [|exact Hdb].
  cbn [Models.secret]. eapply validated_normal, Hv.
Qed.

Lemma step_normalized (db db' : App.table) :
  App.step unicode_upper db db' -> normalized db -> normalized db'.
Proof.
  intros [m f c d r db1 H|i m f c d r db1 H|i c|i c] Hdb.
  - eapply add_account_normalized; eassumption.
  - eapply edit_account_normalized; eassumption.
  - unfold App.toggle_hidden.
    destruct (db !! i) as [a|] eqn:Ha; [|exact Hdb].
    destruct c; [|exact Hdb]. cbn [snd].
    apply map_Forall_insert_2; [|exact Hdb].
    cbn [Models.secret]. exact (Hdb i a Ha).
  - unfold App.delete_account.
    destruct (db !! i) as [a|]; [|exact Hdb].
    destruct c; [|exact Hdb]. cbn [snd].
    apply map_Forall_delete, Hdb.
Qed.

(** C9. Every account in a table that the handlers can build from an empty
    database holds a normalised secret: upper-casing it and removing the
    spaces gives the same text back. *)
Theorem C9_stored_secret_normalized (db : App.table) (id : Z)
        (account : Models.MFAAccount) :
  App.reachable unicode_upper db ->
  db !! id = Some account ->
  Models.secret account = normalize (Models.secret account).
Proof.
  intros Hr. revert id account.
  change (normalized db).
  induction Hr as [|db db' _ IH Hs].
  - apply map_Forall_empty.
  - eapply step_normalized; eassumption.
Qed.

End StoredSecret.

Lemma alice_table_reachable :
  App.reachable (fun c => [c]) alice_table.
Proof.
  apply (App.reachable_step _ ∅); [apply App.reachable_empty|].
  apply (App.step_add _ ∅ App.POST alice_form true (Datetime.of_seconds 0)
           (App.redirect "index" [App.added])).
  vm_compute. reflexivity.
Qed.

Lemma C9_stored_secret_normalized_witness :
  App.reachable (fun c => [c]) alice_table
  /\ alice_table !! 1 = Some alice_account
  /\ Models.secret alice_account
     = App.normalize (fun c => [c]) (Models.secret alice_account).
Proof.
  split; [exact alice_table_reachable|].
  split; [reflexivity|].
  apply (C9_stored_secret_normalized (fun c => [c]) alice_table 1
           alice_account alice_table_reachable).
  reflexivity.
Defined.

(** ** The provisioning URI *)

Lemma replace_app (c : Z) (n a b : str) :
  Urllib.replace c n (a ++ b) = Urllib.replace c n a ++ Urllib.replace c n b.
Proof. unfold Urllib.replace. apply flat_map_app. Qed.

Lemma replace_absent (c : Z) (n s : str) :
  Forall (fun x => x <> c) s -> Urllib.replace c n s = s.
Proof.
  induction 1 as [|x s Hx _ IH]; [reflexivity|].
  unfold Urllib.replace in *. cbn [flat_map]. rewrite IH.
  destruct (Z.eqb_spec x c); [contradiction|reflexivity].
Qed.

Lemma replace_flat_map {A} (c : Z) (n : str) (f : A -> str) (l : list A) :
  Urllib.replace c n (flat_map f l)
  = flat_map (fun x => Urllib.replace c n (f x)) l.
Proof.
  induction l as [|x l IH]; [reflexivity|].
  cbn [flat_map]. rewrite replace_app, IH. reflexivity.
Qed.

(** The quick exits of [quote_from_bytes] return what the quoter would. *)
Lemma quote_from_bytes_quoter (bs : bytes) (safe : str) :
  Urllib.quote_from_bytes bs safe
  = flat_map (Urllib.quoter (filter (fun c => bool_decide (c < 128)) safe)) bs.
Proof.
  unfold Urllib.quote_from_bytes. destruct bs as [|b bs]; [reflexivity|].
  set (safe' := filter _ safe).
  destruct (forallb _ (b :: bs)) eqn:E; [|reflexivity].
  rewrite forallb_forall in E.
  generalize dependent (b :: bs). intros l E.
  induction l as [|x l IH]; [reflexivity|].
  cbn [flat_map]. rewrite <- IH by (intros y Hy; apply E; right; exact Hy).
  unfold Urllib.quoter. rewrite (E x (or_introl eq_refl)). reflexivity.
Qed.

Lemma hex_digit_range (n : Z) :
  0 <= n < 16 -> 48 <= Urllib.hex_digit n <= 70.
Proof.
  unfold Urllib.hex_digit. destruct (Z.ltb_spec n 10); lia.
Qed.

Lemma always_safe_range (b : Z) :
  Urllib.always_safe b = true -> 45 <= b <= 126.
Proof.
  unfold Urllib.always_safe.
  rewrite !orb_true_iff, !andb_true_iff, !Z.eqb_eq, !Z.leb_le. lia.
Qed.

Ltac absent :=
  repeat (apply List.Forall_cons; [lia|]); apply List.Forall_nil.

(** In a query value the plus sign stands for a space: after
    [.replace("+", "%20")] a byte is quoted as [quote] with no safe
    character quotes it. *)
Lemma quoter_plus_space (b : Z) :
  0 <= b ->
  Urllib.replace 43 (py "%20")
    (Urllib.replace 32 (py "+") (Urllib.quoter [32] b))
  = Urllib.quoter [] b.
Proof.
  intros Hb. unfold Urllib.quoter. cbn [existsb orb].
  destruct (Urllib.always_safe b) eqn:Es; cbn [orb].
  - apply always_safe_range in Es.
    rewrite (replace_absent 32) by absent.
    rewrite (replace_absent 43) by absent. reflexivity.
  - rewrite orb_false_r.
    destruct (Z.eqb_spec b 32) as [->|Hn]; [reflexivity|].
    assert (0 <= b / 16) by (apply Z.div_pos; lia).
    assert (H1 : 48 <= Urllib.hex_digit (b / 16))
      by (unfold Urllib.hex_digit; destruct (Z.ltb_spec (b / 16) 10); lia).
    pose proof (hex_digit_range (b mod 16) (Z.mod_pos_bound b 16 eq_refl)).
    rewrite (replace_absent 32) by absent.
    rewrite (replace_absent 43) by absent. reflexivity.
Qed.

Lemma quoter_no_plus (b : Z) :
  0 <= b ->
  Urllib.replace 43 (py "%20") (Urllib.quoter [] b) = Urllib.quoter [] b.
Proof.
  intros Hb. unfold Urllib.quoter. cbn [existsb orb].
  destruct (Urllib.always_safe b) eqn:Es; cbn [orb].
  - apply always_safe_range in Es.
    apply replace_absent. absent.
  - assert (0 <= b / 16) by (apply Z.div_pos; lia).
    assert (H1 : 48 <= Urllib.hex_digit (b / 16))
      by (unfold Urllib.hex_digit; destruct (Z.ltb_spec (b / 16) 10); lia).
    pose proof (hex_digit_range (b mod 16) (Z.mod_pos_bound b 16 eq_refl)).
    apply replace_absent. absent.
Qed.

Lemma utf8_char_nonneg (c : Z) (b : bytes) :
  Urllib.utf8_char c = Ok b -> Forall (fun x => 0 <= x) b.
Proof.
  unfold Urllib.utf8_char.
  repeat match goal with
    | |- context [if ?t then _ else _] => destruct t eqn:?
    end; intros H; try discriminate H; injection H as <-;
    assert (0 <= c) by lia;
    repeat constructor; try lia;
    apply Z.lor_nonneg; split; try lia;
    try (apply Z.land_nonneg; right; lia);
    apply Z.shiftr_nonneg; lia.
Qed.

Lemma encode_utf8_nonneg (s : str) (bs : bytes) :
  Urllib.encode_utf8 s = Ok bs -> Forall (fun x => 0 <= x) bs.
Proof.
  revert bs. induction s as [|c s IH]; intros bs H; cbn [Urllib.encode_utf8] in H.
  - injection H as <-. constructor.
  - destruct (Urllib.utf8_char c) as [b|] eqn:Eb; [|discriminate H].
    cbn [rbind] in H.
    destruct (Urllib.encode_utf8 s) as [br|]; [|discriminate H].
    cbn [rbind] in H. injection H as <-.
    apply Forall_app. split; [eapply utf8_char_nonneg, Eb|apply IH; reflexivity].
Qed.

Lemma flat_map_ext_Forall {A B} (f g : A -> list B) (l : list A) :
  Forall (fun x => f x = g x) l -> flat_map f l = flat_map g l.
Proof.
  induction 1 as [|x l Hx _ IH]; [reflexivity|].
  cbn [flat_map]. rewrite Hx, IH. reflexivity.
Qed.

(** A query value, once its plus signs are rewritten, is the value quoted
    with no safe character beyond the unreserved ones. *)
Lemma quote_plus_query (s : str) :
  (r <- Urllib.quote_plus s [] ;; Ok (Urllib.replace 43 (py "%20") r))
  = Urllib.quote s [].
Proof.
  unfold Urllib.quote_plus.
  destruct (existsb (Z.eqb 32) s) eqn:Esp; cbn [negb].
  - destruct s as [|c s]; [discriminate Esp|].
    unfold Urllib.quote.
    destruct (Urllib.encode_utf8 (c :: s)) as [bs|e] eqn:Eb; [|reflexivity].
    cbn [rbind]. f_equal.
    rewrite !quote_from_bytes_quoter, !replace_flat_map.
    apply flat_map_ext_Forall.
    eapply List.Forall_impl; [|eapply encode_utf8_nonneg, Eb].
    intros b Hb. apply (quoter_plus_space b Hb).
  - unfold Urllib.quote. destruct s as [|c s]; [reflexivity|].
    destruct (Urllib.encode_utf8 (c :: s)) as [bs|e] eqn:Eb; [|reflexivity].
    cbn [rbind]. f_equal.
    rewrite !quote_from_bytes_quoter, !replace_flat_map.
    apply flat_map_ext_Forall.
    eapply List.Forall_impl; [|eapply encode_utf8_nonneg, Eb].
    intros b Hb. apply (quoter_no_plus b Hb).
Qed.

Lemma base32_digit_safe (c : Z) :
  base32_digit c = true -> Urllib.always_safe c = true /\ 0 <= c < 128.
Proof.
  intros H. split; [|apply base32_digit_ascii, H].
  unfold base32_digit in H. unfold Urllib.always_safe.
  rewrite !orb_true_iff, !andb_true_iff, !Z.leb_le in *.
  rewrite !Z.eqb_eq. lia.
Qed.

(** Text made of Base32 digits passes through the quoting unchanged. *)
Lemma quote_plus_base32 (s : str) :
  Forall (fun c => base32_digit c = true) s ->
  Urllib.quote_plus s [] = Ok s /\ Urllib.replace 43 (py "%20") s = s.
Proof.
  intros Hs.
  assert (Hsafe : Forall (fun c => Urllib.always_safe c = true /\ 0 <= c < 128) s)
    by (eapply List.Forall_impl; [|exact Hs]; apply base32_digit_safe).
  assert (Hno : forall x, Forall (fun c => c <> x) s \/ 45 <= x).
  { intros x. destruct (Z.le_gt_cases 45 x); [right; assumption|left].
    eapply List.Forall_impl; [|exact Hsafe].
    intros c [Hc%always_safe_range _]. lia. }
  split.
  - unfold Urllib.quote_plus.
    assert (Esp : existsb (Z.eqb 32) s = false).
    { destruct (Hno 32) as [H|H]; [|lia].
      clear -H. induction H as [|c s Hc _ IH]; [reflexivity|].
      cbn [existsb]. rewrite IH.
      destruct (Z.eqb_spec 32 c); [congruence|reflexivity]. }
    rewrite Esp. cbn [negb]. unfold Urllib.quote.
    destruct s as [|c s]; [reflexivity|].
    assert (Eu : Urllib.encode_utf8 (c :: s) = Ok (c :: s)).
    { clear -Hsafe. induction Hsafe as [|x l [_ Hx] _ IH]; [reflexivity|].
      cbn [Urllib.encode_utf8]. unfold Urllib.utf8_char.
      destruct (Z.ltb_spec x 0); [lia|].
      destruct (Z.ltb_spec x 128); [|lia].
      cbn [rbind]. rewrite IH. reflexivity. }
    rewrite Eu. cbn [rbind]. f_equal.
    rewrite quote_from_bytes_quoter. cbn [filter].
    clear -Hsafe. induction Hsafe as [|x l [Hx _] _ IH]; [reflexivity|].
    cbn [flat_map]. rewrite IH. unfold Urllib.quoter. rewrite Hx. reflexivity.
  - apply replace_absent. destruct (Hno 43) as [H|H]; [exact H|lia].
Qed.

Lemma Ok_inj {A} (a b : A) : Ok a = Ok b -> a = b.
Proof. intros H. injection H as ->. reflexivity. Qed.

(** C2, the claim as written fails: for an account with the default issuer
    the URI ends after the issuer; pyotp leaves out the parameters
    [algorithm], [digits] and [period] when they have their default values,
    so the URI is not the canonical form of the specification. *)
Lemma C2_counterexample_default_parameters :
  Models.get_qr_code_url alice_account
    = Ok (py "otpauth://totp/MFA%20Manager:alice?secret=JBSWY3DPEHPK3PXP&issuer=MFA%20Manager")
  /\ Spec.canonical_uri (py "MFA%20Manager") (py "alice")
       (Models.secret alice_account) 6 30
    = py "otpauth://totp/MFA%20Manager:alice?secret=JBSWY3DPEHPK3PXP&issuer=MFA%20Manager&algorithm=SHA1&digits=6&period=30"
  /\ Models.get_qr_code_url alice_account
    <> Ok (Spec.canonical_uri (py "MFA%20Manager") (py "alice")
             (Models.secret alice_account) 6 30).
Proof.
  split; [vm_compute; reflexivity|].
  split; [vm_compute; reflexivity|].
  vm_compute. discriminate.
Qed.

(** C2, amended. For an account with a name, an issuer and a secret made of
    Base32 digits, [get_qr_code_url] returns
    otpauth://totp/{issuer}:{account}?secret={secret}&issuer={issuer}
    and nothing after it: the label holds the issuer and the account name
    percent-encoded with [/] kept, the query holds the secret as it is
    stored and the issuer percent-encoded with no character kept beyond the
    unreserved ones. *)
Theorem C2_provisioning_uri (self : Models.MFAAccount) (i qn qi qq : str) :
  Models.account_name self <> [] ->
  Models.issuer self = Some i -> i <> [] ->
  Forall (fun c => base32_digit c = true) (Models.secret self) ->
  Urllib.quote (Models.account_name self) (py "/") = Ok qn ->
  Urllib.quote i (py "/") = Ok qi ->
  Urllib.quote i [] = Ok qq ->
  Models.get_qr_code_url self
  = Ok (py "otpauth://totp/" ++ qi ++ py ":" ++ qn
          ++ py "?secret=" ++ Models.secret self ++ py "&issuer=" ++ qq).
Proof.
  intros Hn Hi Hi0 Hs Hqn Hqi Hqq.
  unfold Models.get_qr_code_url. rewrite TOTP_defaults. cbn [rbind].
  unfold PyotpUtils.provisioning_uri.
  cbn [Pyotp.secret Pyotp.name Pyotp.issuer Pyotp.digits Pyotp.interval].
  rewrite Hi.
  destruct (Models.account_name self) as [|c n] eqn:En; [congruence|].
  destruct i as [|c' i']; [congruence|].
  cbn [PyotpUtils.truthy default]. change (id (c :: n)) with (c :: n).
  unfold PyotpUtils.build_uri. rewrite Hqn. cbn [rbind]. rewrite Hqi.
  cbn [rbind fst snd].
  destruct (quote_plus_base32 _ Hs) as [Hqs Hrs].
  pose proof (quote_plus_query (c' :: i')) as Hq. rewrite Hqq in Hq.
  destruct (Urllib.quote_plus (c' :: i') []) as [qp|e] eqn:Eqp;
    [|discriminate Hq].
  apply (Ok_inj (Urllib.replace 43 (py "%20") qp) qq) in Hq.
  rewrite !bool_decide_eq_false_2 by (intros [_ ?]; congruence).
  rewrite (bool_decide_eq_false_2 (None <> None)) by congruence.
  unfold Urllib.urlencode.
  change ([(py "secret", Urllib.VStr (Models.secret self))]
            ++ [(py "issuer", Urllib.VStr (c' :: i'))])
    with [(py "secret", Urllib.VStr (Models.secret self));
          (py "issuer", Urllib.VStr (c' :: i'))].
  cbn [Urllib.urlencode_items Urllib.str_of].
  change (Urllib.quote_plus (py "secret") []) with (Ok (py "secret")).
  change (Urllib.quote_plus (py "issuer") []) with (Ok (py "issuer")).
  rewrite Hqs, Eqp. unfold rbind. unfold Urllib.join.
  rewrite !replace_app, Hrs, Hq.
  change (Urllib.replace 43 (py "%20") (py "secret")) with (py "secret").
  change (Urllib.replace 43 (py "%20") (py "issuer")) with (py "issuer").
  change (Urllib.replace 43 (py "%20") (py "=")) with (py "=").
  change (Urllib.replace 43 (py "%20") (py "&")) with (py "&").
  rewrite <- !app_assoc. reflexivity.
Qed.

Lemma C2_provisioning_uri_witness :
  Models.account_name alice_account <> []
  /\ Models.issuer alice_account = Some (py "MFA Manager")
  /\ py "MFA Manager" <> []
  /\ Forall (fun c => base32_digit c = true) (Models.secret alice_account)
  /\ Urllib.quote (Models.account_name alice_account) (py "/")
     = Ok (py "alice")
  /\ Urllib.quote (py "MFA Manager") (py "/") = Ok (py "MFA%20Manager")
  /\ Urllib.quote (py "MFA Manager") [] = Ok (py "MFA%20Manager")
  /\ Models.get_qr_code_url alice_account
     = Ok (py "otpauth://totp/" ++ py "MFA%20Manager" ++ py ":" ++ py "alice"
             ++ py "?secret=" ++ Models.secret alice_account
             ++ py "&issuer=" ++ py "MFA%20Manager").
Proof.
  assert (H1 : Models.account_name alice_account <> []) by discriminate.
  assert (H2 : py "MFA Manager" <> []) by discriminate.
  assert (H3 : Forall (fun c => base32_digit c = true)
                 (Models.secret alice_account))
    by (repeat constructor).
  split; [exact H1|]. split; [reflexivity|]. split; [exact H2|].
  split; [exact H3|]. do 3 (split; [reflexivity|]).
  apply (C2_provisioning_uri alice_account (py "MFA Manager") (py "alice")
           (py "MFA%20Manager") (py "MFA%20Manager") H1 eq_refl H2 H3);
    reflexivity.
Defined.

(** Without an issuer (the edit form sent with an empty issuer field) the
    label is the account name alone and the query holds the secret only. *)
Example uri_without_issuer :
  Models.get_qr_code_url
    {| Models.account_name := py "alice";
       Models.secret := py "JBSWY3DPEHPK3PXP";
       Models.issuer := Some [];
       Models.hidden := false |}
  = Ok (py "otpauth://totp/alice?secret=JBSWY3DPEHPK3PXP").
Proof. vm_compute. reflexivity. Qed.

(** Padding kept in a stored secret is percent-encoded in the URI. *)
Example uri_padded_secret :
  Models.get_qr_code_url
    {| Models.account_name := py "alice";
       Models.secret := py "MFRGG===";
       Models.issuer := Some (py "MFA Manager");
       Models.hidden := false |}
  = Ok (py "otpauth://totp/MFA%20Manager:alice?secret=MFRGG%3D%3D%3D&issuer=MFA%20Manager").
Proof. vm_compute. reflexivity. Qed.

(** ** The counter as bytes *)

(** For a counter from 0 on the loop of [int_to_bytestring] ends by its own
    test: fuel beyond the number of bytes of the counter changes nothing. *)
Lemma int_to_bytestring_loop_ends (fuel extra : nat) (i : Z) (r : bytes) :
  0 <= i < 256 ^ Z.of_nat fuel ->
  Pyotp.int_to_bytestring_loop (fuel + extra) i r
  = Pyotp.int_to_bytestring_loop fuel i r.
Proof.
  revert i r. induction fuel as [|fuel IH]; intros i r Hi.
  - change (256 ^ Z.of_nat 0) with 1 in Hi. assert (i = 0) as -> by lia.
    destruct extra; reflexivity.
  - cbn [Nat.add Pyotp.int_to_bytestring_loop].
    destruct (Z.eqb_spec i 0); [reflexivity|].
    apply IH. rewrite Z.shiftr_div_pow2 by lia. change (2 ^ 8) with 256.
    rewrite Nat2Z.inj_succ, Z.pow_succ_r in Hi by lia.
    split; [apply Z.div_pos; lia|apply Z.div_lt_upper_bound; lia].
Qed.

Lemma int_to_bytestring_fuel (extra : nat) (i : Z) :
  0 <= i ->
  Pyotp.int_to_bytestring_loop (S (Z.to_nat (Z.log2 i)) + extra) i []
  = Pyotp.int_to_bytestring_loop (S (Z.to_nat (Z.log2 i))) i [].
Proof.
  intros Hi. apply int_to_bytestring_loop_ends. split; [exact Hi|].
  destruct (Z.eq_dec i 0) as [->|Hn]; [reflexivity|].
  pose proof (Z.log2_nonneg i).
  assert (i < 2 ^ Z.succ (Z.log2 i)) by (apply Z.log2_spec; lia).
  eapply Z.lt_le_trans; [eassumption|].
  rewrite Nat2Z.inj_succ, Z2Nat.id by lia.
  change 256 with (2 ^ 8). rewrite <- Z.pow_mul_r by lia.
  apply Z.pow_le_mono_r; lia.
Qed.

Example int_to_bytestring_258 :
  Pyotp.int_to_bytestring 258 8 = [0; 0; 0; 0; 0; 0; 1; 2].
Proof. reflexivity. Qed.

(** ** The handlers and the secret check *)

(** [add_account] answers a posted form whose secret fails the check with
    the error found, and leaves the table as it is. *)
Lemma add_account_invalid_secret (unicode_upper : Z -> list Z)
      (f : App.form) (c : bool) (db : App.table) (d : datetime)
      (name raw : str) (e : exn) :
  f !! "account_name"%string = Some name -> name <> [] ->
  f !! "secret"%string = Some raw -> raw <> [] ->
  run_at d (App.validate raw) = Ok (Some e) ->
  run_at d (App.add_account unicode_upper App.POST f c db)
  = Ok (App.render_template "add_account.html" [App.invalid_secret e], db).
Proof.
  intros Hn Hn0 Hs Hs0 Hv. unfold App.add_account. rewrite Hn, Hs.
  destruct name; [congruence|]. destruct raw; [congruence|].
  cbn [PyotpUtils.truthy negb orb default].
  rewrite run_at_pbind. change (id (?x)) with x. rewrite Hv. reflexivity.
Qed.

(** * Further properties of the handlers and views *)

(** ** Case and the decoded key *)

Lemma b32decode_upper (s : str) :
  Forall (fun c => 0 <= c < 128) s ->
  Base64.b32decode (map ascii_upper s) true = Base64.b32decode s true.
Proof.
  intros Hs. unfold Base64.b32decode, Base64.bytes_from_decode_data.
  assert (Hu : Forall (fun c => 0 <= c < 128) (map ascii_upper s)).
  { apply List.Forall_map. eapply List.Forall_impl; [|exact Hs].
    apply ascii_upper_range. }
  rewrite (proj2 (forallb_ascii _) Hs), (proj2 (forallb_ascii _) Hu).
  cbn [rbind].
  assert (Hl : len (map ascii_upper s) = len s)
    by (unfold len; rewrite length_map; reflexivity).
  assert (Hm : map ascii_upper (map ascii_upper s) = map ascii_upper s).
  { rewrite List.map_map. apply map_ext. apply ascii_upper_idem. }
  rewrite Hm, !Hl. reflexivity.
Qed.

(** The characters of a secret that pyotp decodes. *)
Lemma valid_secret_chars (raw : str) :
  valid_secret raw = true ->
  Forall (fun c => base32_digit c = true \/ c = 61) raw.
Proof.
  intros [Hg _]%valid_secret_iff.
  rewrite (rstrip_decomp 61 raw). apply Forall_app. split.
  - eapply List.Forall_impl; [|exact Hg]. intros c Hc. left. exact Hc.
  - apply List.Forall_forall. intros c Hc.
    apply repeat_spec in Hc. right. exact Hc.
Qed.

Lemma base32_digit_upper (c : Z) :
  base32_digit c = true \/ c = 61 ->
  0 <= c < 128 /\ ascii_upper c <> 32.
Proof.
  intros [H| ->]; [|split; [lia|discriminate]].
  pose proof (base32_digit_ascii c H) as Ha. split; [exact Ha|].
  unfold base32_digit in H. unfold ascii_upper.
  rewrite !orb_true_iff, !andb_true_iff, !Z.leb_le in H.
  destruct (Z.leb_spec 97 c), (Z.leb_spec c 122); cbn [andb]; lia.
Qed.

Section Normalisation.

Variable unicode_upper : Z -> list Z.

(** On a secret that passed the check, the normalisation is the
    upper-casing of its letters: there is no space to remove. *)
Lemma normalize_valid (raw : str) :
  valid_secret raw = true ->
  App.normalize unicode_upper raw = map ascii_upper raw.
Proof.
  intros H%valid_secret_chars.
  induction H as [|c raw Hc _ IH]; [reflexivity|].
  change (c :: raw) with ([c] ++ raw).
  rewrite normalize_app, IH.
  destruct (base32_digit_upper c Hc) as [Ha Hn].
  rewrite normalize_ascii_char by exact Ha.
  destruct (Z.eqb_spec (ascii_upper c) 32); [contradiction|reflexivity].
Qed.

Lemma normalize_key_eq (raw : str) :
  valid_secret raw = true ->
  (t <- Pyotp.TOTP (App.normalize unicode_upper raw) ;; Pyotp.byte_secret t)
  = (t <- Pyotp.TOTP raw ;; Pyotp.byte_secret t).
Proof.
  intros Hv. rewrite (normalize_valid raw Hv), !TOTP_defaults.
  cbn [rbind]. rewrite !byte_secret_padded. cbn [Pyotp.secret].
  assert (Hm : missing_padding (map ascii_upper raw) = missing_padding raw)
    by (unfold missing_padding, len; rewrite length_map; reflexivity).
  rewrite Hm.
  replace (map ascii_upper raw ++ repeat 61 (Z.to_nat (missing_padding raw)))
    with (map ascii_upper
            (raw ++ repeat 61 (Z.to_nat (missing_padding raw))))
    by (rewrite map_app, map_repeat; reflexivity).
  apply b32decode_upper. apply Forall_app. split.
  - apply valid_secret_ascii, Hv.
  - apply List.Forall_forall. intros c Hc. apply repeat_spec in Hc. lia.
Qed.

Lemma normalize_valid_secret (raw : str) :
  valid_secret raw = true ->
  valid_secret (App.normalize unicode_upper raw) = true.
Proof.
  intros Hv. unfold valid_secret. rewrite (normalize_key_eq raw Hv).
  exact Hv.
Qed.

(** X1. The secret that is stored decodes to the key of the secret that was
    entered: the normalisation of a secret that passed the check does not
    change what pyotp decodes, the stored form only drops the lower case. *)
Theorem normalize_keeps_key (raw : str) :
  valid_secret raw = true ->
  App.normalize unicode_upper raw = map ascii_upper raw
  /\ (t <- Pyotp.TOTP (App.normalize unicode_upper raw) ;;
      Pyotp.byte_secret t)
     = (t <- Pyotp.TOTP raw ;; Pyotp.byte_secret t).
Proof.
  intros Hv. split; [apply normalize_valid, Hv|apply normalize_key_eq, Hv].
Qed.

End Normalisation.

Lemma normalize_keeps_key_witness :
  valid_secret (py "jbswy3dpehpk3pxp") = true
  /\ (App.normalize (fun c => [c]) (py "jbswy3dpehpk3pxp")
      = map ascii_upper (py "jbswy3dpehpk3pxp")
      /\ (t <- Pyotp.TOTP
                  (App.normalize (fun c => [c]) (py "jbswy3dpehpk3pxp")) ;;
          Pyotp.byte_secret t)
         = (t <- Pyotp.TOTP (py "jbswy3dpehpk3pxp") ;; Pyotp.byte_secret t)).
Proof.
  split; [vm_compute; reflexivity|].
  apply (normalize_keeps_key (fun c => [c]) (py "jbswy3dpehpk3pxp")).
  vm_compute. reflexivity.
Defined.

(** ** What the handlers do to the table *)

Lemma fold_max_bound (db : App.table) (i : Z) (a : Models.MFAAccount) :
  db !! i = Some a ->
  i <= map_fold (fun k (_ : Models.MFAAccount) m => Z.max k m) 0 db.
Proof.
  revert i a. unfold App.table in *.
  apply (map_fold_weak_ind
           (fun r (m : gmap Z Models.MFAAccount) =>
              forall i a, m !! i = Some a -> i <= r)).
  - intros i a H. rewrite lookup_empty in H. discriminate H.
  - intros k x m r _ IH i a H.
    destruct (decide (k = i)) as [->|Hne]; [lia|].
    rewrite lookup_insert_ne in H by exact Hne.
    specialize (IH i a H). lia.
Qed.

(** The key given to a new row is not in use. *)
Lemma next_id_fresh (db : App.table) :
  db !! App.next_id db = None /\ 1 <= App.next_id db.
Proof.
  unfold App.next_id. split.
  - destruct (db !! _) as [a|] eqn:E; [|reflexivity].
    apply fold_max_bound in E. lia.
  - assert (0 <= map_fold (fun k (_ : Models.MFAAccount) m => Z.max k m) 0 db);
      [|lia].
    unfold App.table in *.
    apply (map_fold_weak_ind
             (fun r (_ : gmap Z Models.MFAAccount) => 0 <= r)); [lia|].
    intros. lia.
Qed.

Lemma existing_false (db : App.table) (n : str) :
  App.existing db n = false
  <-> forall i a, db !! i = Some a -> Models.account_name a <> n.
Proof.
  unfold App.existing. rewrite bool_decide_eq_false. unfold map_Exists.
  split.
  - intros H i a Ha Hn. apply H. exists i, a. split; assumption.
  - intros H (i & a & Ha & Hn). exact (H i a Ha Hn).
Qed.

Section Tables.

Variable unicode_upper : Z -> list Z.

(** What a posted form that is accepted adds to the table. *)
Lemma add_account_inv m f c d r (db db' : App.table) :
  run_at d (App.add_account unicode_upper m f c db) = Ok (r, db') ->
  (db' = db /\ forall e fl, r <> App.redirect e fl)
  \/ exists name raw,
      f !! "account_name"%string = Some name /\ name <> []
      /\ f !! "secret"%string = Some raw /\ raw <> []
      /\ valid_secret raw = true
      /\ App.existing db name = false
      /\ r = App.redirect "index" [App.added]
      /\ db' = <[App.next_id db :=
                   Models.new name (App.normalize unicode_upper raw)
                     (Some (default (py "MFA Manager")
                              (f !! "issuer"%string)))]> db.
Proof.
  unfold App.add_account. intros H.
  destruct m; [injection H as <- <-; left; split; [reflexivity|discriminate]|].
  destruct (f !! "account_name"%string) as [[|c0 name]|] eqn:En;
    cbn [PyotpUtils.truthy negb orb] in H;
    try (injection H as <- <-; left; split; [reflexivity|discriminate]).
  destruct (f !! "secret"%string) as [[|c1 raw]|] eqn:Es;
    cbn [PyotpUtils.truthy negb orb] in H;
    try (injection H as <- <-; left; split; [reflexivity|discriminate]).
  rewrite run_at_pbind in H.
  change (default [] (Some (c1 :: raw))) with (c1 :: raw) in H.
  change (default [] (Some (c0 :: name))) with (c0 :: name) in H.
  destruct (run_at d (App.validate (c1 :: raw))) as [[e|]|e] eqn:Hv;
    [injection H as <- <-; left; split; [reflexivity|discriminate]
    | |discriminate H].
  destruct (App.existing db (c0 :: name)) eqn:Ex;
    [injection H as <- <-; left; split; [reflexivity|discriminate]|].
  destruct c; injection H as <- <-;
    [|left; split; [reflexivity|discriminate]].
  right. exists (c0 :: name), (c1 :: raw).
  apply validate_accepts_iff in Hv.
  repeat split; try assumption; try reflexivity; discriminate.
Qed.

(** What a posted form that is accepted changes in the table. *)
Lemma edit_account_inv i m f c d r (db db' : App.table) :
  run_at d (App.edit_account unicode_upper i m f c db) = Ok (r, db') ->
  (db' = db /\ forall e fl, r <> App.redirect e fl)
  \/ exists old name raw,
      db !! i = Some old
      /\ f !! "account_name"%string = Some name /\ name <> []
      /\ f !! "secret"%string = Some raw /\ raw <> []
      /\ valid_secret raw = true
      /\ (name = Models.account_name old \/ App.existing db name = false)
      /\ r = App.redirect "view_account" [App.updated]
      /\ db' = <[i := {| Models.account_name := name;
                         Models.secret := App.normalize unicode_upper raw;
                         Models.issuer :=
                           Some (default (py "MFA Manager")
                                   (f !! "issuer"%string));
                         Models.hidden :=
                           bool_decide (f !! "hidden"%string
                                        = Some (py "on")) |}]> db.
Proof.
  unfold App.edit_account. intros H.
  destruct (db !! i) as [old|] eqn:Eo;
    [|injection H as <- <-; left; split; [reflexivity|discriminate]].
  destruct m; [injection H as <- <-; left; split; [reflexivity|discriminate]|].
  destruct (f !! "account_name"%string) as [[|c0 name]|] eqn:En;
    cbn [PyotpUtils.truthy negb orb] in H;
    try (injection H as <- <-; left; split; [reflexivity|discriminate]).
  destruct (f !! "secret"%string) as [[|c1 raw]|] eqn:Es;
    cbn [PyotpUtils.truthy negb orb] in H;
    try (injection H as <- <-; left; split; [reflexivity|discriminate]).
  rewrite run_at_pbind in H.
  change (default [] (Some (c1 :: raw))) with (c1 :: raw) in H.
  change (default [] (Some (c0 :: name))) with (c0 :: name) in H.
  destruct (run_at d (App.validate (c1 :: raw))) as [[e|]|e] eqn:Hv;
    [injection H as <- <-; left; split; [reflexivity|discriminate]
    | |discriminate H].
  destruct (bool_decide (c0 :: name <> Models.account_name old)
            && App.existing db (c0 :: name)) eqn:Ex;
    [injection H as <- <-; left; split; [reflexivity|discriminate]|].
  destruct c; injection H as <- <-;
    [|left; split; [reflexivity|discriminate]].
  right. exists old, (c0 :: name), (c1 :: raw).
  apply validate_accepts_iff in Hv.
  apply andb_false_iff in Ex.
  repeat split; try assumption; try reflexivity; try discriminate.
  destruct Ex as [Ex|Ex]; [left|right; exact Ex].
  apply bool_decide_eq_false in Ex.
  destruct (decide (c0 :: name = Models.account_name old)); [assumption|].
  contradiction.
Qed.

End Tables.

Section Reachable.

Variable unicode_upper : Z -> list Z.

Lemma new_account_fields (name secret : str) (issuer : option str) :
  Models.account_name (Models.new name secret issuer) = name
  /\ Models.secret (Models.new name secret issuer) = secret
  /\ Models.issuer (Models.new name secret issuer) <> None
  /\ Models.hidden (Models.new name secret issuer) = false.
Proof.
  unfold Models.new. cbn. repeat split.
  destruct (PyotpUtils.truthy issuer) eqn:E; [|discriminate].
  destruct issuer; [discriminate|discriminate E].
Qed.

Lemma step_well_formed (db db' : App.table) :
  App.step unicode_upper db db' -> well_formed db -> well_formed db'.
Proof.
  unfold well_formed, App.table in *.
  intros [m f c d r db1 H|i m f c d r db1 H|i c|i c] Hdb.
  - apply add_account_inv in H.
    destruct H as [[-> _]|(name & raw & _ & Hn & _ & _ & Hv & _ & _ & ->)];
      [exact Hdb|].
    apply map_Forall_insert_2; [|exact Hdb].
    destruct (new_account_fields name (App.normalize unicode_upper raw)
                (Some (default (py "MFA Manager") (f !! "issuer"%string))))
      as (-> & -> & Hi & _).
    repeat split; try assumption.
    + apply next_id_fresh.
    + apply normalize_valid_secret, Hv.
  - apply edit_account_inv in H.
    destruct H as [[-> _]|(old & name & raw & Ho & _ & Hn & _ & _ & Hv & _ & _ & ->)];
      [exact Hdb|].
    apply map_Forall_insert_2; [|exact Hdb].
    cbn [Models.account_name Models.secret Models.issuer].
    repeat split; try assumption; try discriminate.
    + apply (Hdb i old Ho).
    + apply normalize_valid_secret, Hv.
  - unfold App.toggle_hidden, App.table.
    destruct (db !! i) as [a|] eqn:Ha; [|exact Hdb].
    destruct c; [|exact Hdb]. cbn [snd].
    apply map_Forall_insert_2; [|exact Hdb].
    cbn [Models.account_name Models.secret Models.issuer].
    exact (Hdb i a Ha).
  - unfold App.delete_account, App.table.
    destruct (db !! i) as [a|]; [|exact Hdb].
    destruct c; [|exact Hdb]. cbn [snd].
    apply map_Forall_delete, Hdb.
Qed.

Lemma step_unique_names (db db' : App.table) :
  App.step unicode_upper db db' -> unique_names db -> unique_names db'.
Proof.
  unfold unique_names, App.table in *.
  intros [m f c d r db1 H|i m f c d r db1 H|i c|i c] Hdb.
  - apply add_account_inv in H.
    destruct H as [[-> _]|(name & raw & _ & _ & _ & _ & _ & Hex & _ & ->)];
      [exact Hdb|].
    rewrite existing_false in Hex.
    intros i j a b Ha Hb Hab.
    apply lookup_insert_Some in Ha, Hb.
    destruct Ha as [[<- <-]|[Hi Ha]], Hb as [[<- <-]|[Hj Hb]].
    + reflexivity.
    + exfalso. apply (Hex j b Hb). rewrite <- Hab.
      apply new_account_fields.
    + exfalso. apply (Hex i a Ha). rewrite Hab.
      apply new_account_fields.
    + exact (Hdb i j a b Ha Hb Hab).
  - apply edit_account_inv in H.
    destruct H as [[-> _]|(old & name & raw & Ho & _ & _ & _ & _ & _ & Hex & _ & ->)];
      [exact Hdb|].
    intros j k a b Ha Hb Hab.
    apply lookup_insert_Some in Ha, Hb.
    assert (Hother : forall l x, i <> l -> db !! l = Some x ->
                                 Models.account_name x <> name).
    { intros l x Hl Hx Hn. destruct Hex as [->|Hex].
      - apply Hl. exact (Hdb i l old x Ho Hx (eq_sym Hn)).
      - rewrite existing_false in Hex. exact (Hex l x Hx Hn). }
    destruct Ha as [[<- <-]|[Hj Ha]], Hb as [[<- <-]|[Hk Hb]].
    + reflexivity.
    + exfalso. apply (Hother k b Hk Hb). rewrite <- Hab. reflexivity.
    + exfalso. apply (Hother j a Hj Ha). rewrite Hab. reflexivity.
    + exact (Hdb j k a b Ha Hb Hab).
  - unfold App.toggle_hidden, App.table.
    destruct (db !! i) as [x|] eqn:Hx; [|exact Hdb].
    destruct c; [|exact Hdb]. cbn [snd].
    intros j k a b Ha Hb Hab.
    apply lookup_insert_Some in Ha, Hb.
    destruct Ha as [[<- <-]|[Hj Ha]], Hb as [[<- <-]|[Hk Hb]].
    + reflexivity.
    + exact (Hdb i k x b Hx Hb Hab).
    + exact (Hdb j i a x Ha Hx Hab).
    + exact (Hdb j k a b Ha Hb Hab).
  - unfold App.delete_account, App.table.
    destruct (db !! i) as [x|]; [|exact Hdb].
    destruct c; [|exact Hdb]. cbn [snd].
    intros j k a b Ha Hb Hab.
    apply lookup_delete_Some in Ha, Hb.
    exact (Hdb j k a b (proj2 Ha) (proj2 Hb) Hab).
Qed.

Lemma reachable_unique (db : App.table) :
  App.reachable unicode_upper db -> unique_names db.
Proof.
  induction 1 as [|db db' _ IH Hs].
  - intros i j a b H. unfold App.table in *.
    rewrite lookup_empty in H. discriminate H.
  - eapply step_unique_names; eassumption.
Qed.

(** X3. Account names are unique: in a table that the handlers built from an
    empty database, two rows with the same account name are the same row. *)
Theorem reachable_unique_names (db : App.table) (i j : Z)
        (a b : Models.MFAAccount) :
  App.reachable unicode_upper db ->
  db !! i = Some a -> db !! j = Some b ->
  Models.account_name a = Models.account_name b -> i = j.
Proof.
  intros Hr. exact (reachable_unique db Hr i j a b).
Qed.

Lemma reachable_well_formed (db : App.table) :
  App.reachable unicode_upper db -> well_formed db.
Proof.
  induction 1 as [|db db' _ IH Hs].
  - apply map_Forall_empty.
  - eapply step_well_formed; eassumption.
Qed.

(** X4. Every stored account has a name, an issuer, and a secret from which
    a code can be derived: at every time [get_totp_code] returns six decimal
    digits for it, it never raises. *)
Theorem reachable_account_has_code (db : App.table) (i : Z)
        (a : Models.MFAAccount) (d : datetime) :
  App.reachable unicode_upper db ->
  db !! i = Some a ->
  Models.account_name a <> [] /\ Models.issuer a <> None
  /\ exists code,
      run_at d (Models.get_totp_code a) = Ok code
      /\ length code = 6%nat /\ Forall is_decimal_digit code.
Proof.
  intros Hr Ha.
  destruct (reachable_well_formed db Hr i a Ha) as (_ & Hn & Hi & Hv).
  split; [exact Hn|]. split; [exact Hi|].
  rewrite get_totp_code_run.
  unfold valid_secret in Hv. rewrite TOTP_defaults in *. cbn [rbind] in *.
  destruct (Pyotp.byte_secret _) as [key|e] eqn:Hk; [|discriminate].
  destruct (generate_otp_zero_padded _ key (Z.of_N d / 1000000 / 30) Hk)
    as (c & _ & Hg).
  - apply Z.div_pos; [apply Z.div_pos|]; lia.
  - cbn [Pyotp.digits]. lia.
  - rewrite Hg. eexists. split; [reflexivity|].
    split; [apply zero_padded_length|apply zero_padded_decimal].
Qed.

End Reachable.

Lemma reachable_unique_names_witness :
  App.reachable (fun c => [c]) alice_table
  /\ alice_table !! 1 = Some alice_account
  /\ alice_table !! 1 = Some alice_account
  /\ Models.account_name alice_account = Models.account_name alice_account
  /\ 1 = 1.
Proof.
  split; [exact alice_table_reachable|]. do 3 (split; [reflexivity|]).
  exact (reachable_unique_names (fun c => [c]) alice_table 1 1
           alice_account alice_account alice_table_reachable
           eq_refl eq_refl eq_refl).
Defined.

Lemma reachable_account_has_code_witness :
  App.reachable (fun c => [c]) alice_table
  /\ alice_table !! 1 = Some alice_account
  /\ (Models.account_name alice_account <> []
      /\ Models.issuer alice_account <> None
      /\ exists code,
          run_at (Datetime.of_seconds 59)
            (Models.get_totp_code alice_account) = Ok code
          /\ length code = 6%nat /\ Forall is_decimal_digit code).
Proof.
  split; [exact alice_table_reachable|]. split; [reflexivity|].
  exact (reachable_account_has_code (fun c => [c]) alice_table 1
           alice_account (Datetime.of_seconds 59) alice_table_reachable
           eq_refl).
Defined.

Section Answers.

Variable unicode_upper : Z -> list Z.

Lemma validate_returns (d : datetime) (raw : str) :
  exists v, run_at d (App.validate raw) = Ok v.
Proof. rewrite validate_run. eexists. reflexivity. Qed.

(** X5. The add and edit handlers always answer: no exception of the secret
    check escapes them.  When the answer is not a redirect, the table is
    left as it was. *)
Theorem add_edit_answer (i : Z) (m : App.http_method) (f : App.form)
        (c : bool) (d : datetime) (db : App.table) :
  (exists r db',
      run_at d (App.add_account unicode_upper m f c db) = Ok (r, db')
      /\ ((forall e fl, r <> App.redirect e fl) -> db' = db))
  /\ (exists r db',
         run_at d (App.edit_account unicode_upper i m f c db) = Ok (r, db')
         /\ ((forall e fl, r <> App.redirect e fl) -> db' = db)).
Proof.
  split.
  - assert (He : exists r db',
               run_at d (App.add_account unicode_upper m f c db)
               = Ok (r, db')).
    { unfold App.add_account. destruct m; [eauto|].
      destruct (negb _ || negb _); [eauto|].
      rewrite run_at_pbind.
      match goal with
      | |- context [run_at d (App.validate ?s)] =>
          destruct (validate_returns d s) as [[e|] ->]; [eauto|]
      end.
      destruct (App.existing _ _); [eauto|]. destruct c; eauto. }
    destruct He as (r & db' & He). exists r, db'. split; [exact He|].
    intros Hr. apply add_account_inv in He.
    destruct He as [[-> _]|(? & ? & _ & _ & _ & _ & _ & _ & -> & _)];
      [reflexivity|].
    exfalso. exact (Hr _ _ eq_refl).
  - assert (He : exists r db',
               run_at d (App.edit_account unicode_upper i m f c db)
               = Ok (r, db')).
    { unfold App.edit_account. destruct (db !! i); [|eauto].
      destruct m; [eauto|].
      destruct (negb _ || negb _); [eauto|].
      rewrite run_at_pbind.
      match goal with
      | |- context [run_at d (App.validate ?s)] =>
          destruct (validate_returns d s) as [[e|] ->]; [eauto|]
      end.
      destruct (bool_decide _ && App.existing _ _); [eauto|].
      destruct c; eauto. }
    destruct He as (r & db' & He). exists r, db'. split; [exact He|].
    intros Hr. apply edit_account_inv in He.
    destruct He as [[-> _]|(? & ? & ? & _ & _ & _ & _ & _ & _ & _ & -> & _)];
      [reflexivity|].
    exfalso. exact (Hr _ _ eq_refl).
Qed.

Lemma generate_otp_same_key (t1 t2 : Pyotp.totp) (input : Z) :
  Pyotp.byte_secret t1 = Pyotp.byte_secret t2 ->
  Pyotp.digits t1 = Pyotp.digits t2 ->
  Pyotp.generate_otp t1 input = Pyotp.generate_otp t2 input.
Proof.
  intros Hk Hd. unfold Pyotp.generate_otp. rewrite Hk, Hd. reflexivity.
Qed.

(** X6. A posted form with a name that is not in use, a secret that decodes and
    a commit that succeeds adds one row under a key that was free: the rows
    that were there are still there, the new row is visible, holds the
    secret in upper case, and gives at every time the code that the secret
    as entered gives. *)
Theorem add_account_stores (f : App.form) (d : datetime) (db : App.table)
        (name raw : str) :
  f !! "account_name"%string = Some name -> name <> [] ->
  f !! "secret"%string = Some raw -> raw <> [] ->
  valid_secret raw = true ->
  App.existing db name = false ->
  exists id account,
    run_at d (App.add_account unicode_upper App.POST f true db)
      = Ok (App.redirect "index" [App.added], <[id := account]> db)
    /\ db !! id = None
    /\ (forall i a, db !! i = Some a -> <[id := account]> db !! i = Some a)
    /\ Models.account_name account = name
    /\ Models.secret account = map ascii_upper raw
    /\ Models.hidden account = false
    /\ forall d', run_at d' (Models.get_totp_code account)
                  = (t <- Pyotp.TOTP raw ;;
                     Pyotp.generate_otp t (Z.of_N d' / 1000000 / 30)).
Proof.
  intros Hn Hn0 Hs Hs0 Hv Hex.
  destruct (next_id_fresh db) as [Hfresh _].
  exists (App.next_id db),
    (Models.new name (App.normalize unicode_upper raw)
       (Some (default (py "MFA Manager") (f !! "issuer"%string)))).
  destruct (new_account_fields name (App.normalize unicode_upper raw)
              (Some (default (py "MFA Manager") (f !! "issuer"%string))))
    as (Ean & Esec & _ & Ehid).
  split; [|split; [exact Hfresh|]].
  - unfold App.add_account. rewrite Hn, Hs.
    destruct name; [congruence|]. destruct raw; [congruence|].
    cbn [PyotpUtils.truthy negb orb]. rewrite run_at_pbind.
    change (default [] (Some ?x)) with x.
    rewrite (proj2 (validate_accepts_iff d _) Hv), Hex. reflexivity.
  - split.
    { intros i a Ha. unfold App.table in *. rewrite lookup_insert_ne; [exact Ha|].
      intros <-. congruence. }
    split; [exact Ean|]. split; [rewrite Esec; apply normalize_valid, Hv|].
    split; [exact Ehid|].
    intros d'. rewrite get_totp_code_run, Esec, !TOTP_defaults. cbn [rbind].
    apply generate_otp_same_key; [|reflexivity].
    pose proof (normalize_key_eq unicode_upper raw Hv) as Hk.
    rewrite !TOTP_defaults in Hk. exact Hk.
Qed.

(** X8. Hiding and showing again: after two toggles with successful commits
    every row has the name, the secret, the issuer and the visibility it
    had, whatever the key.  (The column [updated_at], which each of the two
    UPDATEs rewrites, is not among the columns of [MFAAccount].) *)
Theorem toggle_hidden_twice (i : Z) (db : App.table) :
  snd (App.toggle_hidden i true (snd (App.toggle_hidden i true db))) = db.
Proof.
  unfold App.toggle_hidden, App.table in *.
  destruct (db !! i) as [a|] eqn:Ha; cbn [snd]; [|rewrite Ha; reflexivity].
  rewrite lookup_insert_eq. cbn [snd Models.account_name Models.secret
                                 Models.issuer Models.hidden].
  rewrite insert_insert_eq, negb_involutive.
  apply insert_id. rewrite Ha. destruct a; reflexivity.
Qed.

(** X9. A toggle changes the visibility of one row and nothing else. *)
Theorem toggle_hidden_only_flag (i : Z) (c : bool) (db : App.table)
        (j : Z) (a : Models.MFAAccount) :
  db !! j = Some a ->
  exists b,
    snd (App.toggle_hidden i c db) !! j = Some b
    /\ Models.account_name b = Models.account_name a
    /\ Models.secret b = Models.secret a
    /\ Models.issuer b = Models.issuer a
    /\ Models.hidden b
       = if bool_decide (i = j) && c then negb (Models.hidden a)
         else Models.hidden a.
Proof.
  intros Ha. unfold App.toggle_hidden, App.table in *.
  destruct (decide (i = j)) as [->|Hne].
  - rewrite Ha, bool_decide_eq_true_2 by reflexivity.
    destruct c; cbn [snd andb].
    + rewrite lookup_insert_eq. eexists. repeat split.
    + exists a. repeat split. exact Ha.
  - rewrite bool_decide_eq_false_2 by exact Hne. cbn [andb].
    exists a. split; [|repeat split].
    destruct (db !! i); [|exact Ha].
    destruct c; cbn [snd]; [|exact Ha].
    rewrite lookup_insert_ne by exact Hne. exact Ha.
Qed.

(** X10. After an account is deleted its name is free again: no row of the
    table bears it. *)
Theorem delete_frees_name (db : App.table) (i : Z) (a : Models.MFAAccount) :
  App.reachable unicode_upper db ->
  db !! i = Some a ->
  snd (App.delete_account i true db) !! i = None
  /\ App.existing (snd (App.delete_account i true db))
       (Models.account_name a) = false.
Proof.
  intros Hr Ha. unfold App.delete_account, App.table in *.
  rewrite Ha. cbn [snd]. split; [apply lookup_delete_eq|].
  apply existing_false. intros j b Hb Hn.
  unfold App.table in *.
  apply lookup_delete_Some in Hb. destruct Hb as [Hne Hb].
  apply Hne.
  exact (reachable_unique unicode_upper db Hr i j a b Ha Hb (eq_sym Hn)).
Qed.

End Answers.

Lemma add_account_stores_witness :
  alice_form !! "account_name"%string = Some (py "alice")
  /\ py "alice" <> []
  /\ alice_form !! "secret"%string = Some (py "jbswy3dpehpk3pxp")
  /\ py "jbswy3dpehpk3pxp" <> []
  /\ valid_secret (py "jbswy3dpehpk3pxp") = true
  /\ App.existing ∅ (py "alice") = false
  /\ exists id account,
      run_at (Datetime.of_seconds 0)
        (App.add_account (fun c => [c]) App.POST alice_form true ∅)
        = Ok (App.redirect "index" [App.added], <[id := account]> ∅)
      /\ (∅ : App.table) !! id = None
      /\ (forall i a, (∅ : App.table) !! i = Some a ->
                      <[id := account]> (∅ : App.table) !! i = Some a)
      /\ Models.account_name account = py "alice"
      /\ Models.secret account = map ascii_upper (py "jbswy3dpehpk3pxp")
      /\ Models.hidden account = false
      /\ forall d', run_at d' (Models.get_totp_code account)
                    = (t <- Pyotp.TOTP (py "jbswy3dpehpk3pxp") ;;
                       Pyotp.generate_otp t (Z.of_N d' / 1000000 / 30)).
Proof.
  assert (H1 : py "alice" <> []) by discriminate.
  assert (H2 : py "jbswy3dpehpk3pxp" <> []) by discriminate.
  assert (H3 : valid_secret (py "jbswy3dpehpk3pxp") = true)
    by (vm_compute; reflexivity).
  assert (H4 : App.existing ∅ (py "alice") = false)
    by (vm_compute; reflexivity).
  split; [reflexivity|]. split; [exact H1|]. split; [reflexivity|].
  split; [exact H2|]. split; [exact H3|]. split; [exact H4|].
  exact (add_account_stores (fun c => [c]) alice_form (Datetime.of_seconds 0)
           ∅ (py "alice") (py "jbswy3dpehpk3pxp")
           eq_refl H1 eq_refl H2 H3 H4).
Defined.

Lemma toggle_hidden_only_flag_witness :
  alice_table !! 1 = Some alice_account
  /\ exists b,
      snd (App.toggle_hidden 1 true alice_table) !! 1 = Some b
      /\ Models.account_name b = Models.account_name alice_account
      /\ Models.secret b = Models.secret alice_account
      /\ Models.issuer b = Models.issuer alice_account
      /\ Models.hidden b
         = if bool_decide (1 = 1) && true
           then negb (Models.hidden alice_account)
           else Models.hidden alice_account.
Proof.
  split; [reflexivity|].
  exact (toggle_hidden_only_flag 1 true alice_table 1 alice_account eq_refl).
Defined.

Lemma delete_frees_name_witness :
  App.reachable (fun c => [c]) alice_table
  /\ alice_table !! 1 = Some alice_account
  /\ snd (App.delete_account 1 true alice_table) !! 1 = None
  /\ App.existing (snd (App.delete_account 1 true alice_table))
       (Models.account_name alice_account) = false.
Proof.
  split; [exact alice_table_reachable|]. split; [reflexivity|].
  exact (delete_frees_name (fun c => [c]) alice_table 1 alice_account
           alice_table_reachable eq_refl).
Defined.

(** ** The views *)

Lemma run_at_for_each {A B} (d : datetime) (f : A -> Py B) (xs : list A) :
  Forall (fun x => exists y, run_at d (f x) = Ok y) xs ->
  exists ys, run_at d (for_each f xs) = Ok ys
             /\ Forall2 (fun x y => run_at d (f x) = Ok y) xs ys.
Proof.
  induction 1 as [|x xs [y Hy] _ (ys & Hys & IH)].
  - exists []. split; [reflexivity|constructor].
  - exists (y :: ys). cbn [for_each].
    rewrite run_at_pbind, Hy, run_at_pbind, Hys. split; [reflexivity|].
    constructor; assumption.
Qed.

(** A row of a view, for any layout [mk] of its dict: the code of the
    account and the remaining time under the clock [d]. *)
Lemma view_row_run (mk : Z * Models.MFAAccount -> str -> Z -> dict)
      (d : datetime) (r : Z * Models.MFAAccount) :
  valid_secret (Models.secret (snd r)) = true ->
  exists code,
    run_at d (Models.get_totp_code (snd r)) = Ok code
    /\ length code = 6%nat
    /\ run_at d
         (pbind (Models.get_totp_code (snd r)) (fun code =>
          pbind (Models.get_remaining_time (snd r)) (fun remaining =>
          Pure (Ok (mk r code remaining)))))
       = Ok (mk r code (30 - Qfloor (Datetime.timestamp d) mod 30)).
Proof.
  intros Hv. rewrite get_totp_code_run.
  unfold valid_secret in Hv. rewrite TOTP_defaults in *. cbn [rbind] in *.
  destruct (Pyotp.byte_secret _) as [key|e] eqn:Hk; [|discriminate].
  destruct (generate_otp_zero_padded _ key (Z.of_N d / 1000000 / 30) Hk)
    as (c & _ & Hg).
  - apply Z.div_pos; [apply Z.div_pos|]; lia.
  - cbn [Pyotp.digits]. lia.
  - eexists. split; [exact Hg|]. split; [apply zero_padded_length|].
    rewrite run_at_pbind, get_totp_code_run, TOTP_defaults. cbn [rbind].
    rewrite Hg, run_at_pbind, get_remaining_time_run. reflexivity.
Qed.

Lemma view_rows_run (mk : Z * Models.MFAAccount -> str -> Z -> dict)
      (d : datetime) (l : list (Z * Models.MFAAccount)) :
  Forall (fun r => valid_secret (Models.secret (snd r)) = true) l ->
  exists rows,
    run_at d
      (for_each (fun r =>
         pbind (Models.get_totp_code (snd r)) (fun code =>
         pbind (Models.get_remaining_time (snd r)) (fun remaining =>
         Pure (Ok (mk r code remaining))))) l)
    = Ok rows
    /\ Forall2 (fun r row =>
                  exists code,
                    run_at d (Models.get_totp_code (snd r)) = Ok code
                    /\ length code = 6%nat
                    /\ row = mk r code
                               (30 - Qfloor (Datetime.timestamp d) mod 30))
         l rows.
Proof.
  intros Hl.
  destruct (run_at_for_each d
              (fun r =>
                 pbind (Models.get_totp_code (snd r)) (fun code =>
                 pbind (Models.get_remaining_time (snd r)) (fun remaining =>
                 Pure (Ok (mk r code remaining))))) l) as (rows & Hr & H2).
  - eapply List.Forall_impl; [|exact Hl]. intros r Hv.
    destruct (view_row_run mk d r Hv) as (code & _ & _ & ->). eauto.
  - exists rows. split; [exact Hr|].
    clear Hr. induction H2 as [|r row l rows Hrow _ IH]; [constructor|].
    inversion Hl as [|? ? Hv Hl']; subst.
    constructor; [|apply IH, Hl'].
    destruct (view_row_run mk d r Hv) as (code & Hc & Hlen & Hrun).
    exists code. split; [exact Hc|]. split; [exact Hlen|].
    rewrite Hrun in Hrow. injection Hrow as <-. reflexivity.
Qed.

(** The same in any world that is not before the epoch: the code comes
    from the reading [i] of the clock, the remaining time from the next
    one, and a row takes two readings and one call of [time.mktime]. *)
Lemma code_in (self : Models.MFAAccount) (w : world) (i j : nat) :
  after_epoch w ->
  valid_secret (Models.secret self) = true ->
  exists code,
    run w i j (Models.get_totp_code self) = Ok code
    /\ length code = 6%nat /\ Forall is_decimal_digit code.
Proof.
  intros Hw Hv. rewrite get_totp_code_in, int_of_quotient by apply Hw.
  unfold valid_secret in Hv. rewrite TOTP_defaults in *. cbn [rbind] in *.
  destruct (Pyotp.byte_secret _) as [key|e] eqn:Hk; [|discriminate].
  destruct (generate_otp_zero_padded _ key (mktime w j (clock w i) / 30) Hk)
    as (c & _ & Hg).
  - apply Z.div_pos; [apply Hw|lia].
  - cbn [Pyotp.digits]. lia.
  - eexists. split; [exact Hg|].
    split; [apply zero_padded_length|apply zero_padded_decimal].
Qed.

Lemma view_row_in (mk : Z * Models.MFAAccount -> str -> Z -> dict)
      (w : world) (r : Z * Models.MFAAccount) (i j : nat) :
  after_epoch w ->
  valid_secret (Models.secret (snd r)) = true ->
  exists code,
    run w i j (Models.get_totp_code (snd r)) = Ok code
    /\ length code = 6%nat
    /\ run w i j
         (pbind (Models.get_totp_code (snd r)) (fun code =>
          pbind (Models.get_remaining_time (snd r)) (fun remaining =>
          Pure (Ok (mk r code remaining)))))
       = Ok (mk r code
               (30 - Qfloor (Datetime.timestamp (clock w (S i))) mod 30))
    /\ reads w i j
         (pbind (Models.get_totp_code (snd r)) (fun code =>
          pbind (Models.get_remaining_time (snd r)) (fun remaining =>
          Pure (Ok (mk r code remaining)))))
       = (S (S i), S j).
Proof.
  intros Hw Hv.
  destruct (code_in (snd r) w i j Hw Hv) as (code & Hc & Hlen & _).
  exists code. split; [exact Hc|]. split; [exact Hlen|].
  assert (Hr : reads w i j (Models.get_totp_code (snd r)) = (S i, S j))
    by reflexivity.
  rewrite run_pbind, reads_pbind, Hc, Hr. cbn [fst snd].
  rewrite run_pbind, reads_pbind, get_remaining_time_in.
  split; reflexivity.
Qed.

Lemma view_rows_in (mk : Z * Models.MFAAccount -> str -> Z -> dict)
      (w : world) (l : list (Z * Models.MFAAccount)) :
  after_epoch w ->
  Forall (fun r => valid_secret (Models.secret (snd r)) = true) l ->
  forall i j,
  exists rows,
    run w i j
      (for_each (fun r =>
         pbind (Models.get_totp_code (snd r)) (fun code =>
         pbind (Models.get_remaining_time (snd r)) (fun remaining =>
         Pure (Ok (mk r code remaining))))) l)
    = Ok rows
    /\ Forall2 (fun r row =>
                  exists code rem,
                    (length code = 6%nat /\ 1 <= rem <= 30)
                    /\ row = mk r code rem)
         l rows.
Proof.
  intros Hw Hl. induction Hl as [|r l Hv _ IH]; intros i j.
  - exists []. split; [reflexivity|constructor].
  - destruct (view_row_in mk w r i j Hw Hv) as (code & _ & Hlen & Hrun & Hrd).
    destruct (IH (S (S i)) (S j)) as (rows & Hrows & H2).
    eexists (_ :: rows). cbn [for_each].
    rewrite run_pbind, Hrun, Hrd. cbn [fst snd].
    rewrite run_pbind, Hrows. split; [reflexivity|].
    constructor; [|exact H2].
    exists code, (30 - Qfloor (Datetime.timestamp (clock w (S i))) mod 30).
    split; [|reflexivity]. split; [exact Hlen|apply remaining_time_range].
Qed.

Lemma row_ids (mk : Z * Models.MFAAccount -> str -> Z -> dict)
      (R : str -> Z -> Prop)
      (l : list (Z * Models.MFAAccount)) (rows : list dict) (i : Z) :
  (forall r code rem, dict_get "id" (mk r code rem) = Some (JInt (fst r))) ->
  Forall2 (fun r row => exists code rem, R code rem /\ row = mk r code rem)
    l rows ->
  In (Some (JInt i)) (map (dict_get "id") rows)
  <-> exists acc, In (i, acc) l.
Proof.
  intros Hid H. induction H as [|r row l rows (code & rem & _ & ->) _ IH].
  - split; [intros []|intros [_ []]].
  - cbn [map In]. rewrite Hid, IH. split.
    + intros [Hr|[acc Ha]].
      * injection Hr as <-. exists (snd r). left. destruct r; reflexivity.
      * exists acc. right. exact Ha.
    + intros [acc [->|Ha]]; [left; reflexivity|right; eauto].
Qed.

Lemma row_fields (mk : Z * Models.MFAAccount -> str -> Z -> dict)
      (l : list (Z * Models.MFAAccount)) (rows : list dict) :
  (forall r code rem,
      dict_get "totp_code" (mk r code rem) = Some (JStr code)
      /\ dict_get "remaining_time" (mk r code rem) = Some (JInt rem)) ->
  Forall2 (fun r row =>
             exists code rem,
               (length code = 6%nat /\ 1 <= rem <= 30)
               /\ row = mk r code rem)
    l rows ->
  Forall (fun row =>
            exists code r,
              dict_get "totp_code" row = Some (JStr code)
              /\ length code = 6%nat
              /\ dict_get "remaining_time" row = Some (JInt r)
              /\ 1 <= r <= 30) rows.
Proof.
  intros Hmk H2.
  induction H2 as [|r row l rows (code & rem & [Hlen Hrem] & ->) _ IH];
    constructor; [|exact IH].
  exists code, rem. destruct (Hmk r code rem) as [H1 H2'].
  split; [exact H1|]. split; [exact Hlen|]. split; [exact H2'|exact Hrem].
Qed.

(** A scan returns every row of the table, in the order of the keys. *)
Lemma in_insert_by_id (x r : Z * Models.MFAAccount)
      (l : list (Z * Models.MFAAccount)) :
  In x (Views.insert_by_id r l) <-> x = r \/ In x l.
Proof.
  induction l as [|y l IH]; cbn [Views.insert_by_id In].
  - split; [intros [->|[]]; left; reflexivity|intros [->|[]]; left; reflexivity].
  - destruct (fst r <=? fst y); cbn [In]; [|rewrite IH];
      split; intros H; repeat (destruct H as [H|H]); subst; auto.
Qed.

Lemma in_sorted_by_id (x : Z * Models.MFAAccount)
      (l : list (Z * Models.MFAAccount)) :
  In x (fold_right Views.insert_by_id [] l) <-> In x l.
Proof.
  induction l as [|r l IH]; cbn [fold_right In]; [reflexivity|].
  rewrite in_insert_by_id, IH. split; intros [H|H]; auto.
Qed.

Lemma in_scan (db : App.table) (i : Z) (a : Models.MFAAccount) :
  In (i, a) (Views.scan db) <-> db !! i = Some a.
Proof.
  unfold Views.scan. rewrite in_sorted_by_id, <- list_elem_of_In.
  unfold App.table. apply elem_of_map_to_list.
Qed.

Example scan_in_id_order :
  map fst (Views.scan two_accounts) = [1; 2].
Proof. vm_compute. reflexivity. Qed.

Lemma faithful_after_epoch (clock : nat -> datetime) :
  after_epoch (faithful clock).
Proof. intros j d. apply seconds_nonneg. Qed.

Section ViewsOfReachable.

Variable unicode_upper : Z -> list Z.
Variable unicode_lower : Z -> list Z.
Variable isspace : Z -> bool.
Variable ilike : str -> str -> bool.

Lemma rows_valid (db : App.table) (l : list (Z * Models.MFAAccount)) :
  App.reachable unicode_upper db ->
  (forall r, In r l -> db !! fst r = Some (snd r)) ->
  Forall (fun r => valid_secret (Models.secret (snd r)) = true) l.
Proof.
  intros Hr Hl. apply List.Forall_forall. intros r Hin.
  exact (proj2 (proj2 (proj2
           (reachable_well_formed unicode_upper db Hr _ _ (Hl r Hin))))).
Qed.

(** X11. The dashboard of a table built by the handlers never fails,
    whatever the clock shows at each of its readings and whatever
    [time.mktime] answers from the epoch on.  It lists exactly the accounts
    that are not hidden, or all of them when [show_all] is set, and each row
    carries a code of six characters and a remaining time between 1 and
    30. *)
Theorem index_lists_visible (a : Views.args) (s : Theme.session)
        (db : App.table) (w : world) (i j : nat) :
  App.reachable unicode_upper db ->
  after_epoch w ->
  exists rows,
    run w i j (Views.index unicode_lower a s db)
      = Ok (rows, Views.show_all unicode_lower a, Theme.current s)
    /\ (forall id,
          In (Some (JInt id)) (map (dict_get "id") rows)
          <-> exists acc, db !! id = Some acc
                /\ (Views.show_all unicode_lower a = true
                    \/ Models.hidden acc = false))
    /\ Forall (fun row =>
                 exists code r,
                   dict_get "totp_code" row = Some (JStr code)
                   /\ length code = 6%nat
                   /\ dict_get "remaining_time" row = Some (JInt r)
                   /\ 1 <= r <= 30) rows.
Proof.
  intros Hr Hw. unfold Views.index. cbv zeta.
  set (show := Views.show_all unicode_lower a).
  set (l := if show then Views.query_all db else Views.query_visible db).
  assert (Hl : forall id acc,
             In (id, acc) l
             <-> db !! id = Some acc
                 /\ (show = true \/ Models.hidden acc = false)).
  { intros id acc. unfold l, Views.query_all, Views.query_visible.
    destruct show.
    - rewrite in_scan.
      split; [intros H; split; [exact H|left; reflexivity]
             |intros [H _]; exact H].
    - rewrite filter_In, in_scan. cbn [snd].
      rewrite negb_true_iff.
      split; [intros [H1 H2]; split; [exact H1|right; exact H2]|].
      intros [H1 [H2|H2]]; [discriminate H2|split; assumption]. }
  assert (Hv : Forall (fun r => valid_secret (Models.secret (snd r)) = true) l).
  { apply (rows_valid db); [exact Hr|]. intros [id acc] Hin.
    apply Hl in Hin. apply Hin. }
  pose (mk := fun (r : Z * Models.MFAAccount) (code : str) (remaining : Z) =>
                [("id"%string, JInt (fst r));
                 ("account_name"%string, JStr (Models.account_name (snd r)));
                 ("issuer"%string, Views.jissuer (snd r));
                 ("hidden"%string, JBool (Models.hidden (snd r)));
                 ("totp_code"%string, JStr code);
                 ("remaining_time"%string, JInt remaining)] : dict).
  destruct (view_rows_in mk w l Hw Hv i j) as (rows & Hrun & H2).
  exists rows.
  assert (Hrun' : run w i j (for_each Views.index_row l) = Ok rows)
    by exact Hrun.
  rewrite run_pbind, Hrun'. split; [reflexivity|]. split.
  - intros id.
    rewrite (row_ids mk
               (fun code rem => length code = 6%nat /\ 1 <= rem <= 30)
               l rows id).
    + split; intros [acc H]; exists acc; apply Hl; exact H.
    + reflexivity.
    + exact H2.
  - apply (row_fields mk l rows); [|exact H2]. intros r code rem.
    split; reflexivity.
Qed.

(** X13. On a table built by the handlers, in every world that is not
    before the epoch: an unknown key gets the 404 answer; a known key gets
    its name, a code of six decimal digits, the one that [get_totp_code]
    derives in that world, whether the account is hidden or not, and the
    remaining time of the next reading of the clock. *)
Theorem get_single_code_answer (id : Z) (db : App.table) (w : world)
        (i j : nat) :
  App.reachable unicode_upper db ->
  after_epoch w ->
  match db !! id with
  | None => run w i j (Views.get_single_code id db) = Ok None
  | Some a =>
      exists code,
        run w i j (Models.get_totp_code a) = Ok code
        /\ length code = 6%nat /\ Forall is_decimal_digit code
        /\ run w i j (Views.get_single_code id db)
           = Ok (Some [("id"%string, JInt id);
                       ("account_name"%string,
                        JStr (Models.account_name a));
                       ("totp_code"%string, JStr code);
                       ("remaining_time"%string,
                        JInt (30 - Qfloor (Datetime.timestamp
                                             (clock w (S i))) mod 30))])
  end.
Proof.
  intros Hr Hw. unfold Views.get_single_code.
  destruct (db !! id) as [a|] eqn:Ha; [|reflexivity].
  pose proof (reachable_well_formed unicode_upper db Hr id a Ha)
    as (_ & _ & _ & Hv).
  destruct (code_in a w i j Hw Hv) as (code & Hc & Hlen & Hdig).
  destruct (view_row_in
              (fun r code remaining =>
                 [("id"%string, JInt (fst r));
                  ("account_name"%string,
                   JStr (Models.account_name (snd r)));
                  ("totp_code"%string, JStr code);
                  ("remaining_time"%string, JInt remaining)])
              w (id, a) i j Hw Hv) as (code' & Hc' & _ & Hrun & _).
  cbn [snd] in Hc'. rewrite Hc in Hc'. apply Ok_inj in Hc'. subst code'.
  exists code. split; [exact Hc|]. split; [exact Hlen|].
  split; [exact Hdig|].
  assert (Hrun' : run w i j (Views.code_row (id, a))
                  = Ok [("id"%string, JInt id);
                        ("account_name"%string, JStr (Models.account_name a));
                        ("totp_code"%string, JStr code);
                        ("remaining_time"%string,
                         JInt (30 - Qfloor (Datetime.timestamp
                                              (clock w (S i))) mod 30))])
    by exact Hrun.
  rewrite run_pbind, Hrun'. reflexivity.
Qed.

(** X15. A search with a blank query never fails on a table built by the
    handlers, in every world that is not before the epoch, and lists every
    account, the hidden ones included. *)
Theorem search_blank_lists_all (a : Views.args) (db : App.table)
        (w : world) (i j : nat) :
  App.reachable unicode_upper db ->
  after_epoch w ->
  Forall (fun c => isspace c = true) (default [] (a !! "q"%string)) ->
  exists rows,
    run w i j (Views.search_accounts isspace ilike a db) = Ok rows
    /\ forall id,
        In (Some (JInt id)) (map (dict_get "id") rows)
        <-> exists acc, db !! id = Some acc.
Proof.
  intros Hr Hw Hq. unfold Views.search_accounts. cbv zeta.
  assert (Hs : Views.strip isspace (default [] (a !! "q"%string)) = []).
  { unfold Views.strip.
    assert (Hl : Views.lstrip isspace (default [] (a !! "q"%string)) = []).
    { induction Hq as [|c q Hc _ IH]; [reflexivity|].
      cbn [Views.lstrip]. rewrite Hc. exact IH. }
    rewrite Hl. reflexivity. }
  rewrite Hs.
  assert (Hv : Forall (fun r => valid_secret (Models.secret (snd r)) = true)
                 (Views.query_all db)).
  { apply (rows_valid db); [exact Hr|]. intros [id acc] Hin.
    apply in_scan. exact Hin. }
  pose (mk := fun (r : Z * Models.MFAAccount) (code : str) (remaining : Z) =>
                [("id"%string, JInt (fst r));
                 ("account_name"%string, JStr (Models.account_name (snd r)));
                 ("issuer"%string, Views.jissuer (snd r));
                 ("totp_code"%string, JStr code);
                 ("remaining_time"%string, JInt remaining)] : dict).
  destruct (view_rows_in mk w (Views.query_all db) Hw Hv i j)
    as (rows & Hrun & H2).
  exists rows. split; [exact Hrun|].
  intros id.
  rewrite (row_ids mk
             (fun code rem => length code = 6%nat /\ 1 <= rem <= 30)
             (Views.query_all db) rows id).
  - split; intros [acc H]; exists acc; apply in_scan; exact H.
  - reflexivity.
  - exact H2.
Qed.

End ViewsOfReachable.

(** X14. The two values of an answer come from two readings of the clock:
    the code from the first, the remaining time from the next one, which up
    to 2^34 seconds after the epoch is counted from its whole seconds. *)
Theorem get_single_code_two_readings (clock : nat -> datetime) (n : nat)
        (i : Z) (db : App.table) (a : Models.MFAAccount) (code : str) :
  db !! i = Some a ->
  run_at (clock n) (Models.get_totp_code a) = Ok code ->
  run_from clock n (Views.get_single_code i db)
  = Ok (Some [("id"%string, JInt i);
              ("account_name"%string, JStr (Models.account_name a));
              ("totp_code"%string, JStr code);
              ("remaining_time"%string,
               JInt (30 - Qfloor (Datetime.timestamp (clock (S n)))
                            mod 30))])
  /\ (Datetime.seconds (clock (S n)) < 2 ^ 34 ->
      30 - Qfloor (Datetime.timestamp (clock (S n))) mod 30
      = 30 - (Z.of_N (clock (S n)) / 1000000) mod 30).
Proof.
  intros Ha Hc.
  split; [|intros Hb; rewrite Qfloor_timestamp by exact Hb; reflexivity].
  unfold Views.get_single_code. rewrite Ha.
  rewrite <- (run_from_faithful clock _ n 0).
  rewrite <- (run_from_still (clock n) _ n),
    <- (run_from_faithful (fun _ => clock n) _ n 0) in Hc.
  unfold Views.code_row. cbn [snd fst].
  rewrite get_totp_code_in in Hc.
  rewrite !run_pbind.
  assert (Hr : reads (faithful clock) n 0 (Models.get_totp_code a)
               = (S n, 1%nat)) by reflexivity.
  rewrite get_totp_code_in, Hr. cbn [fst snd].
  rewrite !faithful_clock, !faithful_mktime in *. rewrite Hc.
  rewrite !run_pbind, get_remaining_time_in, faithful_clock. reflexivity.
Qed.

Lemma index_lists_visible_witness :
  App.reachable (fun c => [c]) alice_table
  /\ after_epoch (faithful ticking)
  /\ exists rows,
      run (faithful ticking) 0 0
        (Views.index (fun c => [c]) ∅ ∅ alice_table)
        = Ok (rows, Views.show_all (fun c => [c]) ∅, Theme.current ∅)
      /\ (forall id,
            In (Some (JInt id)) (map (dict_get "id") rows)
            <-> exists acc, alice_table !! id = Some acc
                  /\ (Views.show_all (fun c => [c]) ∅ = true
                      \/ Models.hidden acc = false))
      /\ Forall (fun row =>
                   exists code r,
                     dict_get "totp_code" row = Some (JStr code)
                     /\ length code = 6%nat
                     /\ dict_get "remaining_time" row = Some (JInt r)
                     /\ 1 <= r <= 30) rows.
Proof.
  split; [exact alice_table_reachable|].
  split; [exact (faithful_after_epoch ticking)|].
  exact (index_lists_visible (fun c => [c]) (fun c => [c]) ∅ ∅ alice_table
           (faithful ticking) 0 0 alice_table_reachable
           (faithful_after_epoch ticking)).
Defined.

Lemma get_single_code_answer_witness :
  App.reachable (fun c => [c]) alice_table
  /\ after_epoch (faithful ticking)
  /\ match alice_table !! 1 with
     | None =>
         run (faithful ticking) 0 0 (Views.get_single_code 1 alice_table)
         = Ok None
     | Some a =>
         exists code,
           run (faithful ticking) 0 0 (Models.get_totp_code a) = Ok code
           /\ length code = 6%nat /\ Forall is_decimal_digit code
           /\ run (faithful ticking) 0 0
                (Views.get_single_code 1 alice_table)
              = Ok (Some [("id"%string, JInt 1);
                          ("account_name"%string,
                           JStr (Models.account_name a));
                          ("totp_code"%string, JStr code);
                          ("remaining_time"%string,
                           JInt (30 - Qfloor (Datetime.timestamp
                                                (clock (faithful ticking) 1))
                                        mod 30))])
     end.
Proof.
  split; [exact alice_table_reachable|].
  split; [exact (faithful_after_epoch ticking)|].
  exact (get_single_code_answer (fun c => [c]) 1 alice_table
           (faithful ticking) 0 0 alice_table_reachable
           (faithful_after_epoch ticking)).
Defined.

Lemma search_blank_lists_all_witness :
  App.reachable (fun c => [c]) alice_table
  /\ after_epoch (faithful ticking)
  /\ Forall (fun c => Z.eqb c 32 = true)
       (default [] ((<["q"%string := py "  "]> ∅ : Views.args) !! "q"%string))
  /\ exists rows,
      run (faithful ticking) 0 0
        (Views.search_accounts (fun c => Z.eqb c 32) (fun _ _ => false)
           (<["q"%string := py "  "]> ∅) alice_table) = Ok rows
      /\ forall id,
          In (Some (JInt id)) (map (dict_get "id") rows)
          <-> exists acc, alice_table !! id = Some acc.
Proof.
  assert (H : Forall (fun c => Z.eqb c 32 = true)
                (default []
                   ((<["q"%string := py "  "]> ∅ : Views.args) !! "q"%string)))
    by (repeat constructor).
  split; [exact alice_table_reachable|].
  split; [exact (faithful_after_epoch ticking)|]. split; [exact H|].
  exact (search_blank_lists_all (fun c => [c]) (fun c => Z.eqb c 32)
           (fun _ _ => false) (<["q"%string := py "  "]> ∅) alice_table
           (faithful ticking) 0 0 alice_table_reachable
           (faithful_after_epoch ticking) H).
Defined.

Lemma get_single_code_two_readings_witness :
  alice_table !! 1 = Some alice_account
  /\ run_at (Datetime.of_seconds 29) (Models.get_totp_code alice_account)
     = Ok (py "282760")
  /\ run_from (fun n => Datetime.of_seconds (29 + N.of_nat n)) 0
       (Views.get_single_code 1 alice_table)
     = Ok (Some [("id"%string, JInt 1);
                 ("account_name"%string,
                  JStr (Models.account_name alice_account));
                 ("totp_code"%string, JStr (py "282760"));
                 ("remaining_time"%string,
                  JInt (30 - Qfloor (Datetime.timestamp
                                       (Datetime.of_seconds
                                          (29 + N.of_nat 1))) mod 30))]).
Proof.
  assert (H : run_at (Datetime.of_seconds 29)
                (Models.get_totp_code alice_account) = Ok (py "282760"))
    by (vm_compute; reflexivity).
  split; [reflexivity|]. split; [exact H|].
  exact (proj1 (get_single_code_two_readings
                  (fun n => Datetime.of_seconds (29 + N.of_nat n)) 0 1
                  alice_table alice_account (py "282760") eq_refl H)).
Defined.

(** ** The theme preference *)

(** X17. A theme that is light or dark is stored and read back. *)
Theorem set_theme_round_trip (data : gmap string jvalue) (s : Theme.session)
        (t : str) :
  data !! "theme"%string = Some (JStr t) ->
  t = py "light" \/ t = py "dark" ->
  Theme.set_theme data s
    = ([("status"%string, JStr (py "success")); ("theme"%string, JStr t)],
       200, <["theme"%string := t]> s)
  /\ Theme.get_theme (<["theme"%string := t]> s)
     = [("theme"%string, JStr t)].
Proof.
  intros Hd Ht.
  unfold Theme.set_theme, Theme.get_theme, Theme.current, Theme.session in *.
  rewrite Hd, lookup_insert_eq. cbn [default].
  destruct Ht as [-> | ->]; split; reflexivity.
Qed.

Lemma set_theme_round_trip_witness :
  (<["theme"%string := JStr (py "dark")]> ∅ : gmap string jvalue)
    !! "theme"%string = Some (JStr (py "dark"))
  /\ (py "dark" = py "light" \/ py "dark" = py "dark")
  /\ (Theme.set_theme (<["theme"%string := JStr (py "dark")]> ∅) ∅
      = ([("status"%string, JStr (py "success"));
          ("theme"%string, JStr (py "dark"))],
         200, <["theme"%string := py "dark"]> ∅)
      /\ Theme.get_theme (<["theme"%string := py "dark"]> ∅)
         = [("theme"%string, JStr (py "dark"))]).
Proof.
  split; [reflexivity|]. split; [right; reflexivity|].
  exact (set_theme_round_trip (<["theme"%string := JStr (py "dark")]> ∅) ∅
           (py "dark") eq_refl (or_intror eq_refl)).
Defined.

Lemma is_str_true (v : jvalue) (s : str) :
  Theme.is_str v s = true <-> v = JStr s.
Proof.
  destruct v; cbn [Theme.is_str]; try (split; [discriminate|discriminate]).
  rewrite bool_decide_eq_true. split; [intros ->; reflexivity|].
  intros H. injection H as ->. reflexivity.
Qed.

(** X18. The session never holds a theme other than light and dark: a request
    either stores one of the two and answers 200, or answers 400 and leaves
    the session as it was. *)
Theorem set_theme_keeps_valid (data : gmap string jvalue)
        (s : Theme.session) :
  Theme.current s = py "light" \/ Theme.current s = py "dark" ->
  (Theme.current (snd (Theme.set_theme data s)) = py "light"
   \/ Theme.current (snd (Theme.set_theme data s)) = py "dark")
  /\ (snd (fst (Theme.set_theme data s)) = 200
      \/ (snd (fst (Theme.set_theme data s)) = 400
          /\ snd (Theme.set_theme data s) = s)).
Proof.
  intros Hs. unfold Theme.set_theme. cbv zeta.
  destruct (Theme.is_str _ (py "light") || Theme.is_str _ (py "dark")) eqn:E;
    cbn [fst snd]; [|split; [exact Hs|right; split; reflexivity]].
  split; [|left; reflexivity].
  apply orb_true_iff in E. rewrite !is_str_true in E.
  unfold Theme.current, Theme.session in *.
  destruct E as [-> | ->]; rewrite lookup_insert_eq; [left|right]; reflexivity.
Qed.

Lemma set_theme_keeps_valid_witness :
  (Theme.current ∅ = py "light" \/ Theme.current ∅ = py "dark")
  /\ ((Theme.current
         (snd (Theme.set_theme (<["theme"%string := JInt 7]> ∅) ∅))
       = py "light"
       \/ Theme.current
            (snd (Theme.set_theme (<["theme"%string := JInt 7]> ∅) ∅))
          = py "dark")
      /\ (snd (fst (Theme.set_theme (<["theme"%string := JInt 7]> ∅) ∅)) = 200
          \/ (snd (fst (Theme.set_theme (<["theme"%string := JInt 7]> ∅) ∅))
              = 400
              /\ snd (Theme.set_theme (<["theme"%string := JInt 7]> ∅) ∅)
                 = ∅))).
Proof.
  split; [left; reflexivity|].
  exact (set_theme_keeps_valid (<["theme"%string := JInt 7]> ∅) ∅
           (or_introl eq_refl)).
Defined.

(** ** The countdown and the life of a code *)

Lemma seconds_add (d k : N) :
  Datetime.seconds (d + k * 1000000)%N = Datetime.seconds d + Z.of_N k.
Proof.
  unfold Datetime.seconds. rewrite N2Z.inj_add, N2Z.inj_mul.
  change (Z.of_N 1000000) with 1000000. apply Z.div_add. lia.
Qed.

(** X19. Up to 2^34 seconds after the epoch, one second later the remaining
    time is one less, and after 1 it starts again at 30.  (Later the
    fraction of the second can be rounded up into the next second, see
    [get_remaining_time_rounded].) *)
Theorem remaining_time_counts_down (self : Models.MFAAccount) (d : datetime)
        (r : Z) :
  Datetime.seconds (d + 1000000)%N < 2 ^ 34 ->
  run_at d (Models.get_remaining_time self) = Ok r ->
  run_at (d + 1000000)%N (Models.get_remaining_time self)
  = Ok (if r =? 1 then 30 else r - 1).
Proof.
  intros Hb.
  pose proof (seconds_add d 1) as Hs.
  change (d + 1 * 1000000)%N with (d + 1000000)%N in Hs.
  rewrite (get_remaining_time_early self d) by lia.
  rewrite (get_remaining_time_early self (d + 1000000)%N) by exact Hb.
  intros H. apply Ok_inj in H. subst r.
  f_equal. fold (Datetime.seconds d).
  fold (Datetime.seconds (d + 1000000)%N).
  rewrite Hs. change (Z.of_N 1) with 1.
  generalize (Datetime.seconds d). intros s.
  destruct (Z.eqb_spec (30 - s mod 30) 1);
    Z.to_euclidean_division_equations; lia.
Qed.

Lemma remaining_time_counts_down_witness :
  Datetime.seconds (Datetime.of_seconds 29 + 1000000)%N < 2 ^ 34
  /\ run_at (Datetime.of_seconds 29) (Models.get_remaining_time alice_account)
    = Ok 1
  /\ run_at (Datetime.of_seconds 29 + 1000000)%N
       (Models.get_remaining_time alice_account)
     = Ok (if 1 =? 1 then 30 else 1 - 1).
Proof.
  assert (Hb : Datetime.seconds (Datetime.of_seconds 29 + 1000000)%N < 2 ^ 34)
    by reflexivity.
  assert (H : run_at (Datetime.of_seconds 29)
                (Models.get_remaining_time alice_account) = Ok 1)
    by (vm_compute; reflexivity).
  split; [exact Hb|]. split; [exact H|].
  exact (remaining_time_counts_down alice_account (Datetime.of_seconds 29) 1
           Hb H).
Defined.

(** X20. The remaining time that is announced is the life of the code, up
    to 2^34 seconds after the epoch and where [time.mktime] answers the
    instant read (it does not in a repeated hour, see [second_pass]): a call
    of [get_totp_code] less than that many seconds later gives the same
    result, and a call exactly that many seconds later derives the code of
    the next counter. *)
Theorem code_lives_remaining_time (self : Models.MFAAccount) (w : world)
        (i j i' j' : nat) (r : Z) (k : N) :
  Datetime.seconds (clock w i) < 2 ^ 34 ->
  run w i j (Models.get_remaining_time self) = Ok r ->
  answers_instant w i j -> answers_instant w i' j' ->
  clock w i' = (clock w i + k * 1000000)%N ->
  (Z.of_N k < r ->
   run w i' j' (Models.get_totp_code self)
   = run w i j (Models.get_totp_code self))
  /\ (Z.of_N k = r ->
      run w i j (Models.get_totp_code self)
      = (t <- Pyotp.TOTP (Models.secret self) ;;
         Pyotp.generate_otp t (Datetime.seconds (clock w i) / 30))
      /\ run w i' j' (Models.get_totp_code self)
         = (t <- Pyotp.TOTP (Models.secret self) ;;
            Pyotp.generate_otp t (Datetime.seconds (clock w i) / 30 + 1))).
Proof.
  intros Hb Hr Ha Ha' Hc.
  rewrite get_remaining_time_in, Qfloor_timestamp in Hr by exact Hb.
  apply Ok_inj in Hr. subst r.
  unfold answers_instant in *.
  rewrite !get_totp_code_in, Ha, Ha', Hc, seconds_add.
  pose proof (seconds_nonneg (clock w i)) as H0.
  rewrite !int_of_quotient by lia.
  pose proof (Z.mod_pos_bound (Datetime.seconds (clock w i)) 30 eq_refl) as Hm.
  split.
  - intros Hk.
    assert (E : (Datetime.seconds (clock w i) + Z.of_N k) / 30
                = Datetime.seconds (clock w i) / 30).
    { generalize dependent (Datetime.seconds (clock w i)). intros s _ H0 Hm Hk.
      Z.to_euclidean_division_equations; lia. }
    rewrite E. reflexivity.
  - intros Hk. split; [reflexivity|].
    assert (E : (Datetime.seconds (clock w i) + Z.of_N k) / 30
                = Datetime.seconds (clock w i) / 30 + 1).
    { generalize dependent (Datetime.seconds (clock w i)). intros s _ H0 Hm Hk.
      Z.to_euclidean_division_equations; lia. }
    rewrite E. reflexivity.
Qed.

Lemma code_lives_remaining_time_witness :
  Datetime.seconds
    (clock (faithful (fun n => Datetime.of_seconds (10 + 19 * N.of_nat n))) 0)
  < 2 ^ 34
  /\ run (faithful (fun n => Datetime.of_seconds (10 + 19 * N.of_nat n))) 0 0
       (Models.get_remaining_time alice_account) = Ok 20
  /\ answers_instant
       (faithful (fun n => Datetime.of_seconds (10 + 19 * N.of_nat n))) 0 0
  /\ answers_instant
       (faithful (fun n => Datetime.of_seconds (10 + 19 * N.of_nat n))) 1 0
  /\ clock (faithful (fun n => Datetime.of_seconds (10 + 19 * N.of_nat n))) 1
     = (clock (faithful (fun n => Datetime.of_seconds (10 + 19 * N.of_nat n)))
          0 + 19 * 1000000)%N
  /\ (Z.of_N 19 < 20 ->
      run (faithful (fun n => Datetime.of_seconds (10 + 19 * N.of_nat n))) 1 0
        (Models.get_totp_code alice_account)
      = run (faithful (fun n => Datetime.of_seconds (10 + 19 * N.of_nat n)))
          0 0 (Models.get_totp_code alice_account)).
Proof.
  assert (H1 : Datetime.seconds
                 (clock (faithful (fun n => Datetime.of_seconds
                                              (10 + 19 * N.of_nat n))) 0)
               < 2 ^ 34) by reflexivity.
  assert (H2 : run (faithful (fun n => Datetime.of_seconds
                                         (10 + 19 * N.of_nat n))) 0 0
                 (Models.get_remaining_time alice_account) = Ok 20)
    by (vm_compute; reflexivity).
  assert (H3 : clock (faithful (fun n => Datetime.of_seconds
                                           (10 + 19 * N.of_nat n))) 1
               = (clock (faithful (fun n => Datetime.of_seconds
                                              (10 + 19 * N.of_nat n)))
                    0 + 19 * 1000000)%N) by reflexivity.
  split; [exact H1|]. split; [exact H2|].
  split; [reflexivity|]. split; [reflexivity|]. split; [exact H3|].
  exact (proj1 (code_lives_remaining_time alice_account
                  (faithful (fun n => Datetime.of_seconds
                                        (10 + 19 * N.of_nat n)))
                  0 0 1 0 20 19 H1 H2 eq_refl eq_refl H3)).
Defined.

(** ** The URI of an account without issuer *)

(** X21. When the issuer of an account is empty (the edit form sent with an
    empty issuer field) or NULL, the URI has no issuer at all: the label is
    the account name and the query holds the secret only. *)
Theorem provisioning_uri_without_issuer (self : Models.MFAAccount)
        (qn : str) :
  Models.account_name self <> [] ->
  Models.issuer self = None \/ Models.issuer self = Some [] ->
  Forall (fun c => base32_digit c = true) (Models.secret self) ->
  Urllib.quote (Models.account_name self) (py "/") = Ok qn ->
  Models.get_qr_code_url self
  = Ok (py "otpauth://totp/" ++ qn ++ py "?secret=" ++ Models.secret self).
Proof.
  intros Hn Hi Hs Hqn.
  unfold Models.get_qr_code_url. rewrite TOTP_defaults. cbn [rbind].
  unfold PyotpUtils.provisioning_uri.
  cbn [Pyotp.secret Pyotp.name Pyotp.issuer Pyotp.digits Pyotp.interval].
  assert (Hf : (if PyotpUtils.truthy (Models.issuer self)
                then Models.issuer self else None) = None)
    by (destruct Hi as [-> | ->]; reflexivity).
  rewrite Hf.
  destruct (Models.account_name self) as [|c n] eqn:En; [congruence|].
  cbn [PyotpUtils.truthy default]. change (id (c :: n)) with (c :: n).
  unfold PyotpUtils.build_uri. rewrite Hqn. cbn [rbind fst snd].
  destruct (quote_plus_base32 _ Hs) as [Hqs Hrs].
  rewrite !bool_decide_eq_false_2 by (intros [_ ?]; congruence).
  rewrite (bool_decide_eq_false_2 (None <> None)) by congruence.
  unfold Urllib.urlencode.
  cbn [Urllib.urlencode_items Urllib.str_of].
  change (Urllib.quote_plus (py "secret") []) with (Ok (py "secret")).
  rewrite Hqs. unfold rbind. unfold Urllib.join.
  rewrite !replace_app, Hrs.
  change (Urllib.replace 43 (py "%20") (py "secret")) with (py "secret").
  change (Urllib.replace 43 (py "%20") (py "=")) with (py "=").
  rewrite <- ?app_assoc. reflexivity.
Qed.

Lemma provisioning_uri_without_issuer_witness :
  Models.account_name
    {| Models.account_name := py "alice";
       Models.secret := py "JBSWY3DPEHPK3PXP";
       Models.issuer := Some [];
       Models.hidden := false |} <> []
  /\ (Models.issuer
        {| Models.account_name := py "alice";
           Models.secret := py "JBSWY3DPEHPK3PXP";
           Models.issuer := Some [];
           Models.hidden := false |} = None
      \/ Models.issuer
           {| Models.account_name := py "alice";
              Models.secret := py "JBSWY3DPEHPK3PXP";
              Models.issuer := Some [];
              Models.hidden := false |} = Some [])
  /\ Forall (fun c => base32_digit c = true) (py "JBSWY3DPEHPK3PXP")
  /\ Urllib.quote (py "alice") (py "/") = Ok (py "alice")
  /\ Models.get_qr_code_url
       {| Models.account_name := py "alice";
          Models.secret := py "JBSWY3DPEHPK3PXP";
          Models.issuer := Some [];
          Models.hidden := false |}
     = Ok (py "otpauth://totp/" ++ py "alice" ++ py "?secret="
             ++ py "JBSWY3DPEHPK3PXP").
Proof.
  assert (H1 : py "alice" <> []) by discriminate.
  assert (H3 : Forall (fun c => base32_digit c = true)
                 (py "JBSWY3DPEHPK3PXP")) by (repeat constructor).
  split; [exact H1|]. split; [right; reflexivity|]. split; [exact H3|].
  split; [reflexivity|].
  exact (provisioning_uri_without_issuer
           {| Models.account_name := py "alice";
              Models.secret := py "JBSWY3DPEHPK3PXP";
              Models.issuer := Some [];
              Models.hidden := false |}
           (py "alice") H1 (or_intror eq_refl) H3 eq_refl).
Defined.

(** ** The size of the key *)

Lemma range_step_length (n : nat) :
  length (range_step n 8) = ((n + 8 - 1) / 8)%nat.
Proof. unfold range_step. rewrite length_map, length_seq. reflexivity. Qed.

(** [b32decode] returns five bytes for eight digits, rounded down. *)
Lemma b32decode_length (s : str) (key : bytes) :
  Base64.b32decode s true = Ok key ->
  len key = 5 * len (rstrip 61 (map ascii_upper s)) / 8.
Proof.
  unfold Base64.b32decode, Base64.bytes_from_decode_data.
  destruct (forallb _ s); [|discriminate]. cbn [rbind].
  destruct (Z.eqb_spec (len s mod 8) 0) as [E8|E8]; cbn [negb];
    [|discriminate].
  assert (Hl1 : len (map ascii_upper s) = len s)
    by (unfold len; rewrite length_map; reflexivity).
  rewrite Hl1. set (s2 := rstrip 61 (map ascii_upper s)).
  pose proof (rstrip_length 61 (map ascii_upper s)) as Hle.
  fold s2 in Hle. rewrite length_map in Hle.
  destruct (Base64.decode_loop s2 (range_step (length s2) 8) ([], 0))
    as [[dec acc]|e] eqn:El; cbn [rbind fst snd]; [|discriminate].
  rewrite (proj2 (Z.eqb_eq _ _) E8). cbn [negb orb].
  pose proof (decode_loop_ok_inv _ _ _ _ El) as Hg.
  destruct (decode_loop_ok s2 _ ([], 0) Hg)
    as (dec' & acc' & Hok & Hdl & _ & _).
  rewrite El in Hok. injection Hok as <- <-. cbn [fst length] in Hdl.
  rewrite range_step_length in Hdl.
  destruct (Base64.valid_padchars (len s - len s2)) eqn:Ev; cbn [negb];
    [|discriminate].
  apply valid_padchars_cases in Ev.
  pose proof (Nat.div_mod_eq (length s2 + 8 - 1) 8) as Hd1.
  pose proof (Nat.mod_upper_bound (length s2 + 8 - 1) 8) as Hd2.
  unfold len in *.
  destruct (Z.eqb_spec (Z.of_nat (length s) - Z.of_nat (length s2)) 0)
    as [Ep|Ep]; cbn [negb andb].
  { intros H. injection H as <-.
    Z.to_euclidean_division_equations; lia. }
  destruct (Nat.eqb_spec (length dec) 0) as [Ed|Ed]; cbn [negb].
  { intros H. injection H as <-.
    Z.to_euclidean_division_equations; lia. }
  destruct (to_bytes 5 _) as [last|e] eqn:Et; [|discriminate].
  cbn [rbind]. intros H. injection H as <-.
  assert (Hlast : length last = 5%nat).
  { unfold to_bytes in Et. destruct (_ || _); [discriminate|].
    injection Et as <-. reflexivity. }
  rewrite length_app, !length_firstn, Hlast.
  destruct Ev as [Ev|[Ev|[Ev|[Ev|Ev]]]]; rewrite Ev in *;
    [lia|
     change (Z.to_nat ((43 - 5 * 1) / 8)) with 4%nat|
     change (Z.to_nat ((43 - 5 * 3) / 8)) with 3%nat|
     change (Z.to_nat ((43 - 5 * 4) / 8)) with 2%nat|
     change (Z.to_nat ((43 - 5 * 6) / 8)) with 1%nat];
    Z.to_euclidean_division_equations; lia.
Qed.

(** X2. The key of a secret that is accepted has five bytes for eight Base32
    digits, rounded down, whatever its padding; a secret that is not empty
    gives a key that is not empty. *)
Theorem valid_secret_key_length (raw : str) :
  valid_secret raw = true ->
  exists key,
    (t <- Pyotp.TOTP raw ;; Pyotp.byte_secret t) = Ok key
    /\ len key = 5 * len (rstrip 61 raw) / 8
    /\ (raw <> [] -> key <> []).
Proof.
  intros Hv. pose proof Hv as [_ Hp]%valid_secret_iff.
  unfold valid_secret in Hv. rewrite TOTP_defaults in *. cbn [rbind] in *.
  destruct (Pyotp.byte_secret _) as [key|e] eqn:Hk; [|discriminate].
  exists key. split; [reflexivity|].
  rewrite byte_secret_padded in Hk. cbn [Pyotp.secret] in Hk.
  apply b32decode_length in Hk.
  rewrite map_app, map_repeat in Hk. change (ascii_upper 61) with 61 in Hk.
  rewrite rstrip_app_repeat, rstrip_map_upper in Hk.
  assert (Hl : len (map ascii_upper (rstrip 61 raw)) = len (rstrip 61 raw))
    by (unfold len; rewrite length_map; reflexivity).
  rewrite Hl in Hk. split; [exact Hk|].
  intros Hne Hkey. subst key. change (len (@nil Z)) with 0 in Hk.
  apply valid_padchars_cases in Hp.
  destruct (missing_padding_bound raw) as [Hm Hm8].
  unfold padding_count in Hp.
  assert (0 < len raw) by (destruct raw; [congruence|unfold len; cbn; lia]).
  assert (0 <= len (rstrip 61 raw)) by (unfold len; lia).
  Z.to_euclidean_division_equations; lia.
Qed.

Lemma valid_secret_key_length_witness :
  valid_secret (py "MFRGG===") = true
  /\ exists key,
      (t <- Pyotp.TOTP (py "MFRGG===") ;; Pyotp.byte_secret t) = Ok key
      /\ len key = 5 * len (rstrip 61 (py "MFRGG===")) / 8
      /\ (py "MFRGG===" <> [] -> key <> []).
Proof.
  assert (H : valid_secret (py "MFRGG===") = true) by (vm_compute; reflexivity).
  split; [exact H|]. exact (valid_secret_key_length (py "MFRGG===") H).
Defined.

(** ** Editing an account *)

(** X7. An accepted edit rewrites one row under its key: the other rows are as
    they were, and an account may keep its own name.  The row holds the
    secret in upper case and is hidden exactly when the form says [on]. *)
Theorem edit_account_stores (unicode_upper : Z -> list Z) (i : Z)
        (f : App.form) (d : datetime) (db : App.table)
        (old : Models.MFAAccount) (name raw : str) :
  db !! i = Some old ->
  f !! "account_name"%string = Some name -> name <> [] ->
  f !! "secret"%string = Some raw -> raw <> [] ->
  valid_secret raw = true ->
  name = Models.account_name old \/ App.existing db name = false ->
  exists db' account,
    run_at d (App.edit_account unicode_upper i App.POST f true db)
      = Ok (App.redirect "view_account" [App.updated], db')
    /\ db' !! i = Some account
    /\ (forall j, j <> i -> db' !! j = db !! j)
    /\ Models.account_name account = name
    /\ Models.secret account = map ascii_upper raw
    /\ Models.hidden account
       = bool_decide (f !! "hidden"%string = Some (py "on")).
Proof.
  intros Ho Hn Hn0 Hs Hs0 Hv Hex.
  eexists _, _. split; [|split; [|split]].
  - unfold App.edit_account. rewrite Ho, Hn, Hs.
    destruct name as [|c0 name]; [congruence|].
    destruct raw as [|c1 raw]; [congruence|].
    cbn [PyotpUtils.truthy negb orb]. rewrite run_at_pbind.
    change (default [] (Some ?x)) with x.
    rewrite (proj2 (validate_accepts_iff d _) Hv).
    assert (Hc : bool_decide (c0 :: name <> Models.account_name old)
                 && App.existing db (c0 :: name) = false).
    { destruct Hex as [-> | ->]; [|apply andb_false_r].
      rewrite bool_decide_eq_false_2; [reflexivity|]. intros H. apply H.
      reflexivity. }
    rewrite Hc. reflexivity.
  - unfold App.table in *. apply lookup_insert_eq.
  - intros j Hj. unfold App.table in *. apply lookup_insert_ne. congruence.
  - cbn [Models.account_name Models.secret Models.hidden].
    split; [reflexivity|]. split; [apply normalize_valid, Hv|reflexivity].
Qed.

Lemma edit_account_stores_witness :
  alice_table !! 1 = Some alice_account
  /\ alice_form !! "account_name"%string = Some (py "alice")
  /\ py "alice" <> []
  /\ alice_form !! "secret"%string = Some (py "jbswy3dpehpk3pxp")
  /\ py "jbswy3dpehpk3pxp" <> []
  /\ valid_secret (py "jbswy3dpehpk3pxp") = true
  /\ (py "alice" = Models.account_name alice_account
      \/ App.existing alice_table (py "alice") = false)
  /\ exists db' account,
      run_at (Datetime.of_seconds 0)
        (App.edit_account (fun c => [c]) 1 App.POST alice_form true
           alice_table)
        = Ok (App.redirect "view_account" [App.updated], db')
      /\ db' !! 1 = Some account
      /\ (forall j, j <> 1 -> db' !! j = alice_table !! j)
      /\ Models.account_name account = py "alice"
      /\ Models.secret account = map ascii_upper (py "jbswy3dpehpk3pxp")
      /\ Models.hidden account
         = bool_decide (alice_form !! "hidden"%string = Some (py "on")).
Proof.
  assert (H1 : py "alice" <> []) by discriminate.
  assert (H2 : py "jbswy3dpehpk3pxp" <> []) by discriminate.
  assert (H3 : valid_secret (py "jbswy3dpehpk3pxp") = true)
    by (vm_compute; reflexivity).
  split; [reflexivity|]. split; [reflexivity|]. split; [exact H1|].
  split; [reflexivity|]. split; [exact H2|]. split; [exact H3|].
  split; [left; reflexivity|].
  exact (edit_account_stores (fun c => [c]) 1 alice_form
           (Datetime.of_seconds 0) alice_table alice_account
           (py "alice") (py "jbswy3dpehpk3pxp")
           eq_refl eq_refl H1 eq_refl H2 H3 (or_introl eq_refl)).
Defined.

(** ** The number of digits *)

(** For every number of digits from 1 to 10, every key and every counter
    from 0 on, [generate_otp] returns exactly that many decimal digits. *)
Theorem generate_otp_digits (t : Pyotp.totp) (key : bytes) (input : Z) :
  Pyotp.byte_secret t = Ok key -> 0 <= input -> 1 <= Pyotp.digits t <= 10 ->
  exists code,
    Pyotp.generate_otp t input = Ok code
    /\ len code = Pyotp.digits t
    /\ Forall is_decimal_digit code.
Proof.
  intros Hk Hi Hd.
  destruct (generate_otp_zero_padded t key input Hk Hi Hd) as (c & _ & ->).
  eexists. split; [reflexivity|].
  split; [|apply zero_padded_decimal].
  unfold len. rewrite zero_padded_length. lia.
Qed.

Lemma generate_otp_digits_witness :
  Pyotp.byte_secret (Pyotp.Totp rfc4226_secret 8 (py "Secret") None 30)
    = Ok (py "12345678901234567890")
  /\ 0 <= 1
  /\ 1 <= Pyotp.digits (Pyotp.Totp rfc4226_secret 8 (py "Secret") None 30)
     <= 10
  /\ exists code,
      Pyotp.generate_otp
        (Pyotp.Totp rfc4226_secret 8 (py "Secret") None 30) 1 = Ok code
      /\ len code
         = Pyotp.digits (Pyotp.Totp rfc4226_secret 8 (py "Secret") None 30)
      /\ Forall is_decimal_digit code.
Proof.
  assert (H1 : Pyotp.byte_secret
                 (Pyotp.Totp rfc4226_secret 8 (py "Secret") None 30)
               = Ok (py "12345678901234567890"))
    by (vm_compute; reflexivity).
  assert (H2 : 0 <= 1) by lia.
  assert (H3 : 1 <= Pyotp.digits
                      (Pyotp.Totp rfc4226_secret 8 (py "Secret") None 30)
               <= 10) by (cbn; lia).
  split; [exact H1|]. split; [exact H2|]. split; [exact H3|].
  exact (generate_otp_digits
           (Pyotp.Totp rfc4226_secret 8 (py "Secret") None 30)
           (py "12345678901234567890") 1 H1 H2 H3).
Defined.

Example hotp_rfc6238_eight_digits :
  Pyotp.generate_otp (Pyotp.Totp rfc4226_secret 8 (py "Secret") None 30) 1
  = Ok (py "94287082").
Proof. vm_compute. reflexivity. Qed.

(** ** The refresh endpoint and the dashboard *)

Lemma rows_agree (mk1 mk2 : Z * Models.MFAAccount -> str -> Z -> dict)
      (key : string) (d : datetime) (l : list (Z * Models.MFAAccount))
      (rows1 rows2 : list dict) :
  (forall r c rem, dict_get key (mk1 r c rem) = dict_get key (mk2 r c rem)) ->
  Forall2 (fun r row =>
             exists code,
               run_at d (Models.get_totp_code (snd r)) = Ok code
               /\ length code = 6%nat
               /\ row = mk1 r code (30 - Qfloor (Datetime.timestamp d) mod 30))
    l rows1 ->
  Forall2 (fun r row =>
             exists code,
               run_at d (Models.get_totp_code (snd r)) = Ok code
               /\ length code = 6%nat
               /\ row = mk2 r code (30 - Qfloor (Datetime.timestamp d) mod 30))
    l rows2 ->
  map (dict_get key) rows1 = map (dict_get key) rows2.
Proof.
  intros Hk H1. revert rows2.
  induction H1 as [|r row1 l rows1 (c1 & Hc1 & _ & ->) _ IH];
    intros rows2 H2; inversion H2 as [|? row2 ? rows2' (c2 & Hc2 & _ & ->) H2'];
    subst; [reflexivity|].
  cbn [map]. rewrite (IH _ H2'). f_equal.
  rewrite Hc1 in Hc2. apply Ok_inj in Hc2. subst c2. apply Hk.
Qed.

(** X12. Under one reading of the clock, the refresh endpoint [get_all_codes]
    returns the accounts of the dashboard in the same order with the same
    codes and remaining times. *)
Theorem get_all_codes_like_index (unicode_upper unicode_lower : Z -> list Z)
        (a : Views.args) (s : Theme.session) (db : App.table)
        (d : datetime) :
  App.reachable unicode_upper db ->
  exists rows codes,
    run_at d (Views.index unicode_lower a s db)
      = Ok (rows, Views.show_all unicode_lower a, Theme.current s)
    /\ run_at d (Views.get_all_codes unicode_lower a db) = Ok codes
    /\ map (dict_get "id") codes = map (dict_get "id") rows
    /\ map (dict_get "account_name") codes
       = map (dict_get "account_name") rows
    /\ map (dict_get "totp_code") codes = map (dict_get "totp_code") rows
    /\ map (dict_get "remaining_time") codes
       = map (dict_get "remaining_time") rows.
Proof.
  intros Hr. unfold Views.index, Views.get_all_codes. cbv zeta.
  set (l := if Views.show_all unicode_lower a then Views.query_all db
            else Views.query_visible db).
  assert (Hv : Forall (fun r => valid_secret (Models.secret (snd r)) = true) l).
  { apply (rows_valid unicode_upper db); [exact Hr|]. intros [i acc] Hin.
    apply in_scan. unfold l, Views.query_all, Views.query_visible in Hin.
    destruct (Views.show_all unicode_lower a); [exact Hin|].
    apply filter_In in Hin. apply Hin. }
  pose (mk1 := fun (r : Z * Models.MFAAccount) (code : str) (remaining : Z) =>
                 [("id"%string, JInt (fst r));
                  ("account_name"%string, JStr (Models.account_name (snd r)));
                  ("issuer"%string, Views.jissuer (snd r));
                  ("hidden"%string, JBool (Models.hidden (snd r)));
                  ("totp_code"%string, JStr code);
                  ("remaining_time"%string, JInt remaining)] : dict).
  pose (mk2 := fun (r : Z * Models.MFAAccount) (code : str) (remaining : Z) =>
                 [("id"%string, JInt (fst r));
                  ("account_name"%string, JStr (Models.account_name (snd r)));
                  ("totp_code"%string, JStr code);
                  ("remaining_time"%string, JInt remaining)] : dict).
  destruct (view_rows_run mk1 d l Hv) as (rows & Hrun1 & H1).
  destruct (view_rows_run mk2 d l Hv) as (codes & Hrun2 & H2).
  exists rows, codes.
  assert (Hrun1' : run_at d (for_each Views.index_row l) = Ok rows)
    by exact Hrun1.
  assert (Hrun2' : run_at d (for_each Views.code_row l) = Ok codes)
    by exact Hrun2.
  rewrite run_at_pbind, Hrun1', Hrun2'.
  split; [reflexivity|]. split; [reflexivity|].
  repeat split;
    apply (rows_agree mk2 mk1 _ d l codes rows); try assumption;
    intros; reflexivity.
Qed.

Lemma get_all_codes_like_index_witness :
  App.reachable (fun c => [c]) alice_table
  /\ exists rows codes,
      run_at (Datetime.of_seconds 0)
        (Views.index (fun c => [c]) ∅ ∅ alice_table)
        = Ok (rows, Views.show_all (fun c => [c]) ∅, Theme.current ∅)
      /\ run_at (Datetime.of_seconds 0)
           (Views.get_all_codes (fun c => [c]) ∅ alice_table) = Ok codes
      /\ map (dict_get "id") codes = map (dict_get "id") rows
      /\ map (dict_get "account_name") codes
         = map (dict_get "account_name") rows
      /\ map (dict_get "totp_code") codes = map (dict_get "totp_code") rows
      /\ map (dict_get "remaining_time") codes
         = map (dict_get "remaining_time") rows.
Proof.
  split; [exact alice_table_reachable|].
  exact (get_all_codes_like_index (fun c => [c]) (fun c => [c]) ∅ ∅
           alice_table (Datetime.of_seconds 0) alice_table_reachable).
Defined.

(** ** When the URI can be built *)

Lemma utf8_char_ok_iff (c : Z) :
  is_ok (Urllib.utf8_char c) = true <-> scalar c.
Proof.
  unfold Urllib.utf8_char, scalar.
  repeat match goal with
    | |- context [Z.ltb ?a ?b] => destruct (Z.ltb_spec a b)
    | |- context [Z.leb ?a ?b] => destruct (Z.leb_spec a b)
    end; cbn [andb is_ok]; split; intros Hc; try lia; try reflexivity;
    try discriminate Hc.
Qed.

Lemma encode_utf8_ok_iff (s : str) :
  is_ok (Urllib.encode_utf8 s) = true <-> Forall scalar s.
Proof.
  induction s as [|c s IH]; cbn [Urllib.encode_utf8].
  - split; [constructor|reflexivity].
  - rewrite Forall_cons, <- IH, <- utf8_char_ok_iff.
    destruct (Urllib.utf8_char c); cbn [rbind is_ok];
      [|split; [discriminate|intros [? _]; discriminate]].
    destruct (Urllib.encode_utf8 s); cbn [rbind is_ok];
      split; try tauto; intros [_ ?]; discriminate.
Qed.

Lemma quote_ok_iff (s safe : str) :
  is_ok (Urllib.quote s safe) = true <-> Forall scalar s.
Proof.
  unfold Urllib.quote. destruct s as [|c s].
  - split; [constructor|reflexivity].
  - rewrite <- encode_utf8_ok_iff.
    destruct (Urllib.encode_utf8 (c :: s)); cbn [rbind is_ok]; reflexivity.
Qed.

Lemma quote_plus_ok_iff (s : str) :
  is_ok (Urllib.quote_plus s []) = true <-> Forall scalar s.
Proof.
  unfold Urllib.quote_plus. destruct (negb _); [apply quote_ok_iff|].
  rewrite <- (quote_ok_iff s ([] ++ py " ")).
  destruct (Urllib.quote s ([] ++ py " ")); cbn [rbind is_ok]; reflexivity.
Qed.

(** X22. [get_qr_code_url] returns a URI exactly when the account name, the
    issuer and the secret hold no surrogate code point; the URI then starts
    with the scheme and type [otpauth://totp/]. *)
Theorem get_qr_code_url_returns (self : Models.MFAAccount) :
  Models.account_name self <> [] ->
  (is_ok (Models.get_qr_code_url self) = true
   <-> Forall scalar (Models.account_name self)
       /\ Forall scalar (Models.secret self)
       /\ Forall scalar (default [] (Models.issuer self)))
  /\ (forall uri, Models.get_qr_code_url self = Ok uri ->
                  firstn 15 uri = py "otpauth://totp/").
Proof.
  intros Hn.
  unfold Models.get_qr_code_url. rewrite TOTP_defaults. cbn [rbind].
  unfold PyotpUtils.provisioning_uri.
  cbn [Pyotp.secret Pyotp.name Pyotp.issuer Pyotp.digits Pyotp.interval].
  destruct (Models.account_name self) as [|c n] eqn:En; [congruence|].
  cbn [PyotpUtils.truthy default]. change (id (c :: n)) with (c :: n).
  unfold PyotpUtils.build_uri.
  rewrite !bool_decide_eq_false_2 by (intros [_ ?]; congruence).
  rewrite (bool_decide_eq_false_2 (None <> None)) by congruence.
  pose proof (quote_ok_iff (c :: n) (py "/")) as Hqn.
  pose proof (quote_plus_ok_iff (Models.secret self)) as Hqs.
  destruct (Urllib.quote (c :: n) (py "/")) as [qn|e]; cbn [rbind];
    [|split; [|discriminate]; cbn [is_ok] in *;
      split; [discriminate|intros [H _]; apply Hqn, H]].
  unfold Urllib.urlencode.
  destruct (Models.issuer self) as [[|c' i']|]; cbn [PyotpUtils.truthy default].
  - cbn [rbind fst snd Urllib.urlencode_items Urllib.str_of].
    change (Urllib.quote_plus (py "secret") []) with (Ok (py "secret")).
    cbn [rbind].
    destruct (Urllib.quote_plus (Models.secret self) []) as [qs|e];
      cbn [rbind is_ok] in *.
    + split; [|intros uri H; apply Ok_inj in H; subst uri; reflexivity].
      split; [intros _|reflexivity].
      split; [apply Hqn; reflexivity|].
      split; [apply Hqs; reflexivity|constructor].
    + split; [|discriminate].
      split; [discriminate|intros (_ & H & _); apply Hqs, H].
  - pose proof (quote_ok_iff (c' :: i') (py "/")) as Hqi.
    pose proof (quote_plus_ok_iff (c' :: i')) as Hqq.
    destruct (Urllib.quote (c' :: i') (py "/")) as [qi|e]; cbn [rbind];
      [|split; [|discriminate]; cbn [is_ok] in *;
        split; [discriminate|intros (_ & _ & H); apply Hqi, H]].
    cbn [fst snd app Urllib.urlencode_items Urllib.str_of].
    change (Urllib.quote_plus (py "secret") []) with (Ok (py "secret")).
    change (Urllib.quote_plus (py "issuer") []) with (Ok (py "issuer")).
    cbn [rbind].
    destruct (Urllib.quote_plus (Models.secret self) []) as [qs|e];
      cbn [rbind is_ok] in *;
      [|split; [|discriminate];
        split; [discriminate|intros (_ & H & _); apply Hqs, H]].
    destruct (Urllib.quote_plus (c' :: i') []) as [qq|e];
      cbn [rbind is_ok] in *;
      [|split; [|discriminate];
        split; [discriminate|intros (_ & _ & H); apply Hqq, H]].
    split; [|intros uri H; apply Ok_inj in H; subst uri; reflexivity].
    split; [intros _|reflexivity].
    split; [apply Hqn; reflexivity|].
    split; [apply Hqs; reflexivity|apply Hqi; reflexivity].
  - cbn [rbind fst snd Urllib.urlencode_items Urllib.str_of].
    change (Urllib.quote_plus (py "secret") []) with (Ok (py "secret")).
    cbn [rbind].
    destruct (Urllib.quote_plus (Models.secret self) []) as [qs|e];
      cbn [rbind is_ok] in *.
    + split; [|intros uri H; apply Ok_inj in H; subst uri; reflexivity].
      split; [intros _|reflexivity].
      split; [apply Hqn; reflexivity|].
      split; [apply Hqs; reflexivity|constructor].
    + split; [|discriminate].
      split; [discriminate|intros (_ & H & _); apply Hqs, H].
Qed.

Lemma get_qr_code_url_returns_witness :
  Models.account_name alice_account <> []
  /\ ((is_ok (Models.get_qr_code_url alice_account) = true
       <-> Forall scalar (Models.account_name alice_account)
           /\ Forall scalar (Models.secret alice_account)
           /\ Forall scalar (default [] (Models.issuer alice_account)))
      /\ (forall uri, Models.get_qr_code_url alice_account = Ok uri ->
                      firstn 15 uri = py "otpauth://totp/")).
Proof.
  assert (H : Models.account_name alice_account <> []) by discriminate.
  split; [exact H|]. exact (get_qr_code_url_returns alice_account H).
Defined.

Example uri_surrogate_name :
  Models.get_qr_code_url
    {| Models.account_name := [0xD800];
       Models.secret := py "JBSWY3DPEHPK3PXP";
       Models.issuer := Some (py "MFA Manager");
       Models.hidden := false |}
  = Raise UnicodeEncodeError.
Proof. vm_compute. reflexivity. Qed.

(** ** A search with a query *)

(** X16. A search with a query that is not blank never fails on a table
    built by the handlers, in every world that is not before the epoch.  It
    lists exactly the accounts, hidden or not, whose name or whose issuer
    is like the stripped query between two [%]; an account with a NULL
    issuer is found by its name only. *)
Theorem search_lists_matching (unicode_upper : Z -> list Z)
        (isspace : Z -> bool) (ilike : str -> str -> bool)
        (a : Views.args) (db : App.table) (w : world) (i j : nat) (q : str) :
  App.reachable unicode_upper db ->
  after_epoch w ->
  Views.strip isspace (default [] (a !! "q"%string)) = q -> q <> [] ->
  exists rows,
    run w i j (Views.search_accounts isspace ilike a db) = Ok rows
    /\ forall id,
        In (Some (JInt id)) (map (dict_get "id") rows)
        <-> exists acc,
              db !! id = Some acc
              /\ (ilike (py "%" ++ q ++ py "%") (Models.account_name acc)
                  = true
                  \/ exists iss,
                      Models.issuer acc = Some iss
                      /\ ilike (py "%" ++ q ++ py "%") iss = true).
Proof.
  intros Hr Hw Hs Hq. unfold Views.search_accounts. cbv zeta. rewrite Hs.
  destruct q as [|c q]; [congruence|].
  set (l := List.filter (fun r => Views.matches ilike (c :: q) (snd r))
              (Views.scan db)).
  assert (Hv : Forall (fun r => valid_secret (Models.secret (snd r)) = true)
                 l).
  { apply (rows_valid unicode_upper db); [exact Hr|]. intros [id acc] Hin.
    apply List.filter_In in Hin. apply in_scan, Hin. }
  pose (mk := fun (r : Z * Models.MFAAccount) (code : str) (remaining : Z) =>
                [("id"%string, JInt (fst r));
                 ("account_name"%string, JStr (Models.account_name (snd r)));
                 ("issuer"%string, Views.jissuer (snd r));
                 ("totp_code"%string, JStr code);
                 ("remaining_time"%string, JInt remaining)] : dict).
  destruct (view_rows_in mk w l Hw Hv i j) as (rows & Hrun & H2).
  exists rows. split; [exact Hrun|].
  intros id.
  rewrite (row_ids mk
             (fun code rem => length code = 6%nat /\ 1 <= rem <= 30)
             l rows id).
  - assert (Hm : forall acc,
               Views.matches ilike (c :: q) acc = true
               <-> (ilike (py "%" ++ (c :: q) ++ py "%")
                      (Models.account_name acc) = true
                    \/ exists iss,
                        Models.issuer acc = Some iss
                        /\ ilike (py "%" ++ (c :: q) ++ py "%") iss = true)).
    { intros acc. unfold Views.matches. cbv zeta. rewrite orb_true_iff.
      destruct (Models.issuer acc) as [iss|].
      - split; (intros [H|H]; [left; exact H|right]).
        + exists iss. split; [reflexivity|exact H].
        + destruct H as (iss' & E & H). injection E as <-. exact H.
      - split; (intros [H|H]; [left; exact H|]).
        + discriminate H.
        + destruct H as (iss' & E & _). discriminate E. }
    subst l. split; intros [acc H]; exists acc.
    + apply List.filter_In in H. destruct H as [H1 H2'].
      split; [apply in_scan, H1|apply Hm, H2'].
    + apply List.filter_In. destruct H as [H1 H2'].
      split; [apply in_scan, H1|apply Hm, H2'].
  - reflexivity.
  - exact H2.
Qed.

Lemma search_lists_matching_witness :
  App.reachable (fun c => [c]) alice_table
  /\ after_epoch (faithful ticking)
  /\ Views.strip (fun c => Z.eqb c 32)
       (default [] ((<["q"%string := py " ali "]> ∅ : Views.args)
                      !! "q"%string)) = py "ali"
  /\ py "ali" <> []
  /\ exists rows,
      run (faithful ticking) 0 0
        (Views.search_accounts (fun c => Z.eqb c 32) (fun _ _ => true)
           (<["q"%string := py " ali "]> ∅) alice_table) = Ok rows
      /\ forall id,
          In (Some (JInt id)) (map (dict_get "id") rows)
          <-> exists acc,
                alice_table !! id = Some acc
                /\ (true = true
                    \/ exists iss,
                        Models.issuer acc = Some iss /\ true = true).
Proof.
  assert (H : Views.strip (fun c => Z.eqb c 32)
                (default [] ((<["q"%string := py " ali "]> ∅ : Views.args)
                               !! "q"%string)) = py "ali")
    by (vm_compute; reflexivity).
  assert (H' : py "ali" <> []) by discriminate.
  split; [exact alice_table_reachable|].
  split; [exact (faithful_after_epoch ticking)|]. split; [exact H|].
  split; [exact H'|].
  exact (search_lists_matching (fun c => [c]) (fun c => Z.eqb c 32)
           (fun _ _ => true) (<["q"%string := py " ali "]> ∅) alice_table
           (faithful ticking) 0 0 (py "ali") alice_table_reachable
           (faithful_after_epoch ticking) H H').
Defined.
